(** * donor-database: a shallow embedding of the aggregation and ranking core

    The development follows the Python package [donordatabase]:
    - [types.py]    : [Range], [DonorLevel], [DonorLevelStats], [Payment];
    - [utils.py]    : [string_to_datetime];
    - [donor.py]    : class [Donor];
    - [database.py] : class [DonorDatabase] (ingestion loop and derived views).

    Modelling choices.
    - A Python [float] amount is a rational ([Q]): every statement below is a
      statement of exact arithmetic; comparisons of amounts are [Qle]/[Qlt]
      and equality of amounts is [Qeq] ([==]).
    - A Python [dict] keeps insertion order and the code relies on it (the
      scans of [top_donor], [largest_payment], the sort of the donor keys);
      a dict is therefore an association list with unique keys, updated in
      place when the key exists and extended at the end otherwise.
    - Exceptions and warnings are explicit: a method is a function from the
      object's state to an outcome holding the result (a value or a raised
      exception), the state the object is left in, and the warnings emitted.
    - [Donor] objects are shared between [DonorDatabase._donors] and the
      derived views; the views hold the keys and [_donors] is the store.
    - [datetime.strptime] belongs to the Python library and is a parameter. *)

From Stdlib Require Import ZArith QArith Qabs List String Ascii Bool Lia Lqa.
From Stdlib Require Import Permutation Sorted Setoid Morphisms.
Import ListNotations.

Set Implicit Arguments.
Local Open Scope Q_scope.

(** ** Python values shared by the modules *)

(** Strict comparison of two amounts, as a boolean. *)
Definition Qlt_bool (x y : Q) : bool := negb (Qle_bool y x).

(** Keys of a dict: a type with a boolean equality that decides [=]. *)
Class EqKey (K : Type) := { keqb : K -> K -> bool }.

Class EqKeyOk (K : Type) {E : EqKey K} :=
  { keqb_eq : forall a b : K, keqb a b = true <-> a = b }.
Arguments EqKeyOk K {E}.

#[global] Instance EqKey_Z : EqKey Z := {| keqb := Z.eqb |}.

#[global] Instance EqKey_string : EqKey string := {| keqb := String.eqb |}.

(** *** Insertion-ordered dictionaries *)
Module PyDict.
Section Dict.
Context {K V : Type} `{EqKey K}.

Definition t := list (K * V).

(** [d.get(k)] / [d[k]] ([None] stands for the [KeyError] of [d[k]]). *)
Fixpoint get (k : K) (d : list (K * V)) : option V :=
  match d with
  | [] => None
  | (k', v) :: d' => if keqb k k' then Some v else get k d'
  end.

(** [k in d] *)
Definition contains (k : K) (d : list (K * V)) : bool :=
  match get k d with Some _ => true | None => false end.

(** [d[k] = v]: an existing key keeps its position, a new one goes last. *)
Fixpoint set (k : K) (v : V) (d : list (K * V)) : list (K * V) :=
  match d with
  | [] => [(k, v)]
  | (k', v') :: d' =>
      if keqb k k' then (k', v) :: d' else (k', v') :: set k v d'
  end.

Definition keys (d : list (K * V)) : list K := map fst d.
Definition values (d : list (K * V)) : list V := map snd d.
Definition len (d : list (K * V)) : nat := List.length d.
End Dict.
End PyDict.

(** *** [sorted(iterable, key=..., reverse=...)]

    Python's sort is stable, and [reverse=True] keeps the original order of
    the elements whose keys are equal. The model is a stable insertion sort:
    an element is placed before the first already-placed element (all of
    which followed it in the input) that does not have to precede it. *)
Definition in_order (reverse : bool) (a b : Q) : bool :=
  if reverse then Qle_bool b a else Qle_bool a b.

Fixpoint insert_sorted {A : Type} (key : A -> Q) (reverse : bool)
    (x : A) (l : list A) : list A :=
  match l with
  | [] => [x]
  | y :: l' =>
      if in_order reverse (key x) (key y) then x :: y :: l'
      else y :: insert_sorted key reverse x l'
  end.

Fixpoint sorted {A : Type} (key : A -> Q) (reverse : bool) (l : list A)
    : list A :=
  match l with
  | [] => []
  | x :: l' => insert_sorted key reverse x (sorted key reverse l')
  end.

(** [sum(xs)] over amounts, starting from [start] and adding left to right. *)
Definition sum_from (start : Q) (xs : list Q) : Q := fold_left Qplus xs start.

(** *** Exceptions, warnings and outcomes *)
Inductive exn : Type :=
| KeyError
| ValueError
| AttributeError.

Inductive result (A : Type) : Type :=
| Ok (a : A)
| Raise (e : exn).
Arguments Ok {A} a.
Arguments Raise {A} e.

(** ** types.py *)

(** [datetime.datetime] as produced by the format ['%Y-%m-%d']. *)
Record datetime : Type := mk_datetime { year : Z; month : Z; day : Z }.

(** What a date argument may be on input: a string of the data frame, a
    [datetime] object, or [None]. *)
Inductive date_arg : Type :=
| DateStr (s : string)
| DateObj (d : datetime)
| DateNone.

Record Name : Type := mk_Name { first : string; last : string; full : string }.

Record Range : Type := mk_Range { lower : Z; upper : Z }.

Record Address : Type := mk_Address {
  street1 : string; street2 : string; city : string; state : string;
  postal : Z
}.

Inductive DonorLevel : Type :=
| DONORLEVEL_ZERO | DONORLEVEL_ONE | DONORLEVEL_TWO | DONORLEVEL_THREE
| DONORLEVEL_FOUR | DONORLEVEL_FIVE | DONORLEVEL_SIX | DONORLEVEL_SEVEN
| DONORLEVEL_EIGHT | DONORLEVEL_NINE | DONORLEVEL_TEN.

(** [level.value] *)
Definition value (l : DonorLevel) : Range :=
  match l with
  | DONORLEVEL_ZERO => mk_Range 0 500
  | DONORLEVEL_ONE => mk_Range 500 1000
  | DONORLEVEL_TWO => mk_Range 1000 2500
  | DONORLEVEL_THREE => mk_Range 2500 5000
  | DONORLEVEL_FOUR => mk_Range 5000 7500
  | DONORLEVEL_FIVE => mk_Range 7500 10000
  | DONORLEVEL_SIX => mk_Range 10000 25000
  | DONORLEVEL_SEVEN => mk_Range 25000 50000
  | DONORLEVEL_EIGHT => mk_Range 50000 75000
  | DONORLEVEL_NINE => mk_Range 75000 100000
  | DONORLEVEL_TEN => mk_Range 100000 250000
  end.

(** Iterating over the enumeration ([for level in DonorLevel]) visits the
    members in definition order. *)
Definition DonorLevel_members : list DonorLevel :=
  [DONORLEVEL_ZERO; DONORLEVEL_ONE; DONORLEVEL_TWO; DONORLEVEL_THREE;
   DONORLEVEL_FOUR; DONORLEVEL_FIVE; DONORLEVEL_SIX; DONORLEVEL_SEVEN;
   DONORLEVEL_EIGHT; DONORLEVEL_NINE; DONORLEVEL_TEN].

Definition DonorLevel_eqb (a b : DonorLevel) : bool :=
  match a, b with
  | DONORLEVEL_ZERO, DONORLEVEL_ZERO | DONORLEVEL_ONE, DONORLEVEL_ONE
  | DONORLEVEL_TWO, DONORLEVEL_TWO | DONORLEVEL_THREE, DONORLEVEL_THREE
  | DONORLEVEL_FOUR, DONORLEVEL_FOUR | DONORLEVEL_FIVE, DONORLEVEL_FIVE
  | DONORLEVEL_SIX, DONORLEVEL_SIX | DONORLEVEL_SEVEN, DONORLEVEL_SEVEN
  | DONORLEVEL_EIGHT, DONORLEVEL_EIGHT | DONORLEVEL_NINE, DONORLEVEL_NINE
  | DONORLEVEL_TEN, DONORLEVEL_TEN => true
  | _, _ => false
  end.

(** Keys of [_donors_by_level]: a level, or [None] when [Donor.level]
    assigned none. *)
Definition level_key_eqb (a b : option DonorLevel) : bool :=
  match a, b with
  | Some x, Some y => DonorLevel_eqb x y
  | None, None => true
  | _, _ => false
  end.

#[global] Instance EqKey_level : EqKey (option DonorLevel) :=
  {| keqb := level_key_eqb |}.

(** [DonorLevelStats]. [std] is a square root and has no exact rational
    value: the record keeps its square, the population variance
    ([numpy.ndarray.std] uses [ddof = 0]), in [std_squared]. *)
Record DonorLevelStats : Type := mk_DonorLevelStats {
  level_of_stats : option DonorLevel;
  n_donors : nat;
  n_payments : nat;
  total : Q;
  payments_of_stats : list Q;
  max_amount : Q;
  min_amount : Q;
  mean : Q;
  std_squared : Q;
  median : Q
}.

(** The warnings of the package ([warnings.warn]), each with the values its
    message is formatted from. *)
Inductive Warning : Type :=
| NoValidDate (transaction_id user_id : Z) (fullname : string) (amount : Q)
    (contribution_type : string)                        (* types.py, l.136 *)
| UnableToAdd (transaction_id user_id donor_id : Z)     (* donor.py, l.191 *)
| AlreadyAdded (transaction_id existing_user_id : Z) (existing_amount : Q)
    (amount : Q) (user_id : Z).                         (* database.py, l.93 *)

(** *** Methods as state transformers *)
Record outcome (S A : Type) : Type := mk_outcome {
  res : result A;       (* the value returned, or the exception raised *)
  post : S;             (* the state the object is left in *)
  warned : list Warning (* the warnings emitted, oldest first *)
}.

Definition M (S A : Type) : Type := S -> outcome S A.

Definition ret {S A : Type} (a : A) : M S A :=
  fun s => mk_outcome (Ok a) s [].

Definition bind {S A B : Type} (m : M S A) (k : A -> M S B) : M S B :=
  fun s =>
    let o := m s in
    match res o with
    | Ok a =>
        let o' := k a (post o) in
        mk_outcome (res o') (post o') (warned o ++ warned o')
    | Raise e => mk_outcome (Raise e) (post o) (warned o)
    end.

Definition raise {S A : Type} (e : exn) : M S A :=
  fun s => mk_outcome (Raise e) s [].

Definition warn {S : Type} (w : Warning) : M S unit :=
  fun s => mk_outcome (Ok tt) s [w].

Definition get_self {S : Type} : M S S := fun s => mk_outcome (Ok s) s [].

Definition modify {S : Type} (f : S -> S) : M S unit :=
  fun s => mk_outcome (Ok tt) (f s) [].

(** A computation without state of its own (a constructor call), run inside
    a method. *)
Definition call {S A : Type} (c : result A * list Warning) : M S A :=
  fun s => mk_outcome (fst c) s (snd c).

Declare Scope py_scope.
Delimit Scope py_scope with py.
Notation "x <- m ;; k" := (bind m (fun x => k))
  (at level 61, m at next level, right associativity) : py_scope.
Notation "m ;;; k" := (bind m (fun _ => k))
  (at level 61, right associativity) : py_scope.

(** [for x in xs: body(x)] *)
Fixpoint for_each {S A : Type} (body : A -> M S unit) (xs : list A)
    : M S unit :=
  match xs with
  | [] => ret tt
  | x :: xs' => bind (body x) (fun _ => for_each body xs')
  end.

(** *** Truth values and [str] methods *)

(** [bool(s)] for a string. *)
Definition truthy_str (s : string) : bool :=
  match s with EmptyString => false | String _ _ => true end.

(** [bool(d)] for a date that is a [datetime] or [None]. *)
Definition truthy_date (d : option datetime) : bool :=
  match d with Some _ => true | None => false end.

(** [c.isspace()] on the ASCII range: TAB..CR, FS..US and the space. *)
Definition is_space (c : ascii) : bool :=
  let n := nat_of_ascii c in
  ((9 <=? n) && (n <=? 13) || (28 <=? n) && (n <=? 32))%nat.

Fixpoint lstrip_chars (l : list ascii) : list ascii :=
  match l with
  | c :: l' => if is_space c then lstrip_chars l' else l
  | [] => []
  end.

(** [s.strip()] *)
Definition strip (s : string) : string :=
  string_of_list_ascii
    (rev (lstrip_chars (rev (lstrip_chars (list_ascii_of_string s))))).

(** [s.split()]: the maximal runs of non-blank characters, [cur] being the
    run read so far (reversed). *)
Fixpoint split_chars (cur : list ascii) (l : list ascii) : list string :=
  match l with
  | [] =>
      match cur with
      | [] => []
      | _ => [string_of_list_ascii (rev cur)]
      end
  | c :: l' =>
      if is_space c then
        match cur with
        | [] => split_chars [] l'
        | _ => string_of_list_ascii (rev cur) :: split_chars [] l'
        end
      else split_chars (c :: cur) l'
  end.

Definition split (s : string) : list string :=
  split_chars [] (list_ascii_of_string s).

(** [sep.join(parts)] *)
Definition join (sep : string) (parts : list string) : string :=
  String.concat sep parts.

(** ** utils.py *)
Section Utils.
(** [datetime.strptime(date_str, format)]; [None] is its [ValueError]. *)
Variable strptime : string -> string -> option datetime.

Definition string_to_datetime (date_str format : string)
    : result (option datetime) :=
  if truthy_str date_str then
    match strptime date_str format with
    | Some d => Ok (Some d)
    | None => Raise ValueError
    end
  else Ok None.
End Utils.

(** ** types.py: the frozen dataclass [Payment] *)
Module Payment.
Record t : Type := mk {
  transaction_id : Z;
  user_id : Z;
  contribution_type : string;
  actual_date : option datetime;
  posted_date : option datetime;
  firstname : string;
  lastname : string;
  fullname : string;
  email : string;
  payment_type : string;
  response_meta : string;
  amount : Q;
  gl_code : Z;
  street1 : string;
  street2 : string;
  city : string;
  state : string;
  postal : Z
}.

Section Init.
Variable strptime : string -> string -> option datetime.

(** The first two steps of [__post_init__]: a date given as a string is
    converted; anything else is kept. *)
Definition convert_date (d : date_arg) : result (option datetime) :=
  match d with
  | DateStr s => string_to_datetime strptime s "%Y-%m-%d"
  | DateObj d => Ok (Some d)
  | DateNone => Ok None
  end.

(** The guard of the warning, as Python parses it:
    [(not self.actual_date) and self.posted_date]. *)
Definition date_warning_guard (actual posted : option datetime) : bool :=
  negb (truthy_date actual) && truthy_date posted.

(** [Payment(...)]: the generated [__init__] followed by [__post_init__]. *)
Definition new (transaction_id user_id : Z) (contribution_type : string)
    (actual_date posted_date : date_arg)
    (firstname lastname fullname email payment_type response_meta : string)
    (amount : Q) (gl_code : Z) (street1 street2 city state : string)
    (postal : Z) : result t * list Warning :=
  match convert_date actual_date with
  | Raise e => (Raise e, [])
  | Ok actual0 =>
      match convert_date posted_date with
      | Raise e => (Raise e, [])
      | Ok posted0 =>
          let warnings :=
            if date_warning_guard actual0 posted0
            then [NoValidDate transaction_id user_id fullname amount
                    contribution_type]
            else [] in
          let actual :=
            if truthy_date actual0 then actual0 else posted0 in
          let posted :=
            if truthy_date posted0 then posted0 else actual0 in
          (Ok (mk transaction_id user_id contribution_type actual posted
                 firstname lastname fullname email payment_type
                 response_meta amount gl_code street1 street2 city state
                 postal),
           warnings)
      end
  end.
End Init.
End Payment.

(** ** donor.py: class [Donor] *)
Module Donor.
Record t : Type := mk {
  _id : Z;
  _name : Name;
  _email : string;
  _address : Address;
  _membership_exp : option datetime;
  _payments : list (Z * Payment.t);      (* transaction ID -> Payment *)
  _donor_level : option DonorLevel;      (* cache of [level] *)
  _contributions : list (string * Q)     (* contribution type -> total *)
}.

Definition set_payments (f : list (Z * Payment.t) -> list (Z * Payment.t))
    (d : t) : t :=
  mk (_id d) (_name d) (_email d) (_address d) (_membership_exp d)
     (f (_payments d)) (_donor_level d) (_contributions d).

Definition set_donor_level (l : option DonorLevel) (d : t) : t :=
  mk (_id d) (_name d) (_email d) (_address d) (_membership_exp d)
     (_payments d) l (_contributions d).

Definition set_contributions (f : list (string * Q) -> list (string * Q))
    (d : t) : t :=
  mk (_id d) (_name d) (_email d) (_address d) (_membership_exp d)
     (_payments d) (_donor_level d) (f (_contributions d)).

(** [payments], [num_payments], [total_contributions] (properties). *)
Definition payments (self : t) : list (Z * Payment.t) := _payments self.

Definition num_payments (self : t) : nat := PyDict.len (_payments self).

Definition total_contributions (self : t) : Q :=
  sum_from 0 (PyDict.values (_contributions self)).

(** The scan shared by [largest_payment] and [largest_donation]:
    [max_amount] starts at [0.0] and a payment of the wanted type replaces
    the current maximum only when its amount is strictly greater. *)
Fixpoint largest_loop (kind : string) (ps : list Payment.t)
    (max_amount : Q) (max_payment : option Payment.t) : option Payment.t :=
  match ps with
  | [] => max_payment
  | payment :: ps' =>
      if String.eqb (Payment.contribution_type payment) kind then
        if Qlt_bool max_amount (Payment.amount payment)
        then largest_loop kind ps' (Payment.amount payment) (Some payment)
        else largest_loop kind ps' max_amount max_payment
      else largest_loop kind ps' max_amount max_payment
  end.

Definition largest_payment (self : t) : option Payment.t :=
  largest_loop "Payment" (PyDict.values (_payments self)) 0 None.

Definition largest_donation (self : t) : option Payment.t :=
  largest_loop "Donation" (PyDict.values (_payments self)) 0 None.

(** The loop of [level]: the first member whose upper bound is strictly
    above [|total|]; falling off the end assigns nothing. *)
Fixpoint level_loop (total : Q) (levels : list DonorLevel)
    : option DonorLevel :=
  match levels with
  | [] => None
  | level :: levels' =>
      if Qlt_bool (Qabs total) (inject_Z (upper (value level)))
      then Some level
      else level_loop total levels'
  end.

(** [level] (property): computed when [_donor_level] is [None], and then
    kept. *)
Definition level : M t (option DonorLevel) :=
  fun self =>
    match _donor_level self with
    | Some l => mk_outcome (Ok (Some l)) self []
    | None =>
        match level_loop (total_contributions self) DonorLevel_members with
        | Some l => mk_outcome (Ok (Some l)) (set_donor_level (Some l) self) []
        | None => mk_outcome (Ok None) self []
        end
    end.

Section Methods.
Variable strptime : string -> string -> option datetime.
Local Open Scope py_scope.

(** [Donor(...)]. The identity fields come from a row of the data frame
    and are strings. *)
Definition new (user_id : Z) (firstname lastname fullname email : string)
    (street1 street2 city state : string) (postal : Z)
    (membership_exp : date_arg) : result t :=
  let full :=
    if truthy_str fullname then join " " (split fullname)
    else join " " [strip firstname; strip lastname] in
  let name := mk_Name (strip firstname) (strip lastname) full in
  let address :=
    mk_Address (strip street1) (strip street2) (strip city) (strip state)
      postal in
  let fresh (exp : option datetime) :=
    mk user_id name (strip email) address exp []
       None [("Payment"%string, 0); ("Donation"%string, 0);
             ("Refund"%string, 0)] in
  match membership_exp with
  | DateStr s =>
      if truthy_str s then
        match strptime s "%Y-%m-%d" with
        | Some d => Ok (fresh (Some d))
        | None => Raise ValueError
        end
      else Ok (fresh None)
  | DateObj d => Ok (fresh (Some d))
  | DateNone => Ok (fresh None)
  end.

(** [add_payment]. The payment is stored before the running total is
    updated, so a contribution type that is no key of [_contributions]
    raises [KeyError] with the payment already stored. *)
Definition add_payment (transaction_id user_id : Z)
    (contribution_type : string) (actual_date posted_date : date_arg)
    (payment_type response_meta : string) (amount : Q) (gl_code : Z)
    : M t (option Payment.t) :=
  self <- get_self ;;
  if Z.eqb (_id self) user_id then
    payment <- call (Payment.new strptime transaction_id user_id
                       contribution_type actual_date posted_date
                       (first (_name self)) (last (_name self))
                       (full (_name self)) (_email self)
                       payment_type response_meta amount gl_code
                       (street1 (_address self)) (street2 (_address self))
                       (city (_address self)) (state (_address self))
                       (postal (_address self))) ;;
    modify (set_payments (PyDict.set transaction_id payment)) ;;;
    self <- get_self ;;
    match PyDict.get (Payment.contribution_type payment)
                     (_contributions self) with
    | None => raise KeyError
    | Some current =>
        modify (set_contributions
                  (PyDict.set (Payment.contribution_type payment)
                              (current + Payment.amount payment))) ;;;
        ret (Some payment)
    end
  else
    warn (UnableToAdd transaction_id user_id (_id self)) ;;;
    ret None.
End Methods.
End Donor.

(** ** numpy reductions used by [get_donor_level_stats] *)

Definition Qmax (a b : Q) : Q := if Qle_bool a b then b else a.
Definition Qmin (a b : Q) : Q := if Qle_bool a b then a else b.

(** [a.max()] and [a.min()] raise [ValueError] on an empty array. *)
Definition np_max (a : list Q) : result Q :=
  match a with
  | [] => Raise ValueError
  | x :: a' => Ok (fold_left Qmax a' x)
  end.

Definition np_min (a : list Q) : result Q :=
  match a with
  | [] => Raise ValueError
  | x :: a' => Ok (fold_left Qmin a' x)
  end.

Definition np_len (a : list Q) : Q := inject_Z (Z.of_nat (List.length a)).

Definition np_mean (a : list Q) : Q := sum_from 0 a / np_len a.

(** The square of [a.std()]: the mean of the squared deviations. *)
Definition np_var (a : list Q) : Q :=
  let m := np_mean a in
  np_mean (map (fun x => (x - m) * (x - m)) a).

(** [numpy.median]: the middle of the sorted values, or the mean of the two
    middle ones. *)
Definition np_median (a : list Q) : Q :=
  let s := sorted (fun x => x) false a in
  let n := List.length s in
  if Nat.even n
  then (nth (n / 2 - 1) s 0 + nth (n / 2) s 0) / 2
  else nth (n / 2) s 0.

(** ** database.py: class [DonorDatabase] *)
Module DonorDatabase.

(** One row of the concatenated data frame ([row] of [itertuples()]). *)
Record Row : Type := mk_Row {
  user_id : Z;
  firstname : string;
  lastname : string;
  full_name : string;
  email : string;
  street_1 : string;
  street_2 : string;
  city : string;
  state : string;
  postal : Z;
  membership_expiration_date : date_arg;
  transaction_id : Z;
  type : string;
  actual_date : date_arg;
  posted_date : date_arg;
  payment_type : string;
  response_meta : string;
  amount : Q;
  gl_code : Z
}.

(** The attributes of a [DonorDatabase] that ingestion and the donor views
    use. A view refers to the [Donor] objects of [_donors] and holds their
    keys. ([_dataframes], [_df] and the two date views are left out.) *)
Record t : Type := mk {
  _payments : list (Z * Payment.t);
  _donors : list (Z * Donor.t);
  _top_donor : option Z;
  _total_contributions : option Q;
  _donors_by_contribution : option (list Z);
  _donors_by_level : option (list (option DonorLevel * list Z));
  _donor_level_stats : option (list (option DonorLevel * DonorLevelStats))
}.

Definition set_payments (f : list (Z * Payment.t) -> list (Z * Payment.t))
    (db : t) : t :=
  mk (f (_payments db)) (_donors db) (_top_donor db)
     (_total_contributions db) (_donors_by_contribution db)
     (_donors_by_level db) (_donor_level_stats db).

Definition set_donors (f : list (Z * Donor.t) -> list (Z * Donor.t))
    (db : t) : t :=
  mk (_payments db) (f (_donors db)) (_top_donor db)
     (_total_contributions db) (_donors_by_contribution db)
     (_donors_by_level db) (_donor_level_stats db).

Definition set_top_donor (v : option Z) (db : t) : t :=
  mk (_payments db) (_donors db) v
     (_total_contributions db) (_donors_by_contribution db)
     (_donors_by_level db) (_donor_level_stats db).

Definition set_total_contributions (v : option Q) (db : t) : t :=
  mk (_payments db) (_donors db) (_top_donor db)
     v (_donors_by_contribution db)
     (_donors_by_level db) (_donor_level_stats db).

Definition set_donors_by_contribution (v : option (list Z)) (db : t) : t :=
  mk (_payments db) (_donors db) (_top_donor db)
     (_total_contributions db) v
     (_donors_by_level db) (_donor_level_stats db).

Definition set_donors_by_level
    (v : option (list (option DonorLevel * list Z))) (db : t) : t :=
  mk (_payments db) (_donors db) (_top_donor db)
     (_total_contributions db) (_donors_by_contribution db)
     v (_donor_level_stats db).

Definition set_donor_level_stats
    (v : option (list (option DonorLevel * DonorLevelStats))) (db : t) : t :=
  mk (_payments db) (_donors db) (_top_donor db)
     (_total_contributions db) (_donors_by_contribution db)
     (_donors_by_level db) v.

(** The state [__init__] starts the ingestion loop from. *)
Definition empty : t := mk [] [] None None None None None.

(** The [Donor] objects a list of keys refers to. *)
Definition donors_at (store : list (Z * Donor.t)) (uids : list Z)
    : list Donor.t :=
  flat_map (fun uid => match PyDict.get uid store with
                       | Some d => [d]
                       | None => []
                       end) uids.

(** A method call on the object [self._donors[uid]]. *)
Definition on_donor {A : Type} (uid : Z) (m : M Donor.t A) : M t A :=
  fun db =>
    match PyDict.get uid (_donors db) with
    | None => mk_outcome (Raise KeyError) db []
    | Some d =>
        let o := m d in
        mk_outcome (res o)
                   (set_donors (PyDict.set uid (post o)) db)
                   (warned o)
    end.

Section Methods.
Variable strptime : string -> string -> option datetime.
Local Open Scope py_scope.

(** First step of the loop body: a row of an unknown [user_id] adds a
    new [Donor] to [_donors]. *)
Definition ensure_donor (row : Row) : M t unit :=
  self <- get_self ;;
  if negb (PyDict.contains (user_id row) (_donors self)) then
    donor <- call (Donor.new strptime (user_id row) (firstname row)
                     (lastname row) (full_name row) (email row)
                     (street_1 row) (street_2 row) (city row) (state row)
                     (postal row) (membership_expiration_date row), []) ;;
    modify (set_donors (PyDict.set (user_id row) donor))
  else ret tt.

(** Last step of the loop body ([if payment: ...]): a transaction
    identifier already in [_payments] is reported, and the payment is
    stored under it either way. *)
Definition record_payment (payment : option Payment.t) : M t unit :=
  match payment with
  | Some payment =>
      self <- get_self ;;
      (match PyDict.get (Payment.transaction_id payment)
                        (_payments self) with
       | Some existing =>
           warn (AlreadyAdded (Payment.transaction_id payment)
                   (Payment.user_id existing) (Payment.amount existing)
                   (Payment.amount payment) (Payment.user_id payment))
       | None => ret tt
       end) ;;;
      modify (set_payments
                (PyDict.set (Payment.transaction_id payment) payment))
  | None => ret tt
  end.

(** The body of the ingestion loop of [__init__]. *)
Definition ingest_row (row : Row) : M t unit :=
  ensure_donor row ;;;
  payment <- on_donor (user_id row)
               (Donor.add_payment strptime (transaction_id row)
                  (user_id row) (type row) (actual_date row)
                  (posted_date row) (payment_type row) (response_meta row)
                  (amount row) (gl_code row)) ;;
  record_payment payment.

(** [DonorDatabase(filepath)], from the rows of the concatenated data
    frame on: the outcome holds the constructed object when no exception
    was raised. *)
Definition init (rows : list Row) : outcome t unit :=
  for_each ingest_row rows empty.
End Methods.

(** The scan of [top_donor]: [max_contribution] starts at [0.0] and a
    donor replaces the current one only on a strictly greater total. *)
Fixpoint top_donor_loop (donors : list (Z * Donor.t))
    (max_contribution : Q) (top : option Z) : option Z :=
  match donors with
  | [] => top
  | (uid, donor) :: donors' =>
      if Qlt_bool max_contribution (Donor.total_contributions donor)
      then top_donor_loop donors' (Donor.total_contributions donor)
                          (Some uid)
      else top_donor_loop donors' max_contribution top
  end.

Local Open Scope py_scope.

(** [top_donor] (property) *)
Definition top_donor : M t (option Donor.t) :=
  self <- get_self ;;
  (match _top_donor self with
   | None => modify (set_top_donor (top_donor_loop (_donors self) 0 None))
   | Some _ => ret tt
   end) ;;;
  self <- get_self ;;
  ret (match _top_donor self with
       | Some uid => PyDict.get uid (_donors self)
       | None => None
       end).

(** [total_contributions] (property) *)
Definition total_contributions : M t Q :=
  self <- get_self ;;
  match _total_contributions self with
  | None =>
      let v := sum_from 0 (map Donor.total_contributions
                               (PyDict.values (_donors self))) in
      modify (set_total_contributions (Some v)) ;;; ret v
  | Some v => ret v
  end.

(** [_create_donors_by_contribution]: the keys of [_donors], sorted by the
    total of the donor each one maps to, largest first. *)
Definition _create_donors_by_contribution : M t unit :=
  self <- get_self ;;
  let sorted_keys :=
    PyDict.keys
      (sorted (fun kv => Donor.total_contributions (snd kv)) true
              (_donors self)) in
  modify (set_donors_by_contribution (Some sorted_keys)).

(** The keys of [_donors_by_contribution], created on first use. *)
Definition donors_by_contribution : M t (list Z) :=
  self <- get_self ;;
  match _donors_by_contribution self with
  | Some uids => ret uids
  | None =>
      _create_donors_by_contribution ;;;
      self <- get_self ;;
      ret (match _donors_by_contribution self with
           | Some uids => uids
           | None => []
           end)
  end.

(** The loop of [get_top_donors] over [enumerate(...)]. *)
Fixpoint top_donors_loop {A : Type} (n idx : Z) (donors : list A)
    (top_donors : list A) : list A :=
  match donors with
  | [] => top_donors
  | donor :: donors' =>
      if Z.gtb idx n then top_donors
      else top_donors_loop n (idx + 1) donors' (top_donors ++ [donor])
  end.

(** [get_top_donors(n)] *)
Definition get_top_donors (n : Z) : M t (list Donor.t) :=
  uids <- donors_by_contribution ;;
  self <- get_self ;;
  ret (top_donors_loop n 0 (donors_at (_donors self) uids) []).

(** What [get_donors_by_level] returns: the list stored under [level] when
    [level] is a key of [_donors_by_level], the whole dict otherwise. *)
Inductive by_level_result : Type :=
| AtLevel (donors : list Z)
| ByLevel (groups : list (option DonorLevel * list Z)).

Definition by_level_dict (db : t) : list (option DonorLevel * list Z) :=
  match _donors_by_level db with Some groups => groups | None => [] end.

Definition update_by_level
    (f : list (option DonorLevel * list Z)
         -> list (option DonorLevel * list Z)) : M t unit :=
  modify (fun db => set_donors_by_level (Some (f (by_level_dict db))) db).

(** The body of the grouping loop. [donor.level] is read for the test and
    again for the store or the append. *)
Definition group_donor (uid : Z) : M t unit :=
  lvl <- on_donor uid Donor.level ;;
  self <- get_self ;;
  if negb (PyDict.contains lvl (by_level_dict self)) then
    lvl' <- on_donor uid Donor.level ;;
    update_by_level (PyDict.set lvl' [uid])
  else
    lvl' <- on_donor uid Donor.level ;;
    self <- get_self ;;
    match PyDict.get lvl' (by_level_dict self) with
    | Some donors => update_by_level (PyDict.set lvl' (donors ++ [uid]))
    | None => raise KeyError
    end.

(** [get_donors_by_level(level)]; the default [level] is [None]. *)
Definition get_donors_by_level (level : option DonorLevel)
    : M t by_level_result :=
  self <- get_self ;;
  (match _donors_by_level self with
   | None =>
       uids <- donors_by_contribution ;;
       modify (set_donors_by_level (Some [])) ;;;
       for_each group_donor uids
   | Some _ => ret tt
   end) ;;;
  self <- get_self ;;
  ret (match PyDict.get level (by_level_dict self) with
       | Some donors => AtLevel donors
       | None => ByLevel (by_level_dict self)
       end).

(** The statistics of one level: the inner loop over the donors of the
    level, then the [DonorLevelStats] built from the collected amounts. *)
Definition level_stats (lvl : option DonorLevel) (donors : list Donor.t)
    : result DonorLevelStats :=
  let n_contributions :=
    fold_left (fun n donor => (n + Donor.num_payments donor)%nat)
              donors 0%nat in
  let total_contributions :=
    fold_left (fun acc donor => acc + Donor.total_contributions donor)
              donors 0 in
  let payments :=
    flat_map (fun donor =>
                map Payment.amount (PyDict.values (Donor.payments donor)))
             donors in
  match np_max payments with
  | Raise e => Raise e
  | Ok mx =>
      match np_min payments with
      | Raise e => Raise e
      | Ok mn =>
          Ok (mk_DonorLevelStats lvl (List.length donors) n_contributions
                total_contributions payments mx mn (np_mean payments)
                (np_var payments) (np_median payments))
      end
  end.

(** The outer loop of [get_donor_level_stats] over the items of the dict
    of levels, filling the local dict [donor_level_stats]. *)
Fixpoint stats_loop (store : list (Z * Donor.t))
    (items : list (option DonorLevel * list Z))
    (donor_level_stats : list (option DonorLevel * DonorLevelStats))
    : result (list (option DonorLevel * DonorLevelStats)) :=
  match items with
  | [] => Ok donor_level_stats
  | (lvl, uids) :: items' =>
      match level_stats lvl (donors_at store uids) with
      | Raise e => Raise e
      | Ok s => stats_loop store items' (PyDict.set lvl s donor_level_stats)
      end
  end.

(** What [get_donor_level_stats] returns: one [DonorLevelStats] when
    [level] is a key of the dict of statistics, the whole dict otherwise. *)
Inductive stats_result : Type :=
| StatsAtLevel (stats : DonorLevelStats)
| StatsByLevel (stats : list (option DonorLevel * DonorLevelStats)).

(** [get_donor_level_stats(level)]. [get_donors_by_level()] is called
    without argument and its result is used as a dict ([.items()]): when
    it is the list stored under the key [None], that is an
    [AttributeError]. *)
Definition get_donor_level_stats (level : option DonorLevel)
    : M t stats_result :=
  self <- get_self ;;
  stats <-
    (match _donor_level_stats self with
     | Some stats => ret stats
     | None =>
         by_level <- get_donors_by_level None ;;
         match by_level with
         | AtLevel _ => raise AttributeError
         | ByLevel groups =>
             self <- get_self ;;
             match stats_loop (_donors self) groups [] with
             | Raise e => raise e
             | Ok stats =>
                 modify (set_donor_level_stats (Some stats)) ;;;
                 ret stats
             end
         end
     end) ;;
  ret (match PyDict.get level stats with
       | Some s => StatsAtLevel s
       | None => StatsByLevel stats
       end).
End DonorDatabase.

(** ** donor.py: [Donor.largest_contribution] *)

(** [max(a, b)] of two amounts: [b] only when it is strictly greater. *)
Definition py_max (a b : Q) : Q := if Qlt_bool a b then b else a.

(** [largest_contribution] (property of [Donor]). Reading [.amount] of the
    [None] that [largest_payment] or [largest_donation] returned is an
    [AttributeError]. *)
Definition largest_contribution (self : Donor.t) : result Q :=
  match Donor.largest_payment self with
  | None => Raise AttributeError
  | Some payment =>
      match Donor.largest_donation self with
      | None => Raise AttributeError
      | Some donation =>
          Ok (py_max (Payment.amount payment) (Payment.amount donation))
      end
  end.

(** ** database.py: the date views of [DonorDatabase]

    [earliest_payment] and [latest_payment] read the payments in the order
    of their posted dates, which [_create_payments_by_date] computes on
    first use. ([timespan] subtracts the two dates and is left out: the
    model has no calendar arithmetic.) *)
Module DateViews.

(** The exceptions of the date views: a comparison with [None] during the
    sort, and an index into an empty list. *)
Inductive date_exn : Type :=
| TypeError
| IndexError.

Inductive date_result (A : Type) : Type :=
| Returns (a : A)
| Raises (e : date_exn).
Arguments Returns {A} a.
Arguments Raises {A} e.

(** The attributes the date views use: [_payments] and the two caches,
    which [__init__] sets to [None]. *)
Record t : Type := mk {
  _payments : list (Z * Payment.t);
  _payments_by_date : option (list (Z * Payment.t));
  _payments_by_date_list : option (list Payment.t)
}.

(** The date views of a registry as [__init__] leaves it. *)
Definition of_registry (db : DonorDatabase.t) : t :=
  mk (DonorDatabase._payments db) None None.

(** [a < b] on [datetime] values: chronological order. *)
Definition datetime_lt (a b : datetime) : bool :=
  (year a <? year b)%Z
  || ((year a =? year b)%Z
      && ((month a <? month b)%Z
          || ((month a =? month b)%Z && (day a <? day b)%Z))).

(** [a < b] on the keys of the sort, each a [datetime] or [None]:
    comparing with [None] is a [TypeError], here [None]. *)
Definition key_lt (a b : option datetime) : option bool :=
  match a, b with
  | Some x, Some y => Some (datetime_lt x y)
  | _, _ => None
  end.

(** [sorted(self._payments, key=... .posted_date)]: a stable sort that only
    uses [<] on the keys, and raises when a comparison does. An entry is
    placed after the entries, all of which followed it in the input, whose
    key is strictly smaller. *)
Fixpoint insert_by_date (x : Z * Payment.t) (l : list (Z * Payment.t))
    : option (list (Z * Payment.t)) :=
  match l with
  | [] => Some [x]
  | y :: l' =>
      match key_lt (Payment.posted_date (snd y))
                   (Payment.posted_date (snd x)) with
      | None => None
      | Some true => option_map (cons y) (insert_by_date x l')
      | Some false => Some (x :: y :: l')
      end
  end.

Fixpoint sorted_by_date (l : list (Z * Payment.t))
    : option (list (Z * Payment.t)) :=
  match l with
  | [] => Some []
  | x :: l' =>
      match sorted_by_date l' with
      | None => None
      | Some s => insert_by_date x s
      end
  end.

(** [_create_payments_by_date]: nothing is assigned when the sort raises. *)
Definition _create_payments_by_date (self : t) : date_result unit * t :=
  match sorted_by_date (_payments self) with
  | None => (Raises TypeError, self)
  | Some by_date =>
      (Returns tt,
       mk (_payments self) (Some by_date) (Some (PyDict.values by_date)))
  end.

(** [_payments_by_date_list], created on first use. *)
Definition payments_by_date_list (self : t)
    : date_result (list Payment.t) * t :=
  match _payments_by_date_list self with
  | Some l => (Returns l, self)
  | None =>
      match _create_payments_by_date self with
      | (Raises e, self') => (Raises e, self')
      | (Returns _, self') =>
          (Returns (match _payments_by_date_list self' with
                    | Some l => l
                    | None => []
                    end),
           self')
      end
  end.

(** [earliest_payment] (property): [..._list[0].posted_date]. *)
Definition earliest_payment (self : t)
    : date_result (option datetime) * t :=
  match payments_by_date_list self with
  | (Raises e, self') => (Raises e, self')
  | (Returns l, self') =>
      match l with
      | [] => (Raises IndexError, self')
      | payment :: _ => (Returns (Payment.posted_date payment), self')
      end
  end.

(** [latest_payment] (property): [..._list[-1].posted_date]. *)
Definition latest_payment (self : t)
    : date_result (option datetime) * t :=
  match payments_by_date_list self with
  | (Raises e, self') => (Raises e, self')
  | (Returns l, self') =>
      match rev l with
      | [] => (Raises IndexError, self')
      | payment :: _ => (Returns (Payment.posted_date payment), self')
      end
  end.
End DateViews.

(** ** Concrete inputs used by the examples *)

(** The values of [datetime.strptime] on the date strings of the examples;
    any other string is treated as malformed. *)
Definition example_strptime (date_str format : string) : option datetime :=
  if String.eqb format "%Y-%m-%d" then
    if String.eqb date_str "2023-01-15" then Some (mk_datetime 2023 1 15)
    else if String.eqb date_str "2023-02-01" then Some (mk_datetime 2023 2 1)
    else None
  else None.

(** A row of contributor [uid] (no membership date, nominal date given as a
    string, no posted date). *)
Definition example_row (uid : Z) (name : string) (tid : Z) (kind : string)
    (amount : Q) : DonorDatabase.Row :=
  DonorDatabase.mk_Row uid name "Doe" "" "donor@example.org" "1 Main St" ""
    "Golden" "CO" 80401 (DateStr "") tid kind (DateStr "2023-01-15")
    (DateStr "") "card" "" amount 4000.

(** A ledger without payments, as [Donor(...)] leaves it. *)
Definition example_donor (uid : Z) : Donor.t :=
  Donor.mk uid (mk_Name "Ann" "Doe" "Ann Doe") "donor@example.org"
    (mk_Address "1 Main St" "" "Golden" "CO" 80401) None [] None
    [("Payment"%string, 0); ("Donation"%string, 0); ("Refund"%string, 0)].

(** The end-to-end scenario: three transactions of contributor 1
    (600, 200, -100) and one of contributor 2 (50). *)
Definition scenario_rows : list DonorDatabase.Row :=
  [example_row 1 "Ann" 10 "Payment" 600;
   example_row 1 "Ann" 11 "Donation" 200;
   example_row 1 "Ann" 12 "Refund" (-100);
   example_row 2 "Bob" 13 "Payment" 50].

(** Two contributors with the same total, then a third with a larger one. *)
Definition tie_rows : list DonorDatabase.Row :=
  [example_row 1 "Ann" 10 "Payment" 300;
   example_row 2 "Bob" 11 "Payment" 300;
   example_row 3 "Cid" 12 "Donation" 900].

(** A registry whose only contributor was refunded and never paid. *)
Definition refund_rows : list DonorDatabase.Row :=
  [example_row 3 "Cid" 20 "Refund" (-100)].

(** A registry with a contributor whose total reaches the upper bound of
    the highest level. *)
Definition major_rows : list DonorDatabase.Row :=
  [example_row 1 "Ann" 10 "Payment" 600;
   example_row 7 "Eve" 30 "Donation" 250000].

(** * Properties *)

Unset Implicit Arguments.

(** ** Amounts and dictionaries *)

Lemma Qlt_bool_iff (x y : Q) : Qlt_bool x y = true <-> x < y.
Proof.
  unfold Qlt_bool. rewrite negb_true_iff. split; intros Hxy.
  - apply Qnot_le_lt. intros Hle. apply Qle_bool_iff in Hle. congruence.
  - destruct (Qle_bool y x) eqn:E; [|reflexivity].
    apply Qle_bool_iff in E. exfalso. exact (Qlt_not_le _ _ Hxy E).
Qed.

Lemma Qlt_bool_false_iff (x y : Q) : Qlt_bool x y = false <-> y <= x.
Proof.
  unfold Qlt_bool. rewrite negb_false_iff. apply Qle_bool_iff.
Qed.

Lemma Qle_bool_false_iff (x y : Q) : Qle_bool x y = false <-> y < x.
Proof.
  rewrite <- Qlt_bool_iff. unfold Qlt_bool.
  destruct (Qle_bool x y); simpl; split; congruence.
Qed.

#[global] Instance EqKeyOk_Z : EqKeyOk Z.
Proof. constructor. exact Z.eqb_eq. Qed.

#[global] Instance EqKeyOk_string : EqKeyOk string.
Proof. constructor. exact String.eqb_eq. Qed.

Lemma DonorLevel_eqb_eq (a b : DonorLevel) :
  DonorLevel_eqb a b = true <-> a = b.
Proof. destruct a, b; simpl; split; congruence. Qed.

#[global] Instance EqKeyOk_level : EqKeyOk (option DonorLevel).
Proof.
  constructor. intros [a|] [b|]; simpl; try (split; congruence).
  rewrite DonorLevel_eqb_eq. split; congruence.
Qed.

Section DictFacts.
Context {K V : Type} {EK : EqKey K} {EKOk : EqKeyOk K}.
Implicit Types (k : K) (v : V) (d : list (K * V)).

Lemma keqb_refl k : keqb k k = true.
Proof. apply keqb_eq. reflexivity. Qed.

Lemma keqb_neq k k' : k <> k' -> keqb k k' = false.
Proof.
  intros Hne. destruct (keqb k k') eqn:E; [|reflexivity].
  apply keqb_eq in E. contradiction.
Qed.

Lemma get_In k v d : PyDict.get k d = Some v -> In (k, v) d.
Proof.
  induction d as [|[k' v'] d IH]; simpl; [discriminate|].
  destruct (keqb k k') eqn:E.
  - apply keqb_eq in E. subst. intros [= ->]. now left.
  - intros Hg. right. auto.
Qed.

Lemma get_None_not_key k d :
  PyDict.get k d = None <-> ~ In k (PyDict.keys d).
Proof.
  induction d as [|[k' v'] d IH]; simpl.
  - split; auto.
  - destruct (keqb k k') eqn:E.
    + apply keqb_eq in E. subst. split; [discriminate|]. intros Hn.
      exfalso. apply Hn. now left.
    + rewrite IH. split.
      * intros Hn [Heq|Hin]; [|auto]. subst.
        rewrite keqb_refl in E. discriminate.
      * intros Hn Hin. apply Hn. now right.
Qed.

Lemma get_Some_key k v d : PyDict.get k d = Some v -> In k (PyDict.keys d).
Proof.
  intros Hg. apply get_In in Hg. apply (in_map fst) in Hg. exact Hg.
Qed.

Lemma key_get_Some k d :
  In k (PyDict.keys d) -> exists v, PyDict.get k d = Some v.
Proof.
  intros Hin. destruct (PyDict.get k d) eqn:E; [eauto|].
  apply get_None_not_key in E. contradiction.
Qed.

Lemma In_get_NoDup k v d :
  NoDup (PyDict.keys d) -> In (k, v) d -> PyDict.get k d = Some v.
Proof.
  induction d as [|[k' v'] d IH]; simpl; [tauto|].
  intros Hnd [Heq|Hin].
  - inversion Heq; subst. now rewrite keqb_refl.
  - inversion Hnd as [|? ? Hnotin Hnd']; subst.
    rewrite keqb_neq; [auto|].
    intros ->. apply Hnotin. apply (in_map fst) in Hin. exact Hin.
Qed.

Lemma get_set_same k v d : PyDict.get k (PyDict.set k v d) = Some v.
Proof.
  induction d as [|[k' v'] d IH]; simpl.
  - now rewrite keqb_refl.
  - destruct (keqb k k') eqn:E; simpl; rewrite E; auto.
Qed.

Lemma get_set_other k k' v d :
  k' <> k -> PyDict.get k' (PyDict.set k v d) = PyDict.get k' d.
Proof.
  intros Hne. induction d as [|[k0 v0] d IH]; simpl.
  - now rewrite keqb_neq.
  - destruct (keqb k k0) eqn:E; simpl.
    + apply keqb_eq in E. subst k0. now rewrite keqb_neq.
    + now rewrite IH.
Qed.

Lemma set_set_same k v v' d :
  PyDict.set k v (PyDict.set k v' d) = PyDict.set k v d.
Proof.
  induction d as [|[k0 v0] d IH]; simpl.
  - now rewrite keqb_refl.
  - destruct (keqb k k0) eqn:E; simpl; rewrite E; [reflexivity|].
    now rewrite IH.
Qed.

(** Assigning to an existing key keeps the keys and their order. *)
Lemma keys_set_present k v d :
  In k (PyDict.keys d) -> PyDict.keys (PyDict.set k v d) = PyDict.keys d.
Proof.
  induction d as [|[k0 v0] d IH]; simpl; [tauto|].
  intros Hin. destruct (keqb k k0) eqn:E; simpl; [reflexivity|].
  f_equal. apply IH. destruct Hin as [->|Hin]; [|exact Hin].
  rewrite keqb_refl in E. discriminate.
Qed.

(** Assigning to a new key appends it. *)
Lemma set_absent k v d :
  ~ In k (PyDict.keys d) -> PyDict.set k v d = d ++ [(k, v)].
Proof.
  induction d as [|[k0 v0] d IH]; simpl; [reflexivity|].
  intros Hn. rewrite keqb_neq by (intros ->; apply Hn; now left).
  f_equal. apply IH. intros Hin. apply Hn. now right.
Qed.

Lemma len_set_present k v d :
  In k (PyDict.keys d) -> PyDict.len (PyDict.set k v d) = PyDict.len d.
Proof.
  intros Hin. unfold PyDict.len.
  rewrite <- (length_map fst (PyDict.set k v d)), <- (length_map fst d).
  f_equal. now apply keys_set_present.
Qed.

Lemma len_set_pos k v d : (1 <= PyDict.len (PyDict.set k v d))%nat.
Proof.
  unfold PyDict.len. destruct d as [|[k0 v0] d]; simpl; [lia|].
  destruct (keqb k k0); simpl; lia.
Qed.

Lemma keys_set_incl k v d k' :
  In k' (PyDict.keys d) -> In k' (PyDict.keys (PyDict.set k v d)).
Proof.
  induction d as [|[k0 v0] d IH]; simpl; [tauto|].
  destruct (keqb k k0); simpl; intros [->|Hin]; auto.
Qed.

Lemma NoDup_keys_set k v d :
  NoDup (PyDict.keys d) -> NoDup (PyDict.keys (PyDict.set k v d)).
Proof.
  intros Hnd. destruct (PyDict.get k d) as [v0|] eqn:Hg.
  - apply get_Some_key in Hg. now rewrite keys_set_present.
  - apply get_None_not_key in Hg. rename Hg into Hn.
    rewrite set_absent by exact Hn. unfold PyDict.keys in *.
    rewrite map_app. simpl. apply NoDup_app; auto.
    + constructor; [tauto|constructor].
    + intros a Ha [<-|[]]. contradiction.
Qed.
End DictFacts.

(** ** The tier classifier ([Donor.level]) *)

(** [abs t] lies in the half-open range of [l]. *)
Definition in_range (t : Q) (l : DonorLevel) : Prop :=
  inject_Z (lower (value l)) <= Qabs t /\ Qabs t < inject_Z (upper (value l)).

Ltac range_bounds :=
  unfold in_range, inject_Z in *; cbn [lower upper value] in *.

Lemma ranges_disjoint (t : Q) (l l' : DonorLevel) :
  in_range t l -> in_range t l' -> l = l'.
Proof.
  intros [H1 H2] [H3 H4].
  destruct l, l'; try reflexivity; range_bounds; exfalso; lra.
Qed.

Lemma in_range_below_top (t : Q) (l : DonorLevel) :
  in_range t l -> Qabs t < 250000.
Proof. intros [H1 H2]. destruct l; range_bounds; lra. Qed.

(** The loop stops at the first member whose upper bound exceeds [abs t]. *)
Lemma level_loop_first (t : Q) (levels : list DonorLevel) (l : DonorLevel) :
  Donor.level_loop t levels = Some l ->
  exists pre post,
    levels = pre ++ l :: post /\
    Forall (fun l' => inject_Z (upper (value l')) <= Qabs t) pre /\
    Qabs t < inject_Z (upper (value l)).
Proof.
  induction levels as [|l0 levels IH]; simpl; [discriminate|].
  destruct (Qlt_bool (Qabs t) (inject_Z (upper (value l0)))) eqn:E.
  - intros [= ->]. exists [], levels. apply Qlt_bool_iff in E. auto.
  - intros Hl. destruct (IH Hl) as (pre & post & -> & Hpre & Hup).
    exists (l0 :: pre), post. apply Qlt_bool_false_iff in E. auto.
Qed.

Lemma level_loop_cases (t : Q) :
  (exists l, Donor.level_loop t DonorLevel_members = Some l /\ in_range t l)
  \/ (Donor.level_loop t DonorLevel_members = None /\ 250000 <= Qabs t).
Proof.
  pose proof (Qabs_nonneg t) as H0.
  unfold DonorLevel_members, Donor.level_loop.
  repeat match goal with
  | |- context [Qlt_bool ?a ?b] =>
      let E := fresh "E" in
      destruct (Qlt_bool a b) eqn:E;
      [ apply Qlt_bool_iff in E | apply Qlt_bool_false_iff in E ]
  end;
  try (left; eexists; split; [reflexivity|]; range_bounds; split; lra).
  right. split; [reflexivity|]. range_bounds. lra.
Qed.

(** The classifier returns [l] exactly when [abs t] lies in the range of
    [l], and returns nothing exactly when [abs t] is at or above 250000, the
    upper bound of the last range. *)
Theorem level_loop_spec (t : Q) :
  (forall l, Donor.level_loop t DonorLevel_members = Some l <-> in_range t l)
  /\ (Donor.level_loop t DonorLevel_members = None <-> 250000 <= Qabs t).
Proof.
  destruct (level_loop_cases t) as [(l0 & Hl0 & Hr0)|[Hnone Hbig]].
  - split.
    + intros l. rewrite Hl0. split.
      * intros [= <-]. exact Hr0.
      * intros Hr. f_equal. exact (ranges_disjoint _ _ _ Hr0 Hr).
    + rewrite Hl0. split; [discriminate|].
      intros Hbig. apply in_range_below_top in Hr0. lra.
  - split.
    + intros l. rewrite Hnone. split; [discriminate|].
      intros Hr. apply in_range_below_top in Hr. lra.
    + tauto.
Qed.

(** The boundary of the first two ranges: 500 is in tier one, 499.99 in
    tier zero. *)
Example level_loop_boundary :
  Donor.level_loop 500 DonorLevel_members = Some DONORLEVEL_ONE /\
  Donor.level_loop (49999 # 100) DonorLevel_members = Some DONORLEVEL_ZERO /\
  Donor.level_loop (-500) DonorLevel_members = Some DONORLEVEL_ONE.
Proof. repeat split; reflexivity. Qed.


(** C1 (divergence). A donor whose single donation is 250000 has total
    250000; [level] assigns it no tier ([None]), although the claim promises
    exactly one tier for every total. The loop over the eleven ranges ends
    without a match as soon as [abs t] reaches the last upper bound. *)
Theorem level_assigns_no_tier_at_250000 :
  let o := Donor.add_payment example_strptime 30 7 "Donation"
             (DateStr "2023-01-15") (DateStr "") "card" "" 250000 4000
             (example_donor 7) in
  (exists p, res o = Ok (Some p)) /\
  Donor.total_contributions (post o) == 250000 /\
  res (Donor.level (post o)) = Ok None /\
  Donor.level_loop 250000 DonorLevel_members = None.
Proof.
  cbv zeta. split; [eexists; vm_compute; reflexivity|].
  split; [vm_compute; reflexivity|].
  split; vm_compute; reflexivity.
Qed.

(** ** Sums of amounts *)

Lemma sum_from_shift (s : Q) (l : list Q) : sum_from s l == s + sum_from 0 l.
Proof.
  revert s. induction l as [|x l IH]; intros s; unfold sum_from in *;
    cbn [fold_left].
  - ring.
  - rewrite (IH (s + x)), (IH (0 + x)). ring.
Qed.

Lemma sum_from_cons (x : Q) (l : list Q) :
  sum_from 0 (x :: l) == x + sum_from 0 l.
Proof.
  change (sum_from 0 (x :: l)) with (sum_from (0 + x) l).
  rewrite sum_from_shift. ring.
Qed.

Lemma sum_from_app (l1 l2 : list Q) :
  sum_from 0 (l1 ++ l2) == sum_from 0 l1 + sum_from 0 l2.
Proof.
  induction l1 as [|x l1 IH]; cbn [app].
  - unfold sum_from at 2. cbn [fold_left]. ring.
  - rewrite !sum_from_cons, IH. ring.
Qed.

Lemma sum_from_Permutation (l1 l2 : list Q) :
  Permutation l1 l2 -> sum_from 0 l1 == sum_from 0 l2.
Proof.
  induction 1.
  - reflexivity.
  - rewrite !sum_from_cons, IHPermutation. reflexivity.
  - rewrite !sum_from_cons. ring.
  - etransitivity; eassumption.
Qed.

(** Adding [a] to the entry of an existing key adds [a] to the sum of the
    values. *)
Lemma sum_values_set (c : list (string * Q)) (k : string) (cur a : Q) :
  PyDict.get k c = Some cur ->
  sum_from 0 (PyDict.values (PyDict.set k (cur + a) c))
  == sum_from 0 (PyDict.values c) + a.
Proof.
  unfold PyDict.values.
  induction c as [|[k0 v0] c IH]; cbn [PyDict.get PyDict.set keqb EqKey_string];
    [discriminate|].
  destruct (String.eqb k k0) eqn:E; cbn [map snd].
  - intros [= ->]. rewrite !sum_from_cons. ring.
  - intros Hg. rewrite !sum_from_cons, (IH Hg). ring.
Qed.

(** ** [Payment(...)] *)

Lemma Payment_new_converted (strptime : string -> string -> option datetime)
    (tid uid : Z) (ty : string) (ad pd : date_arg)
    (fn ln full em pt rm : string) (a : Q) (g : Z) (s1 s2 ci st : string)
    (po : Z) (actual0 posted0 : option datetime) :
  Payment.convert_date strptime ad = Ok actual0 ->
  Payment.convert_date strptime pd = Ok posted0 ->
  Payment.new strptime tid uid ty ad pd fn ln full em pt rm a g s1 s2 ci st po
  = (Ok (Payment.mk tid uid ty
           (if truthy_date actual0 then actual0 else posted0)
           (if truthy_date posted0 then posted0 else actual0)
           fn ln full em pt rm a g s1 s2 ci st po),
     if Payment.date_warning_guard actual0 posted0
     then [NoValidDate tid uid full a ty] else []).
Proof. intros Ha Hp. unfold Payment.new. rewrite Ha, Hp. reflexivity. Qed.

(** ** [Donor.add_payment] *)

Section AddPayment.
Variable strptime : string -> string -> option datetime.

(** The accepted case: the identifier matches, both dates convert and the
    contribution type is a key of the running totals. *)
Lemma add_payment_accepted (d : Donor.t) (tid uid : Z) (ty : string)
    (ad pd : date_arg) (pt rm : string) (a : Q) (g : Z)
    (actual0 posted0 : option datetime) (cur : Q) :
  Donor._id d = uid ->
  Payment.convert_date strptime ad = Ok actual0 ->
  Payment.convert_date strptime pd = Ok posted0 ->
  PyDict.get ty (Donor._contributions d) = Some cur ->
  exists p,
    Payment.transaction_id p = tid /\ Payment.user_id p = uid /\
    Payment.contribution_type p = ty /\ Payment.amount p = a /\
    res (Donor.add_payment strptime tid uid ty ad pd pt rm a g d)
      = Ok (Some p) /\
    post (Donor.add_payment strptime tid uid ty ad pd pt rm a g d)
      = Donor.set_contributions (PyDict.set ty (cur + a))
          (Donor.set_payments (PyDict.set tid p) d).
Proof.
  intros Hid Ha Hp Hc. eexists. unfold Donor.add_payment, bind, get_self.
  cbn [res post warned]. rewrite Hid, Z.eqb_refl.
  unfold call. cbn [res post warned].
  rewrite (Payment_new_converted _ _ _ _ _ _ _ _ _ _ _ _ _ _ _ _ _ _ _ _ _ Ha Hp).
  cbn [fst snd res post warned modify Donor.set_payments
       Donor._contributions Payment.contribution_type Payment.amount].
  rewrite Hc. cbn.
  repeat split; reflexivity.
Qed.
End AddPayment.

(** C3. A payment whose contributor identifier differs from the ledger's is
    rejected: [add_payment] returns [None], emits the warning and leaves the
    ledger as it was, so the transaction mapping, the running totals and
    [total_contributions] are unchanged; no exception is raised. *)
Theorem add_payment_identity_mismatch
    (strptime : string -> string -> option datetime) (d : Donor.t)
    (tid uid : Z) (ty : string) (ad pd : date_arg) (pt rm : string) (a : Q)
    (g : Z) :
  Donor._id d <> uid ->
  let o := Donor.add_payment strptime tid uid ty ad pd pt rm a g d in
  res o = Ok None /\
  post o = d /\
  warned o = [UnableToAdd tid uid (Donor._id d)] /\
  Donor._payments (post o) = Donor._payments d /\
  Donor._contributions (post o) = Donor._contributions d /\
  Donor.total_contributions (post o) = Donor.total_contributions d.
Proof.
  intros Hne o. subst o. unfold Donor.add_payment, bind, get_self.
  cbn [res post warned]. apply Z.eqb_neq in Hne. rewrite Hne.
  cbn. repeat split; reflexivity.
Qed.

Lemma add_payment_identity_mismatch_witness :
  let o := Donor.add_payment example_strptime 10 2 "Payment"
             (DateStr "2023-01-15") DateNone "card" "" 75 4000
             (example_donor 1) in
  res o = Ok None /\
  post o = example_donor 1 /\
  warned o = [UnableToAdd 10 2 (Donor._id (example_donor 1))] /\
  Donor._payments (post o) = Donor._payments (example_donor 1) /\
  Donor._contributions (post o) = Donor._contributions (example_donor 1) /\
  Donor.total_contributions (post o)
  = Donor.total_contributions (example_donor 1).
Proof.
  apply add_payment_identity_mismatch. vm_compute. discriminate.
Defined.

(** C2 (counterexample). On an empty ledger, transaction 10 is added with
    amount 100 and added again with amount 50: both calls are accepted, the
    mapping holds one transaction, and the total is 150, not 50. *)
Lemma readding_counts_both_amounts :
  let o1 := Donor.add_payment example_strptime 10 1 "Payment"
              (DateStr "2023-01-15") DateNone "card" "" 100 4000
              (example_donor 1) in
  let o2 := Donor.add_payment example_strptime 10 1 "Payment"
              (DateStr "2023-01-15") DateNone "card" "" 50 4000 (post o1) in
  (exists p1 p2, res o1 = Ok (Some p1) /\ res o2 = Ok (Some p2) /\
                 Payment.amount p1 == 100 /\ Payment.amount p2 == 50) /\
  Donor.num_payments (post o2) = 1%nat /\
  Donor.total_contributions (post o2) == 150 /\
  ~ Donor.total_contributions (post o2)
    == Donor.total_contributions (example_donor 1) + 50.
Proof.
  cbv zeta. split; [|split; [|split]].
  - do 2 eexists. repeat split; vm_compute; reflexivity.
  - vm_compute. reflexivity.
  - vm_compute. reflexivity.
  - vm_compute. discriminate.
Qed.

(** C2 (amended). When two accepted transactions share an identifier, the
    second replaces the first in the transaction mapping (the number of
    stored transactions does not grow), and the total contributions have
    grown by both amounts: nothing is reversed. *)
Theorem add_payment_twice_accumulates
    (strptime : string -> string -> option datetime) (d : Donor.t)
    (tid uid : Z) (ty1 ty2 : string) (ad1 pd1 ad2 pd2 : date_arg)
    (pt1 rm1 pt2 rm2 : string) (a1 a2 : Q) (g1 g2 : Z) :
  Donor._id d = uid ->
  In ty1 (PyDict.keys (Donor._contributions d)) ->
  In ty2 (PyDict.keys (Donor._contributions d)) ->
  (forall x, In x [ad1; pd1; ad2; pd2] ->
             exists r, Payment.convert_date strptime x = Ok r) ->
  let o1 := Donor.add_payment strptime tid uid ty1 ad1 pd1 pt1 rm1 a1 g1 d in
  let o2 := Donor.add_payment strptime tid uid ty2 ad2 pd2 pt2 rm2 a2 g2
              (post o1) in
  exists p1 p2,
    res o1 = Ok (Some p1) /\ res o2 = Ok (Some p2) /\
    Payment.amount p1 = a1 /\ Payment.amount p2 = a2 /\
    PyDict.get tid (Donor._payments (post o2)) = Some p2 /\
    Donor.num_payments (post o2) = Donor.num_payments (post o1) /\
    Donor.total_contributions (post o2)
    == Donor.total_contributions d + a1 + a2.
Proof.
  intros Hid Hk1 Hk2 Hconv o1 o2.
  destruct (Hconv ad1) as [ra1 Hra1]; [simpl; auto|].
  destruct (Hconv pd1) as [rp1 Hrp1]; [simpl; auto|].
  destruct (Hconv ad2) as [ra2 Hra2]; [simpl; auto|].
  destruct (Hconv pd2) as [rp2 Hrp2]; [simpl; auto 6|].
  destruct (key_get_Some _ _ Hk1) as [c1 Hc1].
  destruct (add_payment_accepted strptime d tid uid ty1 ad1 pd1 pt1 rm1 a1 g1
              _ _ _ Hid Hra1 Hrp1 Hc1)
    as (p1 & _ & _ & Hty1 & Ham1 & Hres1 & Hpost1).
  fold o1 in Hres1, Hpost1.
  assert (Hid1 : Donor._id (post o1) = uid) by (rewrite Hpost1; exact Hid).
  assert (Hk2' : In ty2 (PyDict.keys (Donor._contributions (post o1)))).
  { rewrite Hpost1. cbn [Donor.set_contributions Donor.set_payments
                         Donor._contributions].
    now apply keys_set_incl. }
  destruct (key_get_Some _ _ Hk2') as [c2 Hc2].
  destruct (add_payment_accepted strptime (post o1) tid uid ty2 ad2 pd2
              pt2 rm2 a2 g2 _ _ _ Hid1 Hra2 Hrp2 Hc2)
    as (p2 & _ & _ & Hty2 & Ham2 & Hres2 & Hpost2).
  fold o2 in Hres2, Hpost2.
  exists p1, p2. repeat (split; [assumption|]).
  split; [|split].
  - rewrite Hpost2. cbn [Donor.set_contributions Donor.set_payments
                         Donor._payments].
    apply get_set_same.
  - rewrite Hpost2. unfold Donor.num_payments.
    cbn [Donor.set_contributions Donor.set_payments Donor._payments].
    apply len_set_present. rewrite Hpost1.
    cbn [Donor.set_contributions Donor.set_payments Donor._payments].
    eapply get_Some_key. apply get_set_same.
  - unfold Donor.total_contributions. rewrite Hpost2.
    cbn [Donor.set_contributions Donor.set_payments Donor._contributions].
    rewrite (sum_values_set _ _ _ a2 Hc2). rewrite Hpost1.
    cbn [Donor.set_contributions Donor.set_payments Donor._contributions].
    rewrite (sum_values_set _ _ _ a1 Hc1). reflexivity.
Qed.

Lemma add_payment_twice_accumulates_witness :
  let o1 := Donor.add_payment example_strptime 10 1 "Payment"
              (DateStr "2023-01-15") DateNone "card" "" 100 4000
              (example_donor 1) in
  let o2 := Donor.add_payment example_strptime 10 1 "Donation"
              DateNone (DateStr "2023-02-01") "cash" "" 50 4000 (post o1) in
  exists p1 p2,
    res o1 = Ok (Some p1) /\ res o2 = Ok (Some p2) /\
    Payment.amount p1 = 100 /\ Payment.amount p2 = 50 /\
    PyDict.get 10%Z (Donor._payments (post o2)) = Some p2 /\
    Donor.num_payments (post o2) = Donor.num_payments (post o1) /\
    Donor.total_contributions (post o2)
    == Donor.total_contributions (example_donor 1) + 100 + 50.
Proof.
  apply add_payment_twice_accumulates.
  - reflexivity.
  - simpl. auto.
  - simpl. auto.
  - intros x [<-|[<-|[<-|[<-|[]]]]]; eexists; vm_compute; reflexivity.
Defined.

(** ** Dates of a payment ([Payment.__post_init__]) *)

(** C9 (divergence). A payment constructed with neither a nominal nor a
    posted date (both [None], or both the empty string of the data frame) is
    constructed without any warning and keeps both dates absent. The guard
    [not self.actual_date and self.posted_date] holds when the nominal date
    is absent and the posted date is present, and the warning that says no
    date is valid is emitted in that case instead. *)
Theorem no_warning_when_both_dates_absent :
  let absent := Payment.new example_strptime 10 1 "Payment" DateNone DateNone
                  "Ann" "Doe" "Ann Doe" "donor@example.org" "card" "" 75 4000
                  "1 Main St" "" "Golden" "CO" 80401 in
  let blank := Payment.new example_strptime 10 1 "Payment" (DateStr "")
                 (DateStr "") "Ann" "Doe" "Ann Doe" "donor@example.org"
                 "card" "" 75 4000 "1 Main St" "" "Golden" "CO" 80401 in
  let posted_only := Payment.new example_strptime 10 1 "Payment" DateNone
                       (DateStr "2023-02-01") "Ann" "Doe" "Ann Doe"
                       "donor@example.org" "card" "" 75 4000 "1 Main St" ""
                       "Golden" "CO" 80401 in
  (snd absent = [] /\
   exists p, fst absent = Ok p /\
             Payment.actual_date p = None /\ Payment.posted_date p = None) /\
  (snd blank = [] /\
   exists p, fst blank = Ok p /\
             Payment.actual_date p = None /\ Payment.posted_date p = None) /\
  (snd posted_only = [NoValidDate 10 1 "Ann Doe" 75 "Payment"] /\
   exists p, fst posted_only = Ok p /\
             Payment.actual_date p = Some (mk_datetime 2023 2 1) /\
             Payment.posted_date p = Some (mk_datetime 2023 2 1)).
Proof.
  cbv zeta. repeat split; try reflexivity;
    eexists; repeat split; reflexivity.
Qed.

(** The dates of a constructed payment: when exactly one of the two dates
    is present after conversion, both fields hold it; the warning is emitted
    exactly when the nominal date is absent and the posted date present. *)
Theorem payment_dates_resolve
    (strptime : string -> string -> option datetime)
    (tid uid : Z) (ty : string) (ad pd : date_arg)
    (fn ln full em pt rm : string) (a : Q) (g : Z) (s1 s2 ci st : string)
    (po : Z) (actual0 posted0 : option datetime) :
  Payment.convert_date strptime ad = Ok actual0 ->
  Payment.convert_date strptime pd = Ok posted0 ->
  let c := Payment.new strptime tid uid ty ad pd fn ln full em pt rm a g
             s1 s2 ci st po in
  exists p,
    fst c = Ok p /\
    (forall dt, actual0 = Some dt -> posted0 = None ->
       Payment.actual_date p = Some dt /\ Payment.posted_date p = Some dt) /\
    (forall dt, actual0 = None -> posted0 = Some dt ->
       Payment.actual_date p = Some dt /\ Payment.posted_date p = Some dt) /\
    (actual0 = None -> posted0 = None ->
       Payment.actual_date p = None /\ Payment.posted_date p = None) /\
    (snd c <> [] <-> actual0 = None /\ posted0 <> None).
Proof.
  intros Ha Hp c. subst c.
  rewrite (Payment_new_converted _ _ _ _ _ _ _ _ _ _ _ _ _ _ _ _ _ _ _ _ _
             Ha Hp).
  eexists. split; [reflexivity|]. cbn [fst snd Payment.actual_date
                                       Payment.posted_date].
  destruct actual0 as [x|], posted0 as [y|]; cbn;
    repeat split; intros; try discriminate; try congruence; auto.
  - destruct H as [H _]. discriminate.
  - destruct H as [H _]. discriminate.
  - destruct H as [_ H]. congruence.
Qed.

Lemma payment_dates_resolve_witness :
  let actual0 := Some (mk_datetime 2023 1 15) in
  let posted0 := @None datetime in
  let c := Payment.new example_strptime 10 1 "Payment"
             (DateStr "2023-01-15") (DateStr "") "Ann" "Doe" "Ann Doe"
             "donor@example.org" "card" "" 75 4000 "1 Main St" "" "Golden"
             "CO" 80401 in
  exists p,
    fst c = Ok p /\
    (forall dt, actual0 = Some dt -> posted0 = None ->
       Payment.actual_date p = Some dt /\ Payment.posted_date p = Some dt) /\
    (forall dt, actual0 = None -> posted0 = Some dt ->
       Payment.actual_date p = Some dt /\ Payment.posted_date p = Some dt) /\
    (actual0 = None -> posted0 = None ->
       Payment.actual_date p = None /\ Payment.posted_date p = None) /\
    (snd c <> [] <-> actual0 = None /\ posted0 <> None).
Proof.
  apply (payment_dates_resolve example_strptime 10 1 "Payment"
           (DateStr "2023-01-15") (DateStr "") "Ann" "Doe" "Ann Doe"
           "donor@example.org" "card" "" 75 4000 "1 Main St" "" "Golden" "CO"
           80401 (Some (mk_datetime 2023 1 15)) None); reflexivity.
Defined.

(** ** The scans for a maximum ([largest_payment], [largest_donation]) *)

(** [x] is the first of the selected elements of [l] with the greatest
    value, and that value is above [floor]: the selected elements before it
    have a strictly smaller value, those after it none greater. *)
Definition first_max {A : Type} (sel : A -> Prop) (val : A -> Q) (floor : Q)
    (l : list A) (x : A) : Prop :=
  exists before after,
    l = before ++ x :: after /\
    sel x /\
    floor < val x /\
    Forall (fun y => sel y -> val y < val x) before /\
    Forall (fun y => sel y -> val y <= val x) after.

(** [p] is the first payment of type [kind] with the greatest amount among
    the payments [ps], and that amount is above [floor]. *)
Definition first_largest (kind : string) (floor : Q) (ps : list Payment.t)
    (p : Payment.t) : Prop :=
  first_max (fun q => Payment.contribution_type q = kind) Payment.amount
            floor ps p.

Lemma first_max_unique {A : Type} (sel : A -> Prop) (val : A -> Q)
    (floor : Q) (l : list A) (x x' : A) :
  first_max sel val floor l x -> first_max sel val floor l x' -> x = x'.
Proof.
  intros (b1 & a1 & H1 & Hk1 & _ & Hb1 & Ha1)
         (b2 & a2 & H2 & Hk2 & _ & Hb2 & Ha2).
  rewrite H1 in H2. clear H1. revert b2 H2 Hb2.
  induction b1 as [|y b1 IHb]; intros [|z b2] H2 Hb2; cbn [app] in H2.
  - congruence.
  - injection H2 as Hy Ha. rewrite <- Hy in Hb2. rewrite Ha in Ha1.
    apply Forall_inv in Hb2. specialize (Hb2 Hk1).
    apply Forall_app in Ha1. destruct Ha1 as [_ Ha1].
    apply Forall_inv in Ha1. specialize (Ha1 Hk2). lra.
  - injection H2 as Hx Ha. rewrite Hx in Hb1. rewrite <- Ha in Ha2.
    apply Forall_inv in Hb1. specialize (Hb1 Hk2).
    apply Forall_app in Ha2. destruct Ha2 as [_ Ha2].
    apply Forall_inv in Ha2. specialize (Ha2 Hk1). lra.
  - injection H2 as _ H2. apply Forall_inv_tail in Hb1, Hb2.
    eapply IHb; eauto.
Qed.

Lemma first_max_excludes {A : Type} (sel : A -> Prop) (val : A -> Q)
    (floor : Q) (l : list A) (x : A) :
  first_max sel val floor l x ->
  Forall (fun y => sel y -> val y <= floor) l -> False.
Proof.
  intros (before & after & Hl & Hk & Hlt & _ & _) Hall.
  rewrite Hl in Hall. apply Forall_app in Hall. destruct Hall as [_ Hall].
  apply Forall_inv in Hall. specialize (Hall Hk). lra.
Qed.

Lemma largest_loop_spec (kind : string) (ps : list Payment.t) :
  forall (m : Q) (mp : option Payment.t),
    (Donor.largest_loop kind ps m mp = mp /\
     Forall (fun q => Payment.contribution_type q = kind ->
                      Payment.amount q <= m) ps)
    \/ (exists p, Donor.largest_loop kind ps m mp = Some p /\
                  first_largest kind m ps p).
Proof.
  induction ps as [|q ps IH]; intros m mp; cbn [Donor.largest_loop].
  - left. split; [reflexivity|constructor].
  - destruct (String.eqb (Payment.contribution_type q) kind) eqn:Ek.
    + apply String.eqb_eq in Ek.
      destruct (Qlt_bool m (Payment.amount q)) eqn:Em.
      * apply Qlt_bool_iff in Em. right.
        destruct (IH (Payment.amount q) (Some q))
          as [[Hr Hall]|(p & Hr & before & after & -> & Hk & Hlt & Hb & Ha)].
        -- exists q. split; [exact Hr|]. exists [], ps.
           split; [reflexivity|]. split; [exact Ek|]. split; [exact Em|].
           split; [constructor|exact Hall].
        -- exists p. split; [exact Hr|]. exists (q :: before), after.
           split; [reflexivity|]. split; [exact Hk|]. split; [lra|].
           split; [constructor; [intros _; exact Hlt|exact Hb]|exact Ha].
      * apply Qlt_bool_false_iff in Em.
        destruct (IH m mp)
          as [[Hr Hall]|(p & Hr & before & after & -> & Hk & Hlt & Hb & Ha)].
        -- left. split; [exact Hr|]. constructor; [intros _; exact Em|].
           exact Hall.
        -- right. exists p. split; [exact Hr|]. exists (q :: before), after.
           split; [reflexivity|]. split; [exact Hk|]. split; [exact Hlt|].
           split; [constructor; [intros _; lra|exact Hb]|exact Ha].
    + apply String.eqb_neq in Ek.
      destruct (IH m mp)
        as [[Hr Hall]|(p & Hr & before & after & -> & Hk & Hlt & Hb & Ha)].
      * left. split; [exact Hr|]. constructor; [|exact Hall].
        intros Hq. contradiction.
      * right. exists p. split; [exact Hr|]. exists (q :: before), after.
        split; [reflexivity|]. split; [exact Hk|]. split; [exact Hlt|].
        split; [constructor; [intros Hq; contradiction|exact Hb]|exact Ha].
Qed.

(** What the two scans return: the first transaction of the category with
    the greatest amount, provided that amount is positive; and nothing
    exactly when no transaction of the category has a positive amount. *)
Theorem largest_payment_spec (d : Donor.t) :
  let ps := PyDict.values (Donor._payments d) in
  (Donor.largest_payment d = None <->
   Forall (fun q => Payment.contribution_type q = "Payment"%string ->
                    Payment.amount q <= 0) ps) /\
  (forall p, Donor.largest_payment d = Some p <->
             first_largest "Payment" 0 ps p) /\
  (Donor.largest_donation d = None <->
   Forall (fun q => Payment.contribution_type q = "Donation"%string ->
                    Payment.amount q <= 0) ps) /\
  (forall p, Donor.largest_donation d = Some p <->
             first_largest "Donation" 0 ps p).
Proof.
  intros ps.
  assert (Hkind : forall kind,
    (Donor.largest_loop kind ps 0 None = None <->
     Forall (fun q => Payment.contribution_type q = kind ->
                      Payment.amount q <= 0) ps) /\
    (forall p, Donor.largest_loop kind ps 0 None = Some p <->
               first_largest kind 0 ps p)).
  { intros kind.
    destruct (largest_loop_spec kind ps 0 None) as [[Hr Hall]|(p & Hr & Hf)].
    - split.
      + tauto.
      + intros p. rewrite Hr. split; [discriminate|].
        intros Hf. exfalso. eapply first_max_excludes; eauto.
    - split.
      + rewrite Hr. split; [discriminate|].
        intros Hall. exfalso. eapply first_max_excludes; eauto.
      + intros p'. rewrite Hr. split.
        * intros [= <-]. exact Hf.
        * intros Hf'. f_equal. eapply first_max_unique; eauto. }
  unfold Donor.largest_payment, Donor.largest_donation. fold ps.
  destruct (Hkind "Payment"%string) as [H1 H2].
  destruct (Hkind "Donation"%string) as [H3 H4].
  repeat split; try apply H1; try apply H2; try apply H3; try apply H4.
Qed.

(** C8 (divergence). A ledger whose only transaction is a ['Payment'] of
    amount 0 has a transaction of that category, and [largest_payment]
    returns [None]; likewise for a single ['Donation'] of amount 0 and
    [largest_donation]. The running maximum starts at [0.0] and is replaced
    only by a strictly greater amount. *)
Theorem largest_payment_none_with_zero_payment :
  let o := Donor.add_payment example_strptime 10 1 "Payment"
             (DateStr "2023-01-15") DateNone "card" "" 0 4000
             (example_donor 1) in
  let o' := Donor.add_payment example_strptime 11 1 "Donation"
              (DateStr "2023-01-15") DateNone "card" "" 0 4000
              (example_donor 1) in
  (exists p, res o = Ok (Some p) /\
             PyDict.values (Donor._payments (post o)) = [p] /\
             Payment.contribution_type p = "Payment"%string) /\
  Donor.largest_payment (post o) = None /\
  (exists p, res o' = Ok (Some p) /\
             PyDict.values (Donor._payments (post o')) = [p] /\
             Payment.contribution_type p = "Donation"%string) /\
  Donor.largest_donation (post o') = None.
Proof.
  cbv zeta. split; [|split; [|split]].
  - eexists. repeat split; vm_compute; reflexivity.
  - vm_compute. reflexivity.
  - eexists. repeat split; vm_compute; reflexivity.
  - vm_compute. reflexivity.
Qed.

(** ** Loops and constructors *)

Lemma for_each_invariant {S A : Type} (body : A -> M S unit)
    (P : S -> Prop) :
  (forall x s, P s -> res (body x s) = Ok tt -> P (post (body x s))) ->
  forall xs s, P s -> res (for_each body xs s) = Ok tt ->
               P (post (for_each body xs s)).
Proof.
  intros Hstep. induction xs as [|x xs IH]; intros s Hs; cbn [for_each].
  - intros _. exact Hs.
  - unfold bind. destruct (res (body x s)) as [[]|e] eqn:Hb;
      cbn [res post]; [|discriminate].
    intros Hr. apply IH; [|exact Hr]. apply Hstep; assumption.
Qed.

Lemma Forall_set {K V : Type} {EK : EqKey K} {EKOk : EqKeyOk K}
    (P : K * V -> Prop) (k : K) (v : V) (d : list (K * V)) :
  Forall P d -> P (k, v) -> Forall P (PyDict.set k v d).
Proof.
  intros Hd Hkv. induction d as [|[k0 v0] d IH]; cbn [PyDict.set].
  - constructor; [exact Hkv|constructor].
  - destruct (keqb k k0) eqn:E.
    + apply keqb_eq in E. subst k0. constructor; [exact Hkv|].
      exact (Forall_inv_tail Hd).
    + constructor; [exact (Forall_inv Hd)|].
      apply IH. exact (Forall_inv_tail Hd).
Qed.

Lemma Payment_new_fields (strptime : string -> string -> option datetime)
    (tid uid : Z) (ty : string) (ad pd : date_arg)
    (fn ln full em pt rm : string) (a : Q) (g : Z) (s1 s2 ci st : string)
    (po : Z) (p : Payment.t) :
  fst (Payment.new strptime tid uid ty ad pd fn ln full em pt rm a g
         s1 s2 ci st po) = Ok p ->
  Payment.transaction_id p = tid /\ Payment.user_id p = uid /\
  Payment.contribution_type p = ty /\ Payment.amount p = a.
Proof.
  unfold Payment.new.
  destruct (Payment.convert_date strptime ad); [|discriminate].
  destruct (Payment.convert_date strptime pd); [|discriminate].
  cbn [fst]. intros [= <-]. cbn. auto.
Qed.

Lemma Donor_new_fields (strptime : string -> string -> option datetime)
    (uid : Z) (fn ln full em s1 s2 ci st : string) (po : Z)
    (exp : date_arg) (d : Donor.t) :
  Donor.new strptime uid fn ln full em s1 s2 ci st po exp = Ok d ->
  Donor._id d = uid /\ Donor._payments d = [] /\
  Donor._donor_level d = None /\
  Donor._contributions d
  = [("Payment"%string, 0); ("Donation"%string, 0); ("Refund"%string, 0)].
Proof.
  unfold Donor.new. destruct exp as [s|dt|].
  - destruct (truthy_str s).
    + destruct (strptime s "%Y-%m-%d"%string); [|discriminate].
      intros [= <-]. cbn. auto.
    + intros [= <-]. cbn. auto.
  - intros [= <-]. cbn. auto.
  - intros [= <-]. cbn. auto.
Qed.

Section AddPaymentCases.
Variable strptime : string -> string -> option datetime.

(** When the identifier matches, a call that returns has stored the
    payment and added its amount to the total of its type. *)
Lemma add_payment_returns (d : Donor.t) (tid uid : Z) (ty : string)
    (ad pd : date_arg) (pt rm : string) (a : Q) (g : Z)
    (r : option Payment.t) :
  Donor._id d = uid ->
  res (Donor.add_payment strptime tid uid ty ad pd pt rm a g d) = Ok r ->
  exists p cur,
    r = Some p /\
    Payment.transaction_id p = tid /\
    PyDict.get ty (Donor._contributions d) = Some cur /\
    post (Donor.add_payment strptime tid uid ty ad pd pt rm a g d)
    = Donor.set_contributions (PyDict.set ty (cur + a))
        (Donor.set_payments (PyDict.set tid p) d).
Proof.
  intros Hid.
  unfold Donor.add_payment, bind, get_self, modify, ret, raise, warn, call.
  cbn [res post warned]. rewrite Hid, Z.eqb_refl.
  match goal with
  | |- context [Payment.new ?f ?a1 ?a2 ?a3 ?a4 ?a5 ?a6 ?a7 ?a8 ?a9 ?a10
                  ?a11 ?a12 ?a13 ?a14 ?a15 ?a16 ?a17 ?a18] =>
      pose proof (Payment_new_fields f a1 a2 a3 a4 a5 a6 a7 a8 a9 a10
                    a11 a12 a13 a14 a15 a16 a17 a18) as Hf;
      destruct (Payment.new f a1 a2 a3 a4 a5 a6 a7 a8 a9 a10
                  a11 a12 a13 a14 a15 a16 a17 a18) as [[p|e] w]
  end; cbn [fst snd res post warned]; [|discriminate].
  destruct (Hf p eq_refl) as (Htid & _ & Hty & Ham).
  change (Donor._contributions (Donor.set_payments (PyDict.set tid p) d))
    with (Donor._contributions d).
  rewrite Hty.
  destruct (PyDict.get ty (Donor._contributions d)) as [cur|] eqn:Hc;
    cbn [res post warned]; [|discriminate].
  intros [= <-]. exists p, cur. rewrite Ham. auto.
Qed.
End AddPaymentCases.

(** ** Ingestion ([DonorDatabase.__init__]) *)

Lemma bind_returns {S A B : Type} (m : M S A) (k : A -> M S B) (s : S)
    (b : B) :
  res (bind m k s) = Ok b ->
  exists a, res (m s) = Ok a /\ res (k a (post (m s))) = Ok b /\
            post (bind m k s) = post (k a (post (m s))).
Proof.
  unfold bind. destruct (res (m s)) as [a|e]; cbn [res post]; [|discriminate].
  intros Hr. exists a. auto.
Qed.

Lemma bind_Ok {S A B : Type} (m : M S A) (k : A -> M S B) (s : S) (a : A) :
  res (m s) = Ok a ->
  res (bind m k s) = res (k a (post (m s))) /\
  post (bind m k s) = post (k a (post (m s))).
Proof. unfold bind. intros ->. cbn [res post]. auto. Qed.

(** A method call on a stored donor returns what the method returns and
    stores the donor's new state under the same key. *)
Lemma on_donor_found {A : Type} (uid : Z) (m : M Donor.t A)
    (db : DonorDatabase.t) (d : Donor.t) :
  PyDict.get uid (DonorDatabase._donors db) = Some d ->
  res (DonorDatabase.on_donor uid m db) = res (m d) /\
  post (DonorDatabase.on_donor uid m db)
  = DonorDatabase.set_donors (PyDict.set uid (post (m d))) db /\
  warned (DonorDatabase.on_donor uid m db) = warned (m d).
Proof. intros Hg. unfold DonorDatabase.on_donor. rewrite Hg. cbn. auto. Qed.

(** What holds of a database when the ingestion loop has processed a
    prefix of the rows: keys are unique, every donor is stored under its
    identifier, holds a payment and has no cached level, and no derived view
    has been computed. *)
Record ingested (db : DonorDatabase.t) : Prop := mk_ingested {
  ingested_keys : NoDup (PyDict.keys (DonorDatabase._donors db));
  ingested_donors :
    Forall (fun kd => Donor._id (snd kd) = fst kd /\
                      (1 <= Donor.num_payments (snd kd))%nat /\
                      Donor._donor_level (snd kd) = None)
           (DonorDatabase._donors db);
  ingested_top : DonorDatabase._top_donor db = None;
  ingested_total : DonorDatabase._total_contributions db = None;
  ingested_ranked : DonorDatabase._donors_by_contribution db = None;
  ingested_levels : DonorDatabase._donors_by_level db = None;
  ingested_stats : DonorDatabase._donor_level_stats db = None
}.

Lemma record_payment_post (payment : option Payment.t)
    (db : DonorDatabase.t) :
  res (DonorDatabase.record_payment payment db) = Ok tt /\
  post (DonorDatabase.record_payment payment db)
  = match payment with
    | Some p =>
        DonorDatabase.set_payments
          (PyDict.set (Payment.transaction_id p) p) db
    | None => db
    end.
Proof.
  destruct payment as [p|]; unfold DonorDatabase.record_payment;
    [|cbn; auto].
  unfold bind, get_self, modify. cbn [res post warned].
  destruct (PyDict.get (Payment.transaction_id p)
              (DonorDatabase._payments db)); cbn; auto.
Qed.

Section Ingestion.
Variable strptime : string -> string -> option datetime.

(** After [ensure_donor], the row's [user_id] is a key of [_donors]: the
    donor that was there, or a new one without payments. *)
Lemma ensure_donor_returns (row : DonorDatabase.Row)
    (db : DonorDatabase.t) :
  res (DonorDatabase.ensure_donor strptime row db) = Ok tt ->
  (exists d0,
     PyDict.get (DonorDatabase.user_id row) (DonorDatabase._donors db)
       = Some d0 /\
     post (DonorDatabase.ensure_donor strptime row db) = db)
  \/ (exists d0,
        PyDict.get (DonorDatabase.user_id row) (DonorDatabase._donors db)
          = None /\
        Donor._id d0 = DonorDatabase.user_id row /\
        Donor._payments d0 = [] /\ Donor._donor_level d0 = None /\
        post (DonorDatabase.ensure_donor strptime row db)
        = DonorDatabase.set_donors
            (PyDict.set (DonorDatabase.user_id row) d0) db).
Proof.
  unfold DonorDatabase.ensure_donor, bind, get_self, call, modify, ret.
  cbn [res post warned fst snd]. unfold PyDict.contains.
  destruct (PyDict.get (DonorDatabase.user_id row)
              (DonorDatabase._donors db)) as [d0|] eqn:Hg;
    cbn [negb res post warned].
  - intros _. left. exists d0. auto.
  - 
    match goal with
    | |- context [Donor.new ?f ?a1 ?a2 ?a3 ?a4 ?a5 ?a6 ?a7 ?a8 ?a9 ?a10
                    ?a11] =>
        pose proof (Donor_new_fields f a1 a2 a3 a4 a5 a6 a7 a8 a9 a10 a11)
          as Hf;
        destruct (Donor.new f a1 a2 a3 a4 a5 a6 a7 a8 a9 a10 a11)
          as [d0|e]
    end; cbn [res post warned]; [|discriminate].
    intros _. right. exists d0.
    destruct (Hf d0 eq_refl) as (Hid & Hp & Hl & _). auto.
Qed.

(** A row that is processed without exception leaves its donor, old or
    new, with the row's payment stored and its amount added. *)
Lemma ingest_row_returns (row : DonorDatabase.Row) (db : DonorDatabase.t) :
  Forall (fun kd => Donor._id (snd kd) = fst kd) (DonorDatabase._donors db) ->
  res (DonorDatabase.ingest_row strptime row db) = Ok tt ->
  exists d0 p cur,
    (PyDict.get (DonorDatabase.user_id row) (DonorDatabase._donors db)
       = Some d0
     \/ (PyDict.get (DonorDatabase.user_id row) (DonorDatabase._donors db)
           = None /\
         Donor._payments d0 = [] /\ Donor._donor_level d0 = None)) /\
    Donor._id d0 = DonorDatabase.user_id row /\
    PyDict.get (DonorDatabase.type row) (Donor._contributions d0)
      = Some cur /\
    post (DonorDatabase.ingest_row strptime row db)
    = DonorDatabase.set_payments
        (PyDict.set (DonorDatabase.transaction_id row) p)
        (DonorDatabase.set_donors
           (PyDict.set (DonorDatabase.user_id row)
              (Donor.set_contributions
                 (PyDict.set (DonorDatabase.type row)
                             (cur + DonorDatabase.amount row))
                 (Donor.set_payments
                    (PyDict.set (DonorDatabase.transaction_id row) p) d0)))
           db).
Proof.
  intros Hids Hres.
  unfold DonorDatabase.ingest_row in *.
  apply bind_returns in Hres. destruct Hres as ([] & Hnew & Hres & ->).
  apply bind_returns in Hres. destruct Hres as (r & Hadd & _ & ->).
  rewrite (proj2 (record_payment_post _ _)).
  set (db1 := post (DonorDatabase.ensure_donor strptime row db)) in *.
  assert (Hd0 : exists d0,
             PyDict.get (DonorDatabase.user_id row)
               (DonorDatabase._donors db1) = Some d0 /\
             Donor._id d0 = DonorDatabase.user_id row /\
             (PyDict.get (DonorDatabase.user_id row)
                (DonorDatabase._donors db) = Some d0
              \/ (PyDict.get (DonorDatabase.user_id row)
                    (DonorDatabase._donors db) = None /\
                  Donor._payments d0 = [] /\
                  Donor._donor_level d0 = None)) /\
             forall v,
               DonorDatabase.set_donors
                 (PyDict.set (DonorDatabase.user_id row) v) db1
               = DonorDatabase.set_donors
                   (PyDict.set (DonorDatabase.user_id row) v) db).
  { destruct (ensure_donor_returns row db Hnew)
      as [(d0 & Hg & Hpost)|(d0 & Hg & Hid & Hp & Hl & Hpost)];
      fold db1 in Hpost; exists d0; rewrite Hpost.
    - split; [exact Hg|]. split; [|auto].
      apply get_In in Hg. rewrite Forall_forall in Hids.
      exact (Hids _ Hg).
    - cbn [DonorDatabase.set_donors DonorDatabase._donors].
      rewrite get_set_same. repeat split; auto.
      intros v. unfold DonorDatabase.set_donors.
      cbn [DonorDatabase._payments DonorDatabase._donors
           DonorDatabase._top_donor DonorDatabase._total_contributions
           DonorDatabase._donors_by_contribution
           DonorDatabase._donors_by_level DonorDatabase._donor_level_stats].
      now rewrite set_set_same. }
  destruct Hd0 as (d0 & Hg1 & Hid0 & Horigin & Hsame).
  destruct (on_donor_found _ (Donor.add_payment strptime
              (DonorDatabase.transaction_id row) (DonorDatabase.user_id row)
              (DonorDatabase.type row) (DonorDatabase.actual_date row)
              (DonorDatabase.posted_date row)
              (DonorDatabase.payment_type row)
              (DonorDatabase.response_meta row) (DonorDatabase.amount row)
              (DonorDatabase.gl_code row)) db1 d0 Hg1)
    as (Hr & Hp & _).
  rewrite Hr in Hadd. rewrite Hp.
  destruct (add_payment_returns strptime d0 _ _ _ _ _ _ _ _ _ r Hid0 Hadd)
    as (p & cur & -> & Htid & Hcur & Hpost).
  rewrite Hpost, Htid. exists d0, p, cur.
  repeat (split; [assumption|]).
  now rewrite Hsame.
Qed.

Lemma ingest_row_ingested (row : DonorDatabase.Row) (db : DonorDatabase.t) :
  ingested db ->
  res (DonorDatabase.ingest_row strptime row db) = Ok tt ->
  ingested (post (DonorDatabase.ingest_row strptime row db)).
Proof.
  intros [Hnd Hall Ht Htot Hrk Hlv Hst] Hres.
  assert (Hids : Forall (fun kd => Donor._id (snd kd) = fst kd)
                   (DonorDatabase._donors db)).
  { eapply Forall_impl; [|exact Hall]. intros kd H. apply H. }
  destruct (ingest_row_returns row db Hids Hres)
    as (d0 & p & cur & Horigin & Hid0 & _ & ->).
  assert (Hlvl0 : Donor._donor_level d0 = None).
  { destruct Horigin as [Hg|(_ & _ & Hl)]; [|exact Hl].
    apply get_In in Hg. rewrite Forall_forall in Hall.
    apply (Hall _ Hg). }
  constructor; cbn [DonorDatabase.set_payments DonorDatabase.set_donors
    DonorDatabase._payments DonorDatabase._donors DonorDatabase._top_donor
    DonorDatabase._total_contributions DonorDatabase._donors_by_contribution
    DonorDatabase._donors_by_level DonorDatabase._donor_level_stats];
    try assumption.
  - now apply NoDup_keys_set.
  - apply Forall_set; [exact Hall|]. cbn [fst snd].
    split; [exact Hid0|]. split; [|exact Hlvl0].
    unfold Donor.num_payments.
    cbn [Donor.set_contributions Donor.set_payments Donor._payments].
    apply len_set_pos.
Qed.

(** The object a successful construction returns satisfies [ingested]. *)
Lemma init_ingested (rows : list DonorDatabase.Row) :
  res (DonorDatabase.init strptime rows) = Ok tt ->
  ingested (post (DonorDatabase.init strptime rows)).
Proof.
  unfold DonorDatabase.init.
  apply (for_each_invariant (DonorDatabase.ingest_row strptime) ingested).
  - intros row db. apply ingest_row_ingested.
  - constructor; cbn; try reflexivity; constructor.
Qed.
End Ingestion.

(** C10, first part. Every donor of a constructed database is stored under
    its own identifier and holds at least one payment. *)
Lemma constructed_donors_hold_payments
    (strptime : string -> string -> option datetime)
    (rows : list DonorDatabase.Row) :
  res (DonorDatabase.init strptime rows) = Ok tt ->
  forall uid d,
    In (uid, d) (DonorDatabase._donors (post (DonorDatabase.init strptime rows))) ->
    Donor._id d = uid /\ (1 <= Donor.num_payments d)%nat.
Proof.
  intros Hres uid d Hin.
  destruct (init_ingested strptime rows Hres) as [_ Hall _ _ _ _ _].
  rewrite Forall_forall in Hall. destruct (Hall _ Hin) as (H1 & H2 & _).
  auto.
Qed.

(** ** [sorted] is a stable sort *)

Section Sorted.
Context {A : Type} (key : A -> Q) (reverse : bool).

(** [a] may stand before [b] in the result. *)
Definition ordered (a b : A) : Prop :=
  in_order reverse (key a) (key b) = true.

Lemma in_order_total (x y : Q) :
  in_order reverse x y = false -> in_order reverse y x = true.
Proof.
  unfold in_order. destruct reverse; intros H;
    apply Qle_bool_false_iff in H; apply Qle_bool_iff; lra.
Qed.

Lemma in_order_trans (x y z : Q) :
  in_order reverse x y = true -> in_order reverse y z = true ->
  in_order reverse x z = true.
Proof.
  unfold in_order. destruct reverse; intros H1 H2;
    apply Qle_bool_iff in H1; apply Qle_bool_iff in H2;
    apply Qle_bool_iff; lra.
Qed.

Lemma in_order_false_neq (x y : Q) :
  in_order reverse x y = false -> ~ x == y.
Proof.
  unfold in_order. destruct reverse; intros H Heq;
    apply Qle_bool_false_iff in H; lra.
Qed.

Lemma insert_sorted_Permutation (x : A) (l : list A) :
  Permutation (insert_sorted key reverse x l) (x :: l).
Proof.
  induction l as [|y l IH]; cbn [insert_sorted]; [reflexivity|].
  destruct (in_order reverse (key x) (key y)); [reflexivity|].
  rewrite IH. apply perm_swap.
Qed.

Lemma sorted_Permutation (l : list A) :
  Permutation (sorted key reverse l) l.
Proof.
  induction l as [|x l IH]; cbn [sorted]; [reflexivity|].
  rewrite insert_sorted_Permutation. now constructor.
Qed.

Lemma insert_sorted_StronglySorted (x : A) (l : list A) :
  StronglySorted ordered l ->
  StronglySorted ordered (insert_sorted key reverse x l).
Proof.
  induction 1 as [|y l Hl IH Hy]; cbn [insert_sorted].
  - constructor; constructor.
  - destruct (in_order reverse (key x) (key y)) eqn:E.
    + constructor; [constructor; assumption|].
      constructor; [exact E|].
      eapply Forall_impl; [|exact Hy]. intros z Hz.
      exact (in_order_trans _ _ _ E Hz).
    + constructor; [exact IH|].
      apply (Permutation_Forall
               (Permutation_sym (insert_sorted_Permutation x l))).
      constructor; [exact (in_order_total _ _ E)|exact Hy].
Qed.

Lemma sorted_StronglySorted (l : list A) :
  StronglySorted ordered (sorted key reverse l).
Proof.
  induction l as [|x l IH]; cbn [sorted]; [constructor|].
  now apply insert_sorted_StronglySorted.
Qed.

(** Stability: the elements whose key equals [v] keep their order. *)
Lemma insert_sorted_filter (v : Q) (x : A) (l : list A) :
  filter (fun a => Qeq_bool (key a) v) (insert_sorted key reverse x l)
  = filter (fun a => Qeq_bool (key a) v) (x :: l).
Proof.
  induction l as [|y l IH]; cbn [insert_sorted]; [reflexivity|].
  destruct (in_order reverse (key x) (key y)) eqn:E; [reflexivity|].
  apply in_order_false_neq in E.
  cbn [filter] in *. rewrite IH.
  destruct (Qeq_bool (key x) v) eqn:Ex, (Qeq_bool (key y) v) eqn:Ey;
    try reflexivity.
  apply Qeq_bool_iff in Ex. apply Qeq_bool_iff in Ey.
  exfalso. apply E. rewrite Ex, Ey. reflexivity.
Qed.

Lemma sorted_filter (v : Q) (l : list A) :
  filter (fun a => Qeq_bool (key a) v) (sorted key reverse l)
  = filter (fun a => Qeq_bool (key a) v) l.
Proof.
  induction l as [|x l IH]; cbn [sorted]; [reflexivity|].
  rewrite insert_sorted_filter. cbn [filter]. now rewrite IH.
Qed.
End Sorted.

(** ** The ranked view ([_create_donors_by_contribution]) *)

(** The key of the sort: the total of the donor an entry maps to. *)
Definition entry_total (kv : Z * Donor.t) : Q :=
  Donor.total_contributions (snd kv).

(** The entries of [_donors] in ranked order. *)
Definition ranked_entries (db : DonorDatabase.t) : list (Z * Donor.t) :=
  sorted entry_total true (DonorDatabase._donors db).

(** The objects a list of entries of the store refers to are its values. *)
Lemma donors_at_keys (store l : list (Z * Donor.t)) :
  NoDup (PyDict.keys store) -> incl l store ->
  DonorDatabase.donors_at store (PyDict.keys l) = PyDict.values l.
Proof.
  intros Hnd. induction l as [|[k d] l IH]; intros Hincl; [reflexivity|].
  unfold DonorDatabase.donors_at, PyDict.keys, PyDict.values in *.
  cbn [map flat_map fst snd].
  rewrite (In_get_NoDup k d store Hnd) by (apply Hincl; now left).
  cbn [app]. f_equal. apply IH. intros x Hx. apply Hincl. now right.
Qed.

Lemma create_donors_by_contribution_post (db : DonorDatabase.t) :
  DonorDatabase._create_donors_by_contribution db
  = mk_outcome (Ok tt)
      (DonorDatabase.set_donors_by_contribution
         (Some (PyDict.keys (ranked_entries db))) db) [].
Proof. reflexivity. Qed.

Lemma StronglySorted_weaken {A : Type} (R R' : A -> A -> Prop)
    (l : list A) :
  (forall a b, R a b -> R' a b) ->
  StronglySorted R l -> StronglySorted R' l.
Proof.
  intros Himp. induction 1 as [|x l Hl IH Hx]; constructor; [exact IH|].
  eapply Forall_impl; [|exact Hx]. intros b. apply Himp.
Qed.

(** C5. [_create_donors_by_contribution] stores the keys of the entries of
    [_donors] in ranked order; the ranked entries are all the entries of the
    registry (a permutation of them), their totals are in descending order,
    and the sort is stable: the entries whose total equals a given value
    appear in the order they have in [_donors], the insertion order. With
    unique keys, the donors the view refers to are the values of the ranked
    entries. *)
Theorem donors_by_contribution_ranked_stable (db : DonorDatabase.t) :
  let db' := post (DonorDatabase._create_donors_by_contribution db) in
  res (DonorDatabase._create_donors_by_contribution db) = Ok tt /\
  DonorDatabase._donors_by_contribution db'
    = Some (PyDict.keys (ranked_entries db)) /\
  DonorDatabase._donors db' = DonorDatabase._donors db /\
  Permutation (ranked_entries db) (DonorDatabase._donors db) /\
  StronglySorted (fun a b => entry_total b <= entry_total a)
                 (ranked_entries db) /\
  (forall v : Q,
     filter (fun kv => Qeq_bool (entry_total kv) v) (ranked_entries db)
     = filter (fun kv => Qeq_bool (entry_total kv) v)
              (DonorDatabase._donors db)) /\
  (NoDup (PyDict.keys (DonorDatabase._donors db)) ->
   DonorDatabase.donors_at (DonorDatabase._donors db')
     (PyDict.keys (ranked_entries db))
   = PyDict.values (ranked_entries db)).
Proof.
  intros db'. subst db'. rewrite create_donors_by_contribution_post.
  cbn [res post]. split; [reflexivity|]. split; [reflexivity|].
  split; [reflexivity|]. unfold ranked_entries.
  split; [apply sorted_Permutation|].
  split.
  - apply (StronglySorted_weaken (ordered entry_total true));
      [|apply sorted_StronglySorted].
    intros a b Hab. apply Qle_bool_iff. exact Hab.
  - split; [intros v; apply sorted_filter|].
    intros Hnd. cbn [DonorDatabase.set_donors_by_contribution
                     DonorDatabase._donors].
    apply donors_at_keys; [exact Hnd|].
    intros x Hx.
    exact (Permutation_in x (sorted_Permutation entry_total true _) Hx).
Qed.

(** The ranked view on the scenario and on a tie: contributors 1 and 2 have
    the same total and keep their insertion order behind contributor 3. *)
Example ranked_examples :
  PyDict.keys (ranked_entries
                 (post (DonorDatabase.init example_strptime scenario_rows)))
  = [1%Z; 2%Z] /\
  PyDict.keys (ranked_entries
                 (post (DonorDatabase.init example_strptime tie_rows)))
  = [3%Z; 1%Z; 2%Z].
Proof. split; vm_compute; reflexivity. Qed.

Lemma donors_by_contribution_outcome (db : DonorDatabase.t) :
  DonorDatabase.donors_by_contribution db
  = match DonorDatabase._donors_by_contribution db with
    | Some uids => mk_outcome (Ok uids) db []
    | None =>
        mk_outcome (Ok (PyDict.keys (ranked_entries db)))
          (DonorDatabase.set_donors_by_contribution
             (Some (PyDict.keys (ranked_entries db))) db) []
    end.
Proof.
  unfold DonorDatabase.donors_by_contribution, bind, get_self, ret.
  cbn [res post warned].
  destruct (DonorDatabase._donors_by_contribution db); reflexivity.
Qed.

(** ** [get_top_donors] *)

Lemma top_donors_loop_firstn {A : Type} (n : Z) (donors : list A) :
  forall (idx : Z) (acc : list A),
    DonorDatabase.top_donors_loop n idx donors acc
    = acc ++ firstn (Z.to_nat (n + 1 - idx)) donors.
Proof.
  induction donors as [|d donors IH]; intros idx acc;
    cbn [DonorDatabase.top_donors_loop].
  - now rewrite firstn_nil, app_nil_r.
  - destruct (Z.gtb idx n) eqn:E.
    + apply Z.gtb_lt in E.
      replace (Z.to_nat (n + 1 - idx)) with 0%nat by lia.
      cbn [firstn]. now rewrite app_nil_r.
    + assert (idx <= n)%Z.
      { destruct (Z.gtb_spec idx n); [discriminate|lia]. }
      rewrite IH.
      replace (Z.to_nat (n + 1 - idx))
        with (S (Z.to_nat (n + 1 - (idx + 1)))) by lia.
      cbn [firstn]. now rewrite <- app_assoc.
Qed.

(** C6. For [n >= 0], [get_top_donors n] returns the first [n + 1] entries
    of the ranked sequence (all of them when there are fewer), in ranked
    order: the loop stops at the first index that is greater than [n], so the
    entry of index [n] is still taken. On a constructed database the ranked
    sequence is the sequence of all donors in ranked order. *)
Theorem get_top_donors_takes_n_plus_one (db : DonorDatabase.t) (n : Z) :
  (0 <= n)%Z ->
  exists uids,
    res (DonorDatabase.donors_by_contribution db) = Ok uids /\
    let ranked := DonorDatabase.donors_at (DonorDatabase._donors db) uids in
    let top := firstn (Z.to_nat n + 1) ranked in
    res (DonorDatabase.get_top_donors n db) = Ok top /\
    List.length top = Nat.min (Z.to_nat n + 1) (List.length ranked) /\
    ((Z.to_nat n + 1 < List.length ranked)%nat ->
     List.length top = (Z.to_nat n + 1)%nat) /\
    (ingested db ->
     ranked = PyDict.values (ranked_entries db) /\
     List.length ranked = List.length (DonorDatabase._donors db)).
Proof.
  intros Hn.
  exists (match DonorDatabase._donors_by_contribution db with
          | Some uids => uids
          | None => PyDict.keys (ranked_entries db)
          end).
  assert (Hstore : DonorDatabase._donors
                     (post (DonorDatabase.donors_by_contribution db))
                   = DonorDatabase._donors db).
  { rewrite donors_by_contribution_outcome.
    destruct (DonorDatabase._donors_by_contribution db); reflexivity. }
  assert (Hview : res (DonorDatabase.donors_by_contribution db)
                  = Ok match DonorDatabase._donors_by_contribution db with
                       | Some uids => uids
                       | None => PyDict.keys (ranked_entries db)
                       end).
  { rewrite donors_by_contribution_outcome.
    destruct (DonorDatabase._donors_by_contribution db); reflexivity. }
  split; [exact Hview|]. cbv zeta.
  split; [|split; [|split]].
  - unfold DonorDatabase.get_top_donors.
    rewrite (proj1 (bind_Ok _ _ _ _ Hview)).
    unfold bind, get_self, ret. cbn [res post warned].
    rewrite Hstore, top_donors_loop_firstn. cbn [app].
    do 2 f_equal. lia.
  - apply length_firstn.
  - intros Hlt. rewrite length_firstn. lia.
  - intros Hing. destruct Hing as [Hnd _ _ _ Hrk _ _]. rewrite Hrk.
    assert (Hvals : DonorDatabase.donors_at (DonorDatabase._donors db)
                      (PyDict.keys (ranked_entries db))
                    = PyDict.values (ranked_entries db)).
    { apply donors_at_keys; [exact Hnd|]. intros x Hx.
      exact (Permutation_in x (sorted_Permutation entry_total true _) Hx). }
    rewrite Hvals. split; [reflexivity|].
    unfold PyDict.values. rewrite length_map.
    apply Permutation_length. apply sorted_Permutation.
Qed.

Lemma get_top_donors_takes_n_plus_one_witness :
  let db := post (DonorDatabase.init example_strptime tie_rows) in
  exists uids,
    res (DonorDatabase.donors_by_contribution db) = Ok uids /\
    let ranked := DonorDatabase.donors_at (DonorDatabase._donors db) uids in
    let top := firstn (Z.to_nat 1 + 1) ranked in
    res (DonorDatabase.get_top_donors 1 db) = Ok top /\
    List.length top = Nat.min (Z.to_nat 1 + 1) (List.length ranked) /\
    ((Z.to_nat 1 + 1 < List.length ranked)%nat ->
     List.length top = (Z.to_nat 1 + 1)%nat) /\
    (ingested db ->
     ranked = PyDict.values (ranked_entries db) /\
     List.length ranked = List.length (DonorDatabase._donors db)).
Proof.
  apply (get_top_donors_takes_n_plus_one
           (post (DonorDatabase.init example_strptime tie_rows)) 1).
  lia.
Defined.

(** On the registry of three donors, [get_top_donors 1] returns two donors
    and [get_top_donors 0] one. *)
Example get_top_donors_example :
  let db := post (DonorDatabase.init example_strptime tie_rows) in
  (exists top, res (DonorDatabase.get_top_donors 1 db) = Ok top /\
               map Donor._id top = [3%Z; 1%Z]) /\
  (exists top, res (DonorDatabase.get_top_donors 0 db) = Ok top /\
               map Donor._id top = [3%Z]).
Proof.
  cbv zeta. split; eexists; split; vm_compute; reflexivity.
Qed.

(** ** [top_donor] *)

Lemma top_donor_loop_spec (donors : list (Z * Donor.t)) :
  forall (m : Q) (top : option Z),
    (DonorDatabase.top_donor_loop donors m top = top /\
     Forall (fun kv => entry_total kv <= m) donors)
    \/ (exists kv, DonorDatabase.top_donor_loop donors m top = Some (fst kv) /\
                   first_max (fun _ => True) entry_total m donors kv).
Proof.
  induction donors as [|[uid d] donors IH]; intros m top;
    cbn [DonorDatabase.top_donor_loop].
  - left. split; [reflexivity|constructor].
  - destruct (Qlt_bool m (Donor.total_contributions d)) eqn:Em.
    + apply Qlt_bool_iff in Em. right.
      destruct (IH (Donor.total_contributions d) (Some uid))
        as [[Hr Hall]|(kv & Hr & before & after & -> & _ & Hlt & Hb & Ha)].
      * exists (uid, d). split; [exact Hr|]. exists [], donors.
        split; [reflexivity|]. split; [exact I|]. split; [exact Em|].
        split; [constructor|].
        eapply Forall_impl; [|exact Hall]. intros kv Hkv _. exact Hkv.
      * exists kv. split; [exact Hr|]. exists ((uid, d) :: before), after.
        split; [reflexivity|]. split; [exact I|].
        split; [unfold entry_total in *; cbn [snd] in *; lra|].
        split; [constructor; [intros _; exact Hlt|exact Hb]|exact Ha].
    + apply Qlt_bool_false_iff in Em.
      destruct (IH m top)
        as [[Hr Hall]|(kv & Hr & before & after & -> & _ & Hlt & Hb & Ha)].
      * left. split; [exact Hr|]. constructor; [exact Em|exact Hall].
      * right. exists kv. split; [exact Hr|].
        exists ((uid, d) :: before), after.
        split; [reflexivity|]. split; [exact I|]. split; [exact Hlt|].
        split; [|exact Ha].
        constructor; [|exact Hb]. intros _.
        unfold entry_total in *. cbn [snd] in *. lra.
Qed.

Lemma top_donor_outcome (db : DonorDatabase.t) :
  DonorDatabase._top_donor db = None ->
  res (DonorDatabase.top_donor db)
  = Ok match DonorDatabase.top_donor_loop (DonorDatabase._donors db) 0 None
       with
       | Some uid => PyDict.get uid (DonorDatabase._donors db)
       | None => None
       end.
Proof.
  intros Hc. unfold DonorDatabase.top_donor, bind, get_self, modify, ret.
  cbn [res post warned]. rewrite Hc. cbn [res post warned].
  reflexivity.
Qed.

(** What [top_donor] returns when nothing is cached: the first donor, in the
    order of [_donors], with the greatest total, provided that total is
    positive; and nothing exactly when no donor has a positive total. *)
Theorem top_donor_spec (db : DonorDatabase.t) :
  DonorDatabase._top_donor db = None ->
  NoDup (PyDict.keys (DonorDatabase._donors db)) ->
  (res (DonorDatabase.top_donor db) = Ok None <->
   Forall (fun kv => entry_total kv <= 0) (DonorDatabase._donors db)) /\
  (forall d,
     res (DonorDatabase.top_donor db) = Ok (Some d) <->
     exists uid, first_max (fun _ => True) entry_total 0
                   (DonorDatabase._donors db) (uid, d)).
Proof.
  intros Hc Hnd. rewrite (top_donor_outcome db Hc).
  assert (Hweak : Forall (fun kv => entry_total kv <= 0)
                    (DonorDatabase._donors db) ->
                  Forall (fun kv : Z * Donor.t => True -> entry_total kv <= 0)
                    (DonorDatabase._donors db)).
  { intros H. eapply Forall_impl; [|exact H]. auto. }
  destruct (top_donor_loop_spec (DonorDatabase._donors db) 0 None)
    as [[Hr Hall]|([uid d] & Hr & Hf)]; rewrite Hr.
  - split; [tauto|]. intros d. split; [discriminate|].
    intros [uid Hf]. exfalso.
    exact (first_max_excludes _ _ _ _ _ Hf (Hweak Hall)).
  - cbn [fst].
    assert (Hg : PyDict.get uid (DonorDatabase._donors db) = Some d).
    { apply In_get_NoDup; [exact Hnd|].
      destruct Hf as (before & after & -> & _). apply in_elt. }
    rewrite Hg. split.
    + split; [discriminate|]. intros Hall. exfalso.
      exact (first_max_excludes _ _ _ _ _ Hf (Hweak Hall)).
    + intros d'. split.
      * intros [= <-]. exists uid. exact Hf.
      * intros [uid' Hf'].
        pose proof (first_max_unique _ _ _ _ _ _ Hf Hf') as Heq.
        congruence.
Qed.

Lemma top_donor_spec_witness :
  let db := post (DonorDatabase.init example_strptime tie_rows) in
  (res (DonorDatabase.top_donor db) = Ok None <->
   Forall (fun kv => entry_total kv <= 0) (DonorDatabase._donors db)) /\
  (forall d,
     res (DonorDatabase.top_donor db) = Ok (Some d) <->
     exists uid, first_max (fun _ => True) entry_total 0
                   (DonorDatabase._donors db) (uid, d)).
Proof.
  apply (top_donor_spec
           (post (DonorDatabase.init example_strptime tie_rows))).
  - reflexivity.
  - apply (ingested_keys _ (init_ingested example_strptime tie_rows eq_refl)).
Defined.

(** C4 (divergence). The registry built from a single refund row holds one
    donor, whose total is -100, and [top_donor] returns [None]: the running
    maximum starts at [0.0] and only a strictly greater total replaces it.
    On the scenario and on the tie the donor returned is the maximal one,
    the first of the maximal ones. *)
Theorem top_donor_none_without_positive_total :
  let o := DonorDatabase.init example_strptime refund_rows in
  res o = Ok tt /\
  map (fun kv => (fst kv, entry_total kv)) (DonorDatabase._donors (post o))
  = [(3%Z, -100)] /\
  res (DonorDatabase.top_donor (post o)) = Ok None.
Proof. cbv zeta. repeat split; vm_compute; reflexivity. Qed.

Example top_donor_examples :
  (exists d,
     res (DonorDatabase.top_donor
            (post (DonorDatabase.init example_strptime scenario_rows)))
     = Ok (Some d) /\ Donor._id d = 1%Z) /\
  (exists d,
     res (DonorDatabase.top_donor
            (post (DonorDatabase.init example_strptime
                     [example_row 1 "Ann" 10 "Payment" 300;
                      example_row 2 "Bob" 11 "Payment" 300])))
     = Ok (Some d) /\ Donor._id d = 1%Z).
Proof. split; eexists; split; vm_compute; reflexivity. Qed.

(** ** Running a method step by step *)

Lemma bind_pure {S A B : Type} (m : M S A) (k : A -> M S B) (s s' : S)
    (a : A) :
  m s = mk_outcome (Ok a) s' [] -> bind m k s = k a s'.
Proof.
  intros Hm. unfold bind. rewrite Hm. cbn [res post warned app].
  destruct (k a s'); reflexivity.
Qed.

Lemma bind_get_self {S B : Type} (k : S -> M S B) (s : S) :
  bind get_self k s = k s s.
Proof. apply bind_pure. reflexivity. Qed.

Lemma bind_modify {S B : Type} (f : S -> S) (k : unit -> M S B) (s : S) :
  bind (modify f) k s = k tt (f s).
Proof. apply bind_pure. reflexivity. Qed.

Lemma bind_ret {S A B : Type} (a : A) (k : A -> M S B) (s : S) :
  bind (ret a) k s = k a s.
Proof. apply bind_pure. reflexivity. Qed.

(** ** Grouping by level ([get_donors_by_level]) *)

(** What [level] returns, and the donor it leaves. *)
Definition level_of (d : Donor.t) : option DonorLevel :=
  match Donor._donor_level d with
  | Some l => Some l
  | None => Donor.level_loop (Donor.total_contributions d) DonorLevel_members
  end.

Definition cache_level (d : Donor.t) : Donor.t :=
  match Donor._donor_level d with
  | Some _ => d
  | None =>
      match Donor.level_loop (Donor.total_contributions d) DonorLevel_members
      with
      | Some l => Donor.set_donor_level (Some l) d
      | None => d
      end
  end.

(** The cache of a donor is empty or holds the level of its total. *)
Definition cache_ok (d : Donor.t) : Prop :=
  Donor._donor_level d = None \/
  Donor._donor_level d
  = Donor.level_loop (Donor.total_contributions d) DonorLevel_members.

(** A donor without its cache, and a store without the caches. *)
Definition forget_level (d : Donor.t) : Donor.t :=
  Donor.set_donor_level None d.

Definition forget_levels (store : list (Z * Donor.t)) : list (Z * Donor.t) :=
  map (fun kv => (fst kv, forget_level (snd kv))) store.

(** Adding [uid] to the list of its level, as the grouping loop does. *)
Definition add_to_group (lvl : option DonorLevel) (uid : Z)
    (groups : list (option DonorLevel * list Z))
    : list (option DonorLevel * list Z) :=
  PyDict.set lvl
    (match PyDict.get lvl groups with
     | Some donors => donors ++ [uid]
     | None => [uid]
     end) groups.

Lemma level_outcome (d : Donor.t) :
  Donor.level d = mk_outcome (Ok (level_of d)) (cache_level d) [].
Proof.
  unfold Donor.level, level_of, cache_level.
  destruct (Donor._donor_level d); [reflexivity|].
  destruct (Donor.level_loop _ _); reflexivity.
Qed.

Lemma cache_level_total (d : Donor.t) :
  Donor.total_contributions (cache_level d) = Donor.total_contributions d.
Proof.
  unfold cache_level. destruct (Donor._donor_level d); [reflexivity|].
  destruct (Donor.level_loop _ _); reflexivity.
Qed.

Lemma forget_cache_level (d : Donor.t) :
  forget_level (cache_level d) = forget_level d.
Proof.
  unfold cache_level. destruct (Donor._donor_level d); [reflexivity|].
  destruct (Donor.level_loop _ _); reflexivity.
Qed.

Lemma level_of_cache_level (d : Donor.t) :
  level_of (cache_level d) = level_of d.
Proof.
  unfold level_of, cache_level.
  destruct (Donor._donor_level d) eqn:E; [now rewrite E|].
  destruct (Donor.level_loop _ _) eqn:El; [reflexivity|].
  now rewrite E, El.
Qed.

Lemma cache_level_idem (d : Donor.t) :
  cache_level (cache_level d) = cache_level d.
Proof.
  destruct (Donor._donor_level d) as [l|] eqn:E.
  - unfold cache_level. rewrite E. now rewrite E.
  - destruct (Donor.level_loop (Donor.total_contributions d)
                DonorLevel_members) as [l|] eqn:El.
    + assert (Hc : cache_level d = Donor.set_donor_level (Some l) d).
      { unfold cache_level. now rewrite E, El. }
      rewrite Hc. reflexivity.
    + assert (Hc : cache_level d = d).
      { unfold cache_level. now rewrite E, El. }
      now rewrite !Hc.
Qed.

Lemma cache_ok_cache_level (d : Donor.t) :
  cache_ok d -> cache_ok (cache_level d).
Proof.
  intros Hok.
  destruct (Donor._donor_level d) as [l|] eqn:E.
  - assert (Hc : cache_level d = d) by (unfold cache_level; now rewrite E).
    now rewrite Hc.
  - destruct (Donor.level_loop (Donor.total_contributions d)
                DonorLevel_members) as [l|] eqn:El.
    + assert (Hc : cache_level d = Donor.set_donor_level (Some l) d).
      { unfold cache_level. now rewrite E, El. }
      rewrite Hc. right. cbn. exact (eq_sym El).
    + assert (Hc : cache_level d = d).
      { unfold cache_level. now rewrite E, El. }
      now rewrite Hc.
Qed.

Lemma level_of_cache_ok (d : Donor.t) :
  cache_ok d ->
  level_of d
  = Donor.level_loop (Donor.total_contributions d) DonorLevel_members.
Proof.
  unfold cache_ok, level_of. intros [H|H]; rewrite H; [reflexivity|].
  destruct (Donor.level_loop _ _); reflexivity.
Qed.

Lemma forget_level_total (d d' : Donor.t) :
  forget_level d = forget_level d' ->
  Donor.total_contributions d = Donor.total_contributions d' /\
  Donor._payments d = Donor._payments d'.
Proof.
  destruct d, d'. unfold forget_level, Donor.set_donor_level. cbn.
  intros [= -> -> -> -> -> -> ->]. auto.
Qed.

Lemma forget_levels_set (store : list (Z * Donor.t)) (uid : Z)
    (d d' : Donor.t) :
  PyDict.get uid store = Some d ->
  forget_level d' = forget_level d ->
  forget_levels (PyDict.set uid d' store) = forget_levels store.
Proof.
  intros Hg Hf. unfold forget_levels.
  induction store as [|[k v] store IH]; cbn [PyDict.get] in Hg;
    [discriminate|].
  cbn [PyDict.set]. destruct (keqb uid k) eqn:E; cbn [map fst snd].
  - injection Hg as ->. now rewrite Hf.
  - f_equal. now apply IH.
Qed.

Lemma on_donor_level (db : DonorDatabase.t) (uid : Z) (d : Donor.t) :
  PyDict.get uid (DonorDatabase._donors db) = Some d ->
  DonorDatabase.on_donor uid Donor.level db
  = mk_outcome (Ok (level_of d))
      (DonorDatabase.set_donors (PyDict.set uid (cache_level d)) db) [].
Proof.
  intros Hg. unfold DonorDatabase.on_donor. rewrite Hg, level_outcome.
  reflexivity.
Qed.

(** One step of the grouping loop on a stored donor: the donor's level is
    cached and its key is added to the list of that level. *)
Lemma group_donor_outcome (db : DonorDatabase.t) (uid : Z) (d : Donor.t) :
  PyDict.get uid (DonorDatabase._donors db) = Some d ->
  DonorDatabase.group_donor uid db
  = mk_outcome (Ok tt)
      (DonorDatabase.set_donors_by_level
         (Some (add_to_group (level_of d) uid (DonorDatabase.by_level_dict db)))
         (DonorDatabase.set_donors (PyDict.set uid (cache_level d)) db))
      [].
Proof.
  intros Hg. unfold DonorDatabase.group_donor.
  rewrite (bind_pure _ _ _ _ _ (on_donor_level db uid d Hg)).
  rewrite bind_get_self.
  set (db1 := DonorDatabase.set_donors (PyDict.set uid (cache_level d)) db).
  assert (Hg1 : PyDict.get uid (DonorDatabase._donors db1)
                = Some (cache_level d)).
  { unfold db1. cbn [DonorDatabase.set_donors DonorDatabase._donors].
    apply get_set_same. }
  assert (Hdb1 : DonorDatabase.set_donors
                   (PyDict.set uid (cache_level (cache_level d))) db1 = db1).
  { unfold db1, DonorDatabase.set_donors.
    cbn [DonorDatabase._payments DonorDatabase._donors
         DonorDatabase._top_donor DonorDatabase._total_contributions
         DonorDatabase._donors_by_contribution
         DonorDatabase._donors_by_level DonorDatabase._donor_level_stats].
    now rewrite cache_level_idem, set_set_same. }
  assert (Hgroups : DonorDatabase.by_level_dict db1
                    = DonorDatabase.by_level_dict db) by reflexivity.
  pose proof (on_donor_level db1 uid _ Hg1) as Hstep.
  rewrite Hdb1, level_of_cache_level in Hstep.
  rewrite Hgroups. unfold add_to_group, PyDict.contains.
  destruct (PyDict.get (level_of d) (DonorDatabase.by_level_dict db))
    as [donors|] eqn:Hl; cbn [negb].
  - rewrite (bind_pure _ _ _ _ _ Hstep), bind_get_self, Hgroups, Hl.
    reflexivity.
  - rewrite (bind_pure _ _ _ _ _ Hstep). reflexivity.
Qed.

(** A loop whose body returns on every element returns, and an invariant
    indexed by the elements already visited holds at the end. *)
Lemma for_each_returns {S A : Type} (body : A -> M S unit)
    (P : list A -> S -> Prop) (xs : list A) :
  (forall visited x s, In x xs -> P visited s ->
     res (body x s) = Ok tt /\ P (visited ++ [x]) (post (body x s))) ->
  forall s, P [] s ->
    res (for_each body xs s) = Ok tt /\ P xs (post (for_each body xs s)).
Proof.
  intros Hstep.
  assert (Hgen : forall ys visited s,
            incl ys xs -> P visited s ->
            res (for_each body ys s) = Ok tt /\
            P (visited ++ ys) (post (for_each body ys s))).
  { induction ys as [|y ys IH]; intros visited s Hincl Hs; cbn [for_each].
    - rewrite app_nil_r. cbn. auto.
    - destruct (Hstep visited y s (Hincl y (or_introl eq_refl)) Hs)
        as [Hr Hp].
      destruct (bind_Ok (body y) (fun _ => for_each body ys) s tt Hr)
        as [-> ->].
      replace (visited ++ y :: ys) with ((visited ++ [y]) ++ ys)
        by (rewrite <- app_assoc; reflexivity).
      apply IH; [|exact Hp]. intros z Hz. apply Hincl. now right. }
  intros s Hs. apply (Hgen xs [] s); [apply incl_refl|exact Hs].
Qed.

Lemma keys_forget_levels (store : list (Z * Donor.t)) :
  PyDict.keys (forget_levels store) = PyDict.keys store.
Proof.
  unfold PyDict.keys, forget_levels. rewrite map_map. reflexivity.
Qed.

Lemma forget_levels_keys (store store' : list (Z * Donor.t)) :
  forget_levels store' = forget_levels store ->
  PyDict.keys store' = PyDict.keys store.
Proof.
  intros H. now rewrite <- (keys_forget_levels store'), H, keys_forget_levels.
Qed.

(** Every key of the dict of groups is the level of the total of some donor
    of [store]. *)
Definition classifies (store : list (Z * Donor.t))
    (g : option DonorLevel * list Z) : Prop :=
  exists kv, In kv store /\
             fst g = Donor.level_loop (entry_total kv) DonorLevel_members.

(** The state of the grouping loop after the keys [visited]. *)
Record grouping (store0 : list (Z * Donor.t)) (visited : list Z)
    (db : DonorDatabase.t) : Prop := mk_grouping {
  grouping_store :
    forget_levels (DonorDatabase._donors db) = forget_levels store0;
  grouping_caches :
    Forall (fun kv => cache_ok (snd kv)) (DonorDatabase._donors db);
  grouping_levels :
    DonorDatabase._donors_by_level db
    = Some (DonorDatabase.by_level_dict db);
  grouping_members :
    Permutation (List.concat (PyDict.values (DonorDatabase.by_level_dict db)))
                visited;
  grouping_nonempty :
    Forall (fun g => snd g <> []) (DonorDatabase.by_level_dict db);
  grouping_keys : NoDup (PyDict.keys (DonorDatabase.by_level_dict db));
  grouping_classified :
    Forall (classifies store0) (DonorDatabase.by_level_dict db);
  grouping_stats :
    DonorDatabase._donor_level_stats db = None
}.

Lemma concat_values_add_to_group (lvl : option DonorLevel) (uid : Z)
    (groups : list (option DonorLevel * list Z)) :
  Permutation (List.concat (PyDict.values (add_to_group lvl uid groups)))
              (List.concat (PyDict.values groups) ++ [uid]).
Proof.
  unfold add_to_group, PyDict.values.
  induction groups as [|[k l] groups IH]; cbn [PyDict.get PyDict.set].
  - cbn. reflexivity.
  - destruct (keqb lvl k) eqn:E; cbn [map snd List.concat].
    + rewrite <- !app_assoc. apply Permutation_app_head.
      apply Permutation_app_comm.
    + rewrite <- app_assoc. apply Permutation_app_head.
      destruct (PyDict.get lvl groups) eqn:Hg; exact IH.
Qed.

Lemma forget_levels_In (store store' : list (Z * Donor.t)) (uid : Z)
    (d' : Donor.t) :
  forget_levels store' = forget_levels store ->
  In (uid, d') store' ->
  exists d, In (uid, d) store /\ forget_level d = forget_level d'.
Proof.
  intros Hf Hin.
  assert (H : In (uid, forget_level d') (forget_levels store)).
  { rewrite <- Hf. unfold forget_levels.
    apply (in_map (fun kv => (fst kv, forget_level (snd kv))) _ _ Hin). }
  unfold forget_levels in H. apply in_map_iff in H.
  destruct H as ([k d] & Heq & Hin'). cbn [fst snd] in Heq.
  pose proof (f_equal fst Heq) as Hk. pose proof (f_equal snd Heq) as Hd.
  cbn [fst snd] in Hk, Hd. subst k. exists d. split; assumption.
Qed.

Lemma group_donor_grouping (store0 : list (Z * Donor.t)) (visited : list Z)
    (db : DonorDatabase.t) (uid : Z) :
  grouping store0 visited db ->
  In uid (PyDict.keys store0) ->
  res (DonorDatabase.group_donor uid db) = Ok tt /\
  grouping store0 (visited ++ [uid]) (post (DonorDatabase.group_donor uid db)).
Proof.
  intros [Hst Hca Hlv Hme Hne Hnd Hcl Hstats] Hin.
  rewrite <- (forget_levels_keys _ _ Hst) in Hin.
  destruct (key_get_Some _ _ Hin) as [d Hg].
  rewrite (group_donor_outcome db uid d Hg). cbn [res post].
  split; [reflexivity|].
  assert (Hok : cache_ok d).
  { rewrite Forall_forall in Hca. exact (Hca _ (get_In _ _ _ Hg)). }
  constructor;
    cbn [DonorDatabase.set_donors_by_level DonorDatabase.set_donors
         DonorDatabase.by_level_dict DonorDatabase._donors_by_level
         DonorDatabase._donors DonorDatabase._donor_level_stats].
  - rewrite <- Hst. apply (forget_levels_set _ _ d); [exact Hg|].
    apply forget_cache_level.
  - apply Forall_set; [exact Hca|]. cbn [snd]. now apply cache_ok_cache_level.
  - reflexivity.
  - rewrite concat_values_add_to_group. now apply Permutation_app_tail.
  - unfold add_to_group. apply Forall_set; [exact Hne|]. cbn [snd].
    destruct (PyDict.get (level_of d) (DonorDatabase.by_level_dict db))
      as [l|]; [|discriminate].
    destruct l; discriminate.
  - unfold add_to_group. now apply NoDup_keys_set.
  - unfold add_to_group. apply Forall_set; [exact Hcl|].
    destruct (forget_levels_In _ _ _ _ Hst (get_In _ _ _ Hg))
      as (d0 & Hin0 & Hf0).
    exists (uid, d0). split; [exact Hin0|]. cbn [fst].
    rewrite (level_of_cache_ok d Hok). unfold entry_total. cbn [snd].
    now rewrite (proj1 (forget_level_total _ _ Hf0)).
  - exact Hstats.
Qed.

(** [get_donors_by_level] on a constructed database: every donor of the
    registry is in exactly one group, no group is empty, and the store is
    unchanged but for the cached levels. *)
Lemma get_donors_by_level_ingested (db : DonorDatabase.t)
    (level : option DonorLevel) :
  ingested db ->
  let o := DonorDatabase.get_donors_by_level level db in
  grouping (DonorDatabase._donors db) (PyDict.keys (ranked_entries db))
           (post o) /\
  res o = Ok match PyDict.get level (DonorDatabase.by_level_dict (post o))
             with
             | Some donors => DonorDatabase.AtLevel donors
             | None =>
                 DonorDatabase.ByLevel (DonorDatabase.by_level_dict (post o))
             end.
Proof.
  intros [Hnd Hall Ht Htot Hrk Hlv Hst] o. subst o.
  unfold DonorDatabase.get_donors_by_level.
  rewrite bind_get_self, Hlv.
  set (uids := PyDict.keys (ranked_entries db)).
  set (db2 := DonorDatabase.set_donors_by_level (Some [])
                (DonorDatabase.set_donors_by_contribution (Some uids) db)).
  assert (Hinner :
    bind DonorDatabase.donors_by_contribution
      (fun uids =>
         bind (modify (DonorDatabase.set_donors_by_level (Some [])))
              (fun _ => for_each DonorDatabase.group_donor uids)) db
    = for_each DonorDatabase.group_donor uids db2).
  { rewrite (bind_pure _ _ db
               (DonorDatabase.set_donors_by_contribution (Some uids) db) uids).
    - now rewrite bind_modify.
    - rewrite donors_by_contribution_outcome, Hrk. reflexivity. }
  assert (Hstart : grouping (DonorDatabase._donors db) [] db2).
  { constructor; cbn; try reflexivity; try constructor; try assumption.
    eapply Forall_impl; [|exact Hall]. intros kv (_ & _ & Hnone).
    left. exact Hnone. }
  destruct (for_each_returns DonorDatabase.group_donor
              (grouping (DonorDatabase._donors db)) uids) with (s := db2)
    as [Hres Hgrp].
  - intros visited uid s Hin Hs. apply group_donor_grouping; [exact Hs|].
    unfold uids, PyDict.keys in *. apply in_map_iff in Hin.
    destruct Hin as (kv & <- & Hkv). apply in_map.
    exact (Permutation_in kv (sorted_Permutation entry_total true _) Hkv).
  - exact Hstart.
  - rewrite <- Hinner in Hres, Hgrp.
    match goal with
    | |- context [bind ?m ?k db] =>
        destruct (bind_Ok m k db tt Hres) as [Hr Hp]
    end.
    rewrite Hr, Hp, bind_get_self. cbn [ret res post]. auto.
Qed.

(** ** Statistics per level ([get_donor_level_stats]) *)

Lemma fold_left_sum {A : Type} (f : A -> Q) (l : list A) (a : Q) :
  fold_left (fun acc x => acc + f x) l a = sum_from a (map f l).
Proof.
  revert a. induction l as [|x l IH]; intros a; [reflexivity|].
  cbn [fold_left map]. rewrite IH. reflexivity.
Qed.

(** The amounts collected for a list of donors. *)
Definition amounts_of (donors : list Donor.t) : list Q :=
  flat_map (fun donor =>
              map Payment.amount (PyDict.values (Donor.payments donor)))
           donors.

(** The statistics of a level exist as soon as one amount was collected;
    the total is the sum of the totals of the donors. *)
Lemma level_stats_returns (lvl : option DonorLevel) (donors : list Donor.t) :
  amounts_of donors <> [] ->
  exists s,
    DonorDatabase.level_stats lvl donors = Ok s /\
    level_of_stats s = lvl /\
    n_donors s = List.length donors /\
    total s = sum_from 0 (map Donor.total_contributions donors) /\
    payments_of_stats s = amounts_of donors.
Proof.
  intros Hne. unfold DonorDatabase.level_stats. fold (amounts_of donors).
  destruct (amounts_of donors) as [|x l] eqn:E; [contradiction|].
  cbn [np_max np_min]. eexists. split; [reflexivity|].
  cbn [level_of_stats n_donors total payments_of_stats].
  rewrite fold_left_sum. auto.
Qed.

Lemma level_stats_empty (lvl : option DonorLevel) (donors : list Donor.t) :
  amounts_of donors = [] ->
  DonorDatabase.level_stats lvl donors = Raise ValueError.
Proof.
  intros He. unfold DonorDatabase.level_stats. fold (amounts_of donors).
  rewrite He. reflexivity.
Qed.

Lemma amounts_of_nonempty (donors : list Donor.t) :
  donors <> [] ->
  Forall (fun d => (1 <= Donor.num_payments d)%nat) donors ->
  amounts_of donors <> [].
Proof.
  destruct donors as [|d donors]; [contradiction|]. intros _ Hall.
  apply Forall_inv in Hall. unfold amounts_of. cbn [flat_map].
  unfold Donor.num_payments, PyDict.len, Donor.payments, PyDict.values in *.
  destruct (Donor._payments d); cbn in *; [lia|discriminate].
Qed.

(** The outer loop over the groups: when the keys are distinct and every
    group has statistics, the loop returns one entry per group, in order. *)
Lemma stats_loop_returns (store : list (Z * Donor.t))
    (items : list (option DonorLevel * list Z)) :
  forall acc,
    NoDup (PyDict.keys acc ++ PyDict.keys items) ->
    Forall (fun g => amounts_of (DonorDatabase.donors_at store (snd g)) <> [])
           items ->
    exists stats,
      DonorDatabase.stats_loop store items acc = Ok (acc ++ stats) /\
      Forall2 (fun g kv =>
                 fst kv = fst g /\
                 DonorDatabase.level_stats (fst g)
                   (DonorDatabase.donors_at store (snd g)) = Ok (snd kv))
              items stats.
Proof.
  induction items as [|[lvl uids] items IH]; intros acc Hnd Hall;
    cbn [DonorDatabase.stats_loop].
  - exists []. rewrite app_nil_r. split; [reflexivity|constructor].
  - destruct (level_stats_returns lvl _ (Forall_inv Hall))
      as (s & Hs & _).
    cbn [snd] in Hs. rewrite Hs.
    assert (Hnotin : ~ In lvl (PyDict.keys acc)).
    { intros Hin. unfold PyDict.keys in Hnd. cbn [map fst] in Hnd.
      apply NoDup_remove_2 in Hnd. apply Hnd. apply in_or_app. now left. }
    rewrite (set_absent lvl s acc Hnotin).
    destruct (IH (acc ++ [(lvl, s)])) as (stats & Hloop & Hrel).
    + unfold PyDict.keys in *. rewrite map_app. cbn [map fst] in *.
      rewrite <- app_assoc. exact Hnd.
    + exact (Forall_inv_tail Hall).
    + exists ((lvl, s) :: stats). rewrite Hloop, <- app_assoc.
      split; [reflexivity|]. constructor; [|exact Hrel].
      cbn [fst snd]. auto.
Qed.

Lemma donors_at_app (store : list (Z * Donor.t)) (l1 l2 : list Z) :
  DonorDatabase.donors_at store (l1 ++ l2)
  = DonorDatabase.donors_at store l1 ++ DonorDatabase.donors_at store l2.
Proof. unfold DonorDatabase.donors_at. apply flat_map_app. Qed.

(** The totals of the statistics add up to the totals of the donors the
    groups refer to. *)
Lemma stats_totals (store : list (Z * Donor.t))
    (items : list (option DonorLevel * list Z))
    (stats : list (option DonorLevel * DonorLevelStats)) :
  Forall2 (fun g kv =>
             fst kv = fst g /\
             DonorDatabase.level_stats (fst g)
               (DonorDatabase.donors_at store (snd g)) = Ok (snd kv))
          items stats ->
  sum_from 0 (map total (PyDict.values stats))
  == sum_from 0 (map Donor.total_contributions
                     (DonorDatabase.donors_at store
                        (List.concat (PyDict.values items)))).
Proof.
  unfold PyDict.values.
  induction 1 as [|[lvl uids] [k s] items stats [_ Hs] _ IH];
    [reflexivity|].
  cbn [map snd List.concat fst] in *.
  rewrite donors_at_app, map_app, sum_from_app, sum_from_cons, IH.
  unfold DonorDatabase.level_stats in Hs.
  destruct (np_max _); [|discriminate]. destruct (np_min _); [|discriminate].
  injection Hs as <-. cbn [total]. rewrite fold_left_sum. reflexivity.
Qed.

Lemma forget_levels_totals (store store' : list (Z * Donor.t)) :
  forget_levels store' = forget_levels store ->
  map entry_total store' = map entry_total store.
Proof.
  assert (H : forall s, map entry_total s = map entry_total (forget_levels s)).
  { intros s. unfold forget_levels. rewrite map_map. apply map_ext.
    intros [k d]. reflexivity. }
  intros Hf. now rewrite (H store'), Hf, <- H.
Qed.

Lemma total_contributions_uncached (db : DonorDatabase.t) :
  DonorDatabase._total_contributions db = None ->
  res (DonorDatabase.total_contributions db)
  = Ok (sum_from 0 (map entry_total (DonorDatabase._donors db))).
Proof.
  intros Hc. unfold DonorDatabase.total_contributions.
  rewrite bind_get_self, Hc, bind_modify. cbn [ret res].
  unfold PyDict.values, entry_total. now rewrite map_map.
Qed.

(** After the grouping of a constructed database, every group refers to at
    least one donor, every donor holds a payment, and so the amounts
    collected for a group are never empty. *)
Lemma grouped_amounts_nonempty (db db' : DonorDatabase.t) :
  ingested db ->
  grouping (DonorDatabase._donors db) (PyDict.keys (ranked_entries db)) db' ->
  Forall (fun g => amounts_of
                     (DonorDatabase.donors_at (DonorDatabase._donors db')
                        (snd g)) <> [])
         (DonorDatabase.by_level_dict db').
Proof.
  intros [Hnd Hall _ _ _ _ _] [Hst Hca Hlv Hme Hne Hndg Hcl Hstats].
  set (store := DonorDatabase._donors db) in *.
  set (store' := DonorDatabase._donors db') in *.
  set (groups := DonorDatabase.by_level_dict db') in *.
  assert (Hkeys : PyDict.keys store' = PyDict.keys store)
    by exact (forget_levels_keys _ _ Hst).
  assert (Hranked : Permutation (PyDict.keys (ranked_entries db))
                                (PyDict.keys store)).
  { unfold PyDict.keys. apply Permutation_map. apply sorted_Permutation. }
  assert (Hpay : Forall (fun kv => (1 <= Donor.num_payments (snd kv))%nat)
                        store').
  { rewrite Forall_forall. intros [uid d'] Hin.
    destruct (forget_levels_In _ _ _ _ Hst Hin) as (d & Hin0 & Hf).
    rewrite Forall_forall in Hall. destruct (Hall _ Hin0) as (_ & Hn & _).
    cbn [snd] in *. unfold Donor.num_payments in *.
    now rewrite <- (proj2 (forget_level_total _ _ Hf)). }
  assert (Hfound : forall uid, In uid (List.concat (PyDict.values groups)) ->
            exists d, PyDict.get uid store' = Some d /\
                      (1 <= Donor.num_payments d)%nat).
  { intros uid Hin.
    assert (Hk : In uid (PyDict.keys store')).
    { rewrite Hkeys. apply (Permutation_in uid Hranked).
      exact (Permutation_in uid Hme Hin). }
    destruct (key_get_Some _ _ Hk) as [d Hg]. exists d. split; [exact Hg|].
    rewrite Forall_forall in Hpay. exact (Hpay _ (get_In _ _ _ Hg)). }
  rewrite Forall_forall. intros [lvl uids] Hg. cbn [snd].
  rewrite Forall_forall in Hne. specialize (Hne _ Hg). cbn [snd] in Hne.
  destruct uids as [|uid uids]; [contradiction|].
  destruct (Hfound uid) as (d & Hget & Hn).
  { apply in_concat. exists (uid :: uids). split; [|now left].
    unfold PyDict.values. apply (in_map snd _ _ Hg). }
  unfold DonorDatabase.donors_at. cbn [flat_map]. rewrite Hget.
  cbn [app]. apply amounts_of_nonempty; [discriminate|].
  constructor; [exact Hn|]. rewrite Forall_forall. intros d' Hd'.
  apply in_flat_map in Hd'. destruct Hd' as (u & _ & Hu).
  destruct (PyDict.get u store') as [du|] eqn:Hgu; [|contradiction].
  destruct Hu as [<-|[]]. rewrite Forall_forall in Hpay.
  exact (Hpay _ (get_In _ _ _ Hgu)).
Qed.

(** The statistics of every group exist, and their totals add up to the
    sum of the donors' totals. *)
Lemma stats_loop_grouping (db db' : DonorDatabase.t) :
  ingested db ->
  grouping (DonorDatabase._donors db) (PyDict.keys (ranked_entries db)) db' ->
  exists stats,
    DonorDatabase.stats_loop (DonorDatabase._donors db')
      (DonorDatabase.by_level_dict db') [] = Ok stats /\
    PyDict.keys stats = PyDict.keys (DonorDatabase.by_level_dict db') /\
    sum_from 0 (map total (PyDict.values stats))
    == sum_from 0 (map entry_total (DonorDatabase._donors db)).
Proof.
  intros Hing Hgrp.
  pose proof (grouped_amounts_nonempty db db' Hing Hgrp) as Hamounts.
  destruct Hing as [Hnd Hall _ _ _ _ _].
  destruct Hgrp as [Hst Hca Hlv Hme Hne Hndg Hcl Hstats].
  set (store := DonorDatabase._donors db) in *.
  set (store' := DonorDatabase._donors db') in *.
  set (groups := DonorDatabase.by_level_dict db') in *.
  assert (Hkeys : PyDict.keys store' = PyDict.keys store)
    by exact (forget_levels_keys _ _ Hst).
  assert (Hnd' : NoDup (PyDict.keys store')) by (now rewrite Hkeys).
  assert (Hranked : Permutation (PyDict.keys (ranked_entries db))
                                (PyDict.keys store)).
  { unfold PyDict.keys. apply Permutation_map. apply sorted_Permutation. }
  destruct (stats_loop_returns store' groups [] Hndg Hamounts)
    as (stats & Hloop & Hrel).
  exists stats. split; [exact Hloop|]. split.
  - clear - Hrel. unfold PyDict.keys.
    induction Hrel as [|g kv items stats [Hk _] _ IH]; [reflexivity|].
    cbn [map]. now rewrite Hk, IH.
  - rewrite (stats_totals store' groups stats Hrel).
    assert (Hperm : Permutation
                      (DonorDatabase.donors_at store'
                         (List.concat (PyDict.values groups)))
                      (PyDict.values store')).
    { rewrite <- (donors_at_keys store' store' Hnd' (incl_refl _)).
      unfold DonorDatabase.donors_at. apply Permutation_flat_map.
      rewrite Hkeys. now rewrite Hme. }
    rewrite (sum_from_Permutation _ _
               (Permutation_map Donor.total_contributions Hperm)).
    unfold PyDict.values. rewrite map_map.
    change (map (fun x => Donor.total_contributions (snd x)) store')
      with (map entry_total store').
    rewrite (forget_levels_totals _ _ Hst). reflexivity.
Qed.

Lemma bind_Raise {S A B : Type} (m : M S A) (k : A -> M S B) (s : S)
    (e : exn) :
  res (m s) = Raise e -> res (bind m k s) = Raise e.
Proof. unfold bind. intros ->. reflexivity. Qed.

(** [get_donor_level_stats] on a constructed database. When some donor has
    no level, the call raises [AttributeError]; otherwise it returns the
    statistics of every group. *)
Lemma get_donor_level_stats_ingested (db : DonorDatabase.t)
    (level : option DonorLevel) :
  ingested db ->
  let groups := DonorDatabase.by_level_dict
                  (post (DonorDatabase.get_donors_by_level None db)) in
  (In None (PyDict.keys groups) /\
   res (DonorDatabase.get_donor_level_stats level db) = Raise AttributeError)
  \/ (~ In None (PyDict.keys groups) /\
      exists stats,
        res (DonorDatabase.get_donor_level_stats level db)
        = Ok match PyDict.get level stats with
             | Some s => DonorDatabase.StatsAtLevel s
             | None => DonorDatabase.StatsByLevel stats
             end /\
        PyDict.keys stats = PyDict.keys groups /\
        sum_from 0 (map total (PyDict.values stats))
        == sum_from 0 (map entry_total (DonorDatabase._donors db))).
Proof.
  intros Hing. cbv zeta.
  destruct (get_donors_by_level_ingested db None Hing) as [Hgrp Hres].
  unfold DonorDatabase.get_donor_level_stats.
  rewrite bind_get_self, (ingested_stats db Hing).
  destruct (PyDict.get None
              (DonorDatabase.by_level_dict
                 (post (DonorDatabase.get_donors_by_level None db))))
    as [l|] eqn:Hnone.
  - left. split; [exact (get_Some_key _ _ _ Hnone)|].
    apply bind_Raise.
    rewrite (proj1 (bind_Ok _ _ _ _ Hres)). reflexivity.
  - right. split; [now apply get_None_not_key|].
    destruct (stats_loop_grouping db _ Hing Hgrp)
      as (stats & Hloop & Hkeys & Hsum).
    exists stats. split; [|split; assumption].
    match goal with
    | |- res (bind ?m ?k db) = _ =>
        assert (Hm : res (m db) = Ok stats)
    end.
    { rewrite (proj1 (bind_Ok _ _ _ _ Hres)).
      rewrite bind_get_self, Hloop.
      rewrite bind_modify. reflexivity. }
    rewrite (proj1 (bind_Ok _ _ _ _ Hm)). reflexivity.
Qed.

(** C7 (divergence). In the registry built from [major_rows], contributor 7
    has total 250000 and no level: [get_donors_by_level()] then returns the
    list stored under the key [None] instead of the dict, and
    [get_donor_level_stats()] raises [AttributeError], so there are no
    per-tier summaries whose totals could be added up, while the
    registry-wide total is 250600. *)
Theorem level_stats_raise_with_unclassified_donor :
  let o := DonorDatabase.init example_strptime major_rows in
  res o = Ok tt /\
  res (DonorDatabase.total_contributions (post o)) = Ok 250600 /\
  res (DonorDatabase.get_donors_by_level None (post o))
  = Ok (DonorDatabase.AtLevel [7%Z]) /\
  res (DonorDatabase.get_donor_level_stats None (post o))
  = Raise AttributeError.
Proof. cbv zeta. repeat split; vm_compute; reflexivity. Qed.

(** Reconciliation of the totals. For a constructed registry in which every
    donor's total is below 250000 in absolute value,
    [get_donor_level_stats()] returns the dict of statistics and the sum of
    its [total] fields equals the registry-wide [total_contributions]. *)
Theorem level_stats_totals_reconcile
    (strptime : string -> string -> option datetime)
    (rows : list DonorDatabase.Row) :
  res (DonorDatabase.init strptime rows) = Ok tt ->
  let db := post (DonorDatabase.init strptime rows) in
  Forall (fun kv => Qabs (entry_total kv) < 250000) (DonorDatabase._donors db) ->
  exists stats T,
    res (DonorDatabase.get_donor_level_stats None db)
    = Ok (DonorDatabase.StatsByLevel stats) /\
    res (DonorDatabase.total_contributions db) = Ok T /\
    sum_from 0 (map total (PyDict.values stats)) == T.
Proof.
  intros Hres db Hrange.
  pose proof (init_ingested strptime rows Hres) as Hing. fold db in Hing.
  destruct (get_donors_by_level_ingested db None Hing) as [Hgrp _].
  destruct (get_donor_level_stats_ingested db None Hing)
    as [[Hnone _]|(Hnone & stats & Hstats & Hkeys & Hsum)].
  - exfalso. unfold PyDict.keys in Hnone. apply in_map_iff in Hnone.
    destruct Hnone as (g & Hk & Hg).
    pose proof (grouping_classified _ _ _ Hgrp) as Hcl.
    rewrite Forall_forall in Hcl. destruct (Hcl g Hg) as (kv & Hkv & Hlvl).
    rewrite Hk in Hlvl. symmetry in Hlvl.
    rewrite Forall_forall in Hrange. specialize (Hrange kv Hkv).
    destruct (level_loop_cases (entry_total kv)) as [(l & Hl & _)|[_ Hbig]];
      [congruence|lra].
  - exists stats, (sum_from 0 (map entry_total (DonorDatabase._donors db))).
    split; [|split].
    + rewrite Hstats.
      assert (Hget : PyDict.get None stats = None).
      { apply get_None_not_key. now rewrite Hkeys. }
      now rewrite Hget.
    + apply total_contributions_uncached. exact (ingested_total db Hing).
    + exact Hsum.
Qed.

Lemma level_stats_totals_reconcile_witness :
  let db := post (DonorDatabase.init example_strptime scenario_rows) in
  exists stats T,
    res (DonorDatabase.get_donor_level_stats None db)
    = Ok (DonorDatabase.StatsByLevel stats) /\
    res (DonorDatabase.total_contributions db) = Ok T /\
    sum_from 0 (map total (PyDict.values stats)) == T.
Proof.
  apply (level_stats_totals_reconcile example_strptime scenario_rows).
  - vm_compute. reflexivity.
  - vm_compute. repeat constructor.
Defined.

(** The scenario: the totals of the two levels are 700 and 50, and the
    registry-wide total is 750. *)
Example level_stats_scenario :
  let db := post (DonorDatabase.init example_strptime scenario_rows) in
  res (DonorDatabase.total_contributions db) = Ok 750 /\
  exists stats,
    res (DonorDatabase.get_donor_level_stats None db)
    = Ok (DonorDatabase.StatsByLevel stats) /\
    map (fun kv => (fst kv, total (snd kv), n_donors (snd kv),
                    n_payments (snd kv))) stats
    = [(Some DONORLEVEL_ONE, 700, 1%nat, 3%nat);
       (Some DONORLEVEL_ZERO, 50, 1%nat, 1%nat)].
Proof.
  cbv zeta. split; [vm_compute; reflexivity|].
  eexists. split; vm_compute; reflexivity.
Qed.

(** C10. Every donor of a constructed [DonorDatabase] is stored under its
    own identifier and holds at least one payment; consequently the amounts
    collected for any group of [get_donors_by_level] are never empty, and
    [get_donor_level_stats] never raises the [ValueError] of a reduction
    over an empty array. *)
Theorem constructed_donors_have_payments
    (strptime : string -> string -> option datetime)
    (rows : list DonorDatabase.Row) :
  res (DonorDatabase.init strptime rows) = Ok tt ->
  let db := post (DonorDatabase.init strptime rows) in
  (forall uid d, In (uid, d) (DonorDatabase._donors db) ->
                 Donor._id d = uid /\ (1 <= Donor.num_payments d)%nat) /\
  (forall level,
     let db' := post (DonorDatabase.get_donors_by_level level db) in
     Forall (fun g => amounts_of
                        (DonorDatabase.donors_at (DonorDatabase._donors db')
                           (snd g)) <> [])
            (DonorDatabase.by_level_dict db')) /\
  (forall level,
     res (DonorDatabase.get_donor_level_stats level db) <> Raise ValueError).
Proof.
  intros Hres db.
  pose proof (init_ingested strptime rows Hres) as Hing. fold db in Hing.
  split; [|split].
  - intros uid d Hin.
    exact (constructed_donors_hold_payments strptime rows Hres uid d Hin).
  - intros level db'.
    destruct (get_donors_by_level_ingested db level Hing) as [Hgrp _].
    exact (grouped_amounts_nonempty db db' Hing Hgrp).
  - intros level.
    destruct (get_donor_level_stats_ingested db level Hing)
      as [[_ Hr]|(_ & stats & Hr & _)]; rewrite Hr; discriminate.
Qed.

Lemma constructed_donors_have_payments_witness :
  let db := post (DonorDatabase.init example_strptime scenario_rows) in
  (forall uid d, In (uid, d) (DonorDatabase._donors db) ->
                 Donor._id d = uid /\ (1 <= Donor.num_payments d)%nat) /\
  (forall level,
     let db' := post (DonorDatabase.get_donors_by_level level db) in
     Forall (fun g => amounts_of
                        (DonorDatabase.donors_at (DonorDatabase._donors db')
                           (snd g)) <> [])
            (DonorDatabase.by_level_dict db')) /\
  (forall level,
     res (DonorDatabase.get_donor_level_stats level db) <> Raise ValueError).
Proof.
  apply (constructed_donors_have_payments example_strptime scenario_rows).
  vm_compute. reflexivity.
Defined.

(** * Further methods and properties *)

(** ** [Donor.largest_contribution] *)

Lemma first_max_bound {A : Type} (sel : A -> Prop) (val : A -> Q)
    (floor : Q) (l : list A) (x : A) :
  first_max sel val floor l x ->
  In x l /\ sel x /\ floor < val x /\
  forall y, In y l -> sel y -> val y <= val x.
Proof.
  intros (before & after & -> & Hs & Hlt & Hb & Ha).
  split; [apply in_elt|]. split; [exact Hs|]. split; [exact Hlt|].
  intros y Hy Hsel. apply in_app_or in Hy.
  rewrite Forall_forall in Hb, Ha.
  destruct Hy as [Hy|[<-|Hy]].
  - apply Qlt_le_weak. exact (Hb y Hy Hsel).
  - apply Qle_refl.
  - exact (Ha y Hy Hsel).
Qed.

Lemma py_max_cases (a b : Q) :
  (py_max a b = a /\ b <= a) \/ (py_max a b = b /\ a < b).
Proof.
  unfold py_max. destruct (Qlt_bool a b) eqn:E.
  - right. apply Qlt_bool_iff in E. auto.
  - left. apply Qlt_bool_false_iff in E. auto.
Qed.

(** [largest_contribution] raises [AttributeError] exactly when the donor
    has no ['Payment'] of positive amount or no ['Donation'] of positive
    amount; when it returns, the value is positive, it is the amount of a
    stored ['Payment'] or ['Donation'], and no stored ['Payment'] or
    ['Donation'] has a greater amount. *)
Theorem largest_contribution_spec (d : Donor.t) :
  let ps := PyDict.values (Donor._payments d) in
  let of_kind (kind : string) (q : Payment.t) :=
    Payment.contribution_type q = kind in
  (largest_contribution d = Raise AttributeError <->
   Forall (fun q => of_kind "Payment"%string q -> Payment.amount q <= 0) ps \/
   Forall (fun q => of_kind "Donation"%string q -> Payment.amount q <= 0) ps) /\
  (forall e, largest_contribution d = Raise e -> e = AttributeError) /\
  (forall v, largest_contribution d = Ok v ->
     0 < v /\
     (exists q, In q ps /\
                (of_kind "Payment"%string q \/ of_kind "Donation"%string q) /\
                Payment.amount q = v) /\
     (forall q, In q ps ->
                of_kind "Payment"%string q \/ of_kind "Donation"%string q ->
                Payment.amount q <= v)).
Proof.
  intros ps of_kind. unfold largest_contribution, Donor.largest_payment,
    Donor.largest_donation. fold ps.
  destruct (largest_loop_spec "Payment" ps 0 None)
    as [[Hp HallP]|(p & Hp & HfP)]; rewrite Hp.
  - split; [split; auto|]. split; [congruence|discriminate].
  - destruct (largest_loop_spec "Donation" ps 0 None)
      as [[Hq HallQ]|(q & Hq & HfQ)]; rewrite Hq.
    + split; [split; auto|]. split; [congruence|discriminate].
    + split; [|split; [discriminate|]].
      * split; [discriminate|]. intros [Hall|Hall]; exfalso.
        -- exact (first_max_excludes _ _ _ _ _ HfP Hall).
        -- exact (first_max_excludes _ _ _ _ _ HfQ Hall).
      * intros v [= <-].
        destruct (first_max_bound _ _ _ _ _ HfP) as (HinP & HkP & HltP & HbP).
        destruct (first_max_bound _ _ _ _ _ HfQ) as (HinQ & HkQ & HltQ & HbQ).
        destruct (py_max_cases (Payment.amount p) (Payment.amount q))
          as [[-> Hle]|[-> Hlt]].
        -- split; [exact HltP|]. split.
           ++ exists p. unfold of_kind. auto.
           ++ intros x Hx [Hk|Hk].
              ** exact (HbP x Hx Hk).
              ** specialize (HbQ x Hx Hk). lra.
        -- split; [exact HltQ|]. split.
           ++ exists q. unfold of_kind. auto.
           ++ intros x Hx [Hk|Hk].
              ** specialize (HbP x Hx Hk). lra.
              ** exact (HbQ x Hx Hk).
Qed.

(** A donor with payments only (the first contributor of the tie) has no
    largest contribution: the property raises. *)
Example largest_contribution_examples :
  (exists d, PyDict.get 1%Z (DonorDatabase._donors
                (post (DonorDatabase.init example_strptime tie_rows)))
             = Some d /\
             largest_contribution d = Raise AttributeError) /\
  (exists d, PyDict.get 1%Z (DonorDatabase._donors
                (post (DonorDatabase.init example_strptime scenario_rows)))
             = Some d /\
             largest_contribution d = Ok 600).
Proof. split; eexists; split; vm_compute; reflexivity. Qed.

(** ** [Donor.add_payment]: the calls that raise *)

Lemma convert_date_cases (strptime : string -> string -> option datetime)
    (x : date_arg) :
  (exists r, Payment.convert_date strptime x = Ok r) \/
  Payment.convert_date strptime x = Raise ValueError.
Proof.
  destruct x as [s|dt|]; cbn; eauto.
  unfold string_to_datetime. destruct (truthy_str s); eauto.
  destruct (strptime s _); eauto.
Qed.

(** A date that does not convert makes [add_payment] raise [ValueError]
    before anything is stored: the ledger is left as it was. *)
Theorem add_payment_malformed_date
    (strptime : string -> string -> option datetime) (d : Donor.t)
    (tid uid : Z) (ty : string) (ad pd : date_arg) (pt rm : string) (a : Q)
    (g : Z) :
  Donor._id d = uid ->
  Payment.convert_date strptime ad = Raise ValueError \/
  Payment.convert_date strptime pd = Raise ValueError ->
  let o := Donor.add_payment strptime tid uid ty ad pd pt rm a g d in
  res o = Raise ValueError /\ post o = d /\ warned o = [].
Proof.
  intros Hid Hbad o. subst o.
  unfold Donor.add_payment, bind, get_self, modify, ret, raise, warn, call.
  cbn [res post warned]. rewrite Hid, Z.eqb_refl.
  unfold Payment.new.
  destruct (convert_date_cases strptime ad) as [[ra Ha]| Ha]; rewrite Ha.
  - destruct Hbad as [Hbad|Hbad]; [congruence|]. rewrite Hbad.
    cbn. auto.
  - cbn. auto.
Qed.

Lemma add_payment_malformed_date_witness :
  let o := Donor.add_payment example_strptime 10 1 "Payment"
             (DateStr "15/01/2023") DateNone "card" "" 75 4000
             (example_donor 1) in
  res o = Raise ValueError /\ post o = example_donor 1 /\ warned o = [].
Proof.
  apply (add_payment_malformed_date example_strptime (example_donor 1) 10 1
           "Payment" (DateStr "15/01/2023") DateNone "card" "" 75 4000).
  - reflexivity.
  - left. reflexivity.
Defined.

(** A contribution type that is no key of the running totals makes
    [add_payment] raise [KeyError] after the payment has been stored: the
    transaction mapping holds the payment, the running totals and the total
    are unchanged. *)
Theorem add_payment_unknown_type
    (strptime : string -> string -> option datetime) (d : Donor.t)
    (tid uid : Z) (ty : string) (ad pd : date_arg) (pt rm : string) (a : Q)
    (g : Z) (actual0 posted0 : option datetime) :
  Donor._id d = uid ->
  Payment.convert_date strptime ad = Ok actual0 ->
  Payment.convert_date strptime pd = Ok posted0 ->
  PyDict.get ty (Donor._contributions d) = None ->
  let o := Donor.add_payment strptime tid uid ty ad pd pt rm a g d in
  res o = Raise KeyError /\
  (exists p, PyDict.get tid (Donor._payments (post o)) = Some p /\
             Payment.contribution_type p = ty /\ Payment.amount p = a) /\
  (1 <= Donor.num_payments (post o))%nat /\
  Donor._contributions (post o) = Donor._contributions d /\
  Donor.total_contributions (post o) = Donor.total_contributions d.
Proof.
  intros Hid Ha Hp Hc o. subst o.
  unfold Donor.add_payment, bind, get_self, modify, ret, raise, warn, call.
  cbn [res post warned]. rewrite Hid, Z.eqb_refl.
  rewrite (Payment_new_converted _ _ _ _ _ _ _ _ _ _ _ _ _ _ _ _ _ _ _ _ _
             Ha Hp).
  cbn [fst snd res post warned Payment.contribution_type].
  change (Donor._contributions
            (Donor.set_payments (PyDict.set tid ?p) d))
    with (Donor._contributions d).
  rewrite Hc. cbn [res post warned].
  split; [reflexivity|]. split; [|split; [|split; reflexivity]].
  - eexists. split; [apply get_set_same|]. cbn. auto.
  - unfold Donor.num_payments. cbn [Donor.set_payments Donor._payments].
    apply len_set_pos.
Qed.

Lemma add_payment_unknown_type_witness :
  let o := Donor.add_payment example_strptime 10 1 "Gift"
             (DateStr "2023-01-15") DateNone "card" "" 75 4000
             (example_donor 1) in
  res o = Raise KeyError /\
  (exists p, PyDict.get 10%Z (Donor._payments (post o)) = Some p /\
             Payment.contribution_type p = "Gift"%string /\
             Payment.amount p = 75) /\
  (1 <= Donor.num_payments (post o))%nat /\
  Donor._contributions (post o) = Donor._contributions (example_donor 1) /\
  Donor.total_contributions (post o)
  = Donor.total_contributions (example_donor 1).
Proof.
  apply (add_payment_unknown_type example_strptime (example_donor 1) 10 1
           "Gift" (DateStr "2023-01-15") DateNone "card" "" 75 4000
           (Some (mk_datetime 2023 1 15)) None); reflexivity.
Defined.

(** ** The cached level is never invalidated *)

Lemma add_payment_keeps_level
    (strptime : string -> string -> option datetime) (d : Donor.t)
    (tid uid : Z) (ty : string) (ad pd : date_arg) (pt rm : string) (a : Q)
    (g : Z) :
  Donor._donor_level
    (post (Donor.add_payment strptime tid uid ty ad pd pt rm a g d))
  = Donor._donor_level d.
Proof.
  unfold Donor.add_payment, bind, get_self, modify, ret, raise, warn, call.
  cbn [res post warned].
  destruct (Z.eqb (Donor._id d) uid); cbn [res post warned]; [|reflexivity].
  match goal with
  | |- context [Payment.new ?f ?a1 ?a2 ?a3 ?a4 ?a5 ?a6 ?a7 ?a8 ?a9 ?a10
                  ?a11 ?a12 ?a13 ?a14 ?a15 ?a16 ?a17 ?a18] =>
      destruct (Payment.new f a1 a2 a3 a4 a5 a6 a7 a8 a9 a10
                  a11 a12 a13 a14 a15 a16 a17 a18) as [[p|e] w]
  end; cbn [fst snd res post warned]; [|reflexivity].
  match goal with
  | |- context [PyDict.get ?k ?c] => destruct (PyDict.get k c)
  end; reflexivity.
Qed.

(** Once [level] has been computed, [add_payment] does not reset it: after
    any call of [add_payment], accepted or not, [level] still returns the
    tier that was cached, whatever the new total is. *)
Theorem level_not_invalidated_by_add_payment
    (strptime : string -> string -> option datetime) (d : Donor.t)
    (l : DonorLevel) (tid uid : Z) (ty : string) (ad pd : date_arg)
    (pt rm : string) (a : Q) (g : Z) :
  res (Donor.level d) = Ok (Some l) ->
  let d1 := post (Donor.level d) in
  let o := Donor.add_payment strptime tid uid ty ad pd pt rm a g d1 in
  res (Donor.level (post o)) = Ok (Some l).
Proof.
  intros Hl d1 o.
  assert (Hc : Donor._donor_level d1 = Some l).
  { subst d1. rewrite level_outcome in *. cbn [res post] in *.
    injection Hl as Hl. unfold level_of in Hl. unfold cache_level.
    destruct (Donor._donor_level d) eqn:E; [congruence|].
    rewrite Hl. reflexivity. }
  subst o. rewrite level_outcome. cbn [res]. unfold level_of.
  now rewrite add_payment_keeps_level, Hc.
Qed.

(** A donor whose level was read at a total of 100 (tier zero) is still in
    tier zero after a payment of 1000, although the classifier puts its new
    total, 1100, in tier two. *)
Lemma level_not_invalidated_by_add_payment_witness :
  let d := post (Donor.add_payment example_strptime 10 1 "Payment"
                   (DateStr "2023-01-15") DateNone "card" "" 100 4000
                   (example_donor 1)) in
  let d1 := post (Donor.level d) in
  let o := Donor.add_payment example_strptime 11 1 "Payment"
             (DateStr "2023-02-01") DateNone "card" "" 1000 4000 d1 in
  (res (Donor.level (post o)) = Ok (Some DONORLEVEL_ZERO)) /\
  Donor.total_contributions (post o) == 1100 /\
  Donor.level_loop (Donor.total_contributions (post o)) DonorLevel_members
  = Some DONORLEVEL_TWO.
Proof.
  cbv zeta. split; [|split; vm_compute; reflexivity].
  apply (level_not_invalidated_by_add_payment example_strptime).
  vm_compute. reflexivity.
Defined.

(** ** [Donor(...)] *)


(** ** [get_top_donors] with a negative count *)

(** For a negative [n], [get_top_donors n] returns the empty list: index 0
    is already greater than [n]. *)
Theorem get_top_donors_negative (db : DonorDatabase.t) (n : Z) :
  (n < 0)%Z -> res (DonorDatabase.get_top_donors n db) = Ok [].
Proof.
  intros Hn. unfold DonorDatabase.get_top_donors.
  assert (Hview : exists uids,
            res (DonorDatabase.donors_by_contribution db) = Ok uids).
  { rewrite donors_by_contribution_outcome.
    destruct (DonorDatabase._donors_by_contribution db);
      eexists; reflexivity. }
  destruct Hview as [uids Hview].
  rewrite (proj1 (bind_Ok _ _ _ _ Hview)).
  unfold bind, get_self, ret. cbn [res post warned].
  rewrite top_donors_loop_firstn.
  replace (Z.to_nat (n + 1 - 0)) with 0%nat by lia. reflexivity.
Qed.

Lemma get_top_donors_negative_witness :
  res (DonorDatabase.get_top_donors (-1)
         (post (DonorDatabase.init example_strptime tie_rows))) = Ok [].
Proof. apply get_top_donors_negative. lia. Defined.

(** ** The ingestion loop, row by row *)

Lemma bind_outcome {S A B : Type} (m : M S A) (k : A -> M S B) (s : S)
    (a : A) :
  res (m s) = Ok a ->
  res (bind m k s) = res (k a (post (m s))) /\
  post (bind m k s) = post (k a (post (m s))) /\
  warned (bind m k s) = warned (m s) ++ warned (k a (post (m s))).
Proof. unfold bind. intros ->. cbn [res post warned]. auto. Qed.

Lemma bind_raises {S A B : Type} (m : M S A) (k : A -> M S B) (s : S)
    (e : exn) :
  res (m s) = Raise e ->
  res (bind m k s) = Raise e /\
  post (bind m k s) = post (m s) /\
  warned (bind m k s) = warned (m s).
Proof. unfold bind. intros ->. cbn [res post warned]. auto. Qed.

(** A loop that returns keeps a property of the elements visited so far, of
    the state, and of the warnings emitted so far. *)
Lemma for_each_trace {S A : Type} (body : A -> M S unit)
    (P : list A -> S -> list Warning -> Prop) :
  (forall pre x s w, P pre s w -> res (body x s) = Ok tt ->
     P (pre ++ [x]) (post (body x s)) (w ++ warned (body x s))) ->
  forall xs pre s w,
    P pre s w -> res (for_each body xs s) = Ok tt ->
    P (pre ++ xs) (post (for_each body xs s))
      (w ++ warned (for_each body xs s)).
Proof.
  intros Hstep. induction xs as [|x xs IH]; intros pre s w Hs;
    cbn [for_each].
  - intros _. cbn [ret post warned]. rewrite !app_nil_r. exact Hs.
  - intros Hr.
    destruct (res (body x s)) as [[]|e] eqn:Hb.
    + destruct (bind_outcome (body x) (fun _ => for_each body xs) s tt Hb)
        as (Hres & Hpost & Hw).
      rewrite Hpost, Hw. rewrite Hres in Hr.
      replace (pre ++ x :: xs) with ((pre ++ [x]) ++ xs)
        by (rewrite <- app_assoc; reflexivity).
      rewrite app_assoc. apply IH; [|exact Hr]. now apply Hstep.
    + rewrite (bind_Raise _ _ _ _ Hb) in Hr. discriminate.
Qed.

(** Whether the loop returns or raises, its warnings are those of the
    iterations that ran. *)
Lemma for_each_warned {S A : Type} (body : A -> M S unit)
    (I : S -> Prop) (Q : Warning -> Prop) :
  (forall x s, I s -> res (body x s) = Ok tt -> I (post (body x s))) ->
  (forall x s, I s -> Forall Q (warned (body x s))) ->
  forall xs s, I s -> Forall Q (warned (for_each body xs s)).
Proof.
  intros Hstep Hw. induction xs as [|x xs IH]; intros s Hs; cbn [for_each].
  - constructor.
  - destruct (res (body x s)) as [[]|e] eqn:Hb.
    + destruct (bind_outcome (body x) (fun _ => for_each body xs) s tt Hb)
        as (_ & _ & ->).
      apply Forall_app. split; [now apply Hw|].
      apply IH. now apply Hstep.
    + destruct (bind_raises (body x) (fun _ => for_each body xs) s e Hb)
        as (_ & _ & ->).
      now apply Hw.
Qed.

(** *** Keys in order of first occurrence *)

(** The distinct elements of a list, each at the place of its first
    occurrence. *)
Fixpoint first_occurrences (l : list Z) : list Z :=
  match l with
  | [] => []
  | x :: l' => x :: filter (fun y => negb (Z.eqb y x)) (first_occurrences l')
  end.

Lemma first_occurrences_In (x : Z) (l : list Z) :
  In x (first_occurrences l) <-> In x l.
Proof.
  induction l as [|a l IH]; cbn [first_occurrences In]; [tauto|].
  rewrite filter_In, IH. destruct (Z.eq_dec a x) as [->|Hne]; [tauto|].
  assert (E : negb (Z.eqb x a) = true).
  { apply negb_true_iff, Z.eqb_neq. congruence. }
  rewrite E. tauto.
Qed.

Lemma first_occurrences_NoDup (l : list Z) : NoDup (first_occurrences l).
Proof.
  induction l as [|a l IH]; cbn [first_occurrences]; constructor.
  - rewrite filter_In, Z.eqb_refl. cbn. intros [_ H]. discriminate.
  - now apply NoDup_filter.
Qed.

Lemma first_occurrences_new (x : Z) (l : list Z) :
  ~ In x l -> first_occurrences (l ++ [x]) = first_occurrences l ++ [x].
Proof.
  induction l as [|a l IH]; cbn [first_occurrences app In]; intros Hn.
  - reflexivity.
  - rewrite IH by tauto. rewrite filter_app. cbn [filter].
    assert (E : negb (Z.eqb x a) = true).
    { apply negb_true_iff, Z.eqb_neq. intros ->. tauto. }
    rewrite E. reflexivity.
Qed.

Lemma first_occurrences_seen (x : Z) (l : list Z) :
  In x l -> first_occurrences (l ++ [x]) = first_occurrences l.
Proof.
  induction l as [|a l IH]; cbn [first_occurrences app In]; [tauto|].
  intros Hin. destruct (in_dec Z.eq_dec x l) as [Hl|Hl].
  - now rewrite IH.
  - destruct Hin as [->|Hin]; [|contradiction].
    rewrite first_occurrences_new by exact Hl. rewrite filter_app.
    cbn [filter]. rewrite Z.eqb_refl. cbn [negb].
    now rewrite app_nil_r.
Qed.

(** Assigning to key [k] of a dictionary whose keys are the first
    occurrences of [l] gives the first occurrences of [l ++ [k]]. *)
Lemma keys_set_first_occurrences {V : Type} (k : Z) (v : V)
    (d : list (Z * V)) (l : list Z) :
  PyDict.keys d = first_occurrences l ->
  PyDict.keys (PyDict.set k v d) = first_occurrences (l ++ [k]).
Proof.
  intros Hk. destruct (in_dec Z.eq_dec k l) as [Hin|Hn].
  - rewrite first_occurrences_seen by exact Hin.
    rewrite keys_set_present; [exact Hk|].
    rewrite Hk. now apply first_occurrences_In.
  - rewrite first_occurrences_new by exact Hn.
    rewrite set_absent.
    + unfold PyDict.keys in *. rewrite map_app, Hk. reflexivity.
    + rewrite Hk, first_occurrences_In. exact Hn.
Qed.

Lemma len_set_absent {K V : Type} {EK : EqKey K} {EKOk : EqKeyOk K}
    (k : K) (v : V) (d : list (K * V)) :
  PyDict.get k d = None ->
  PyDict.len (PyDict.set k v d) = S (PyDict.len d).
Proof.
  intros Hg. apply get_None_not_key in Hg. rewrite set_absent by exact Hg.
  unfold PyDict.len. rewrite length_app. cbn. lia.
Qed.

(** A property of the entries that depends on the key assigned to: the
    other entries keep it, the assigned one has to be given it. *)
Lemma Forall_set_other {K V : Type} {EK : EqKey K} {EKOk : EqKeyOk K}
    (P Q : K * V -> Prop) (k : K) (v : V) (d : list (K * V)) :
  NoDup (PyDict.keys d) ->
  Forall P d ->
  (forall kv, fst kv <> k -> P kv -> Q kv) ->
  Q (k, v) ->
  Forall Q (PyDict.set k v d).
Proof.
  intros Hnd Hd Hother Hkv.
  induction d as [|[k0 v0] d IH]; cbn [PyDict.set].
  - constructor; [exact Hkv|constructor].
  - cbn [PyDict.keys map fst] in Hnd.
    pose proof (NoDup_cons_iff k0 (map fst d)) as [Hsplit _].
    destruct (Hsplit Hnd) as [Hnotin Hnd'].
    destruct (keqb k k0) eqn:E.
    + apply keqb_eq in E. subst k0. constructor; [exact Hkv|].
      apply Forall_forall. intros kv Hin. apply Hother.
      * intros Heq. apply Hnotin. rewrite <- Heq. now apply in_map.
      * pose proof (Forall_inv_tail Hd) as Hd'.
        rewrite Forall_forall in Hd'. now apply Hd'.
    + constructor.
      * apply Hother; [|exact (Forall_inv Hd)]. cbn [fst].
        intros ->. rewrite keqb_refl in E. discriminate.
      * apply IH; [exact Hnd'|exact (Forall_inv_tail Hd)].
Qed.

(** *** One row *)

Lemma sum_set_entry {V : Type} (g : V -> Q) (k : Z) (v v0 : V)
    (d : list (Z * V)) :
  PyDict.get k d = Some v0 \/ (PyDict.get k d = None /\ g v0 == 0) ->
  sum_from 0 (map (fun kv => g (snd kv)) (PyDict.set k v d))
  == sum_from 0 (map (fun kv => g (snd kv)) d) + (g v - g v0).
Proof.
  intros [Hg|[Hg H0]].
  - induction d as [|[k0 w0] d IH];
      cbn [PyDict.get PyDict.set keqb EqKey_Z] in *; [discriminate|].
    destruct (Z.eqb k k0) eqn:E; cbn [map snd].
    + injection Hg as ->. rewrite !sum_from_cons. ring.
    + rewrite !sum_from_cons, (IH Hg). ring.
  - apply get_None_not_key in Hg. rewrite set_absent by exact Hg.
    rewrite map_app, sum_from_app. cbn [map snd].
    rewrite sum_from_cons, H0.
    change (sum_from 0 (@nil Q)) with 0. ring.
Qed.

Lemma record_payment_warned (payment : option Payment.t)
    (db : DonorDatabase.t) :
  warned (DonorDatabase.record_payment payment db)
  = match payment with
    | Some p =>
        match PyDict.get (Payment.transaction_id p)
                (DonorDatabase._payments db) with
        | Some existing =>
            [AlreadyAdded (Payment.transaction_id p)
               (Payment.user_id existing) (Payment.amount existing)
               (Payment.amount p) (Payment.user_id p)]
        | None => []
        end
    | None => []
    end.
Proof.
  destruct payment as [p|]; unfold DonorDatabase.record_payment;
    [|reflexivity].
  unfold bind, get_self, modify, warn, ret. cbn [res post warned].
  destruct (PyDict.get (Payment.transaction_id p)
              (DonorDatabase._payments db)); reflexivity.
Qed.

Section IngestRow.
Variable strptime : string -> string -> option datetime.

(** The donor a row's payment goes to: the one stored under the row's
    [user_id], or the one constructed from the row. *)
Definition row_donor (row : DonorDatabase.Row) (db : DonorDatabase.t)
    : result Donor.t :=
  match PyDict.get (DonorDatabase.user_id row) (DonorDatabase._donors db) with
  | Some d => Ok d
  | None =>
      Donor.new strptime (DonorDatabase.user_id row)
        (DonorDatabase.firstname row) (DonorDatabase.lastname row)
        (DonorDatabase.full_name row) (DonorDatabase.email row)
        (DonorDatabase.street_1 row) (DonorDatabase.street_2 row)
        (DonorDatabase.city row) (DonorDatabase.state row)
        (DonorDatabase.postal row)
        (DonorDatabase.membership_expiration_date row)
  end.

(** The payment [add_payment] constructs for a row, with the identity
    fields of the donor it is added to. *)
Definition row_payment (row : DonorDatabase.Row) (d : Donor.t)
    : result Payment.t * list Warning :=
  Payment.new strptime (DonorDatabase.transaction_id row)
    (DonorDatabase.user_id row) (DonorDatabase.type row)
    (DonorDatabase.actual_date row) (DonorDatabase.posted_date row)
    (first (Donor._name d)) (last (Donor._name d)) (full (Donor._name d))
    (Donor._email d) (DonorDatabase.payment_type row)
    (DonorDatabase.response_meta row) (DonorDatabase.amount row)
    (DonorDatabase.gl_code row)
    (street1 (Donor._address d)) (street2 (Donor._address d))
    (city (Donor._address d)) (state (Donor._address d))
    (postal (Donor._address d)).

(** The warning of a transaction identifier that the registry holds
    already. *)
Definition repeated_warning (p : Payment.t) (db : DonorDatabase.t)
    : list Warning :=
  match PyDict.get (Payment.transaction_id p)
          (DonorDatabase._payments db) with
  | Some existing =>
      [AlreadyAdded (Payment.transaction_id p) (Payment.user_id existing)
         (Payment.amount existing) (Payment.amount p) (Payment.user_id p)]
  | None => []
  end.

Lemma ensure_donor_outcome (row : DonorDatabase.Row)
    (db : DonorDatabase.t) :
  warned (DonorDatabase.ensure_donor strptime row db) = [] /\
  match row_donor row db with
  | Ok d =>
      res (DonorDatabase.ensure_donor strptime row db) = Ok tt /\
      PyDict.get (DonorDatabase.user_id row)
        (DonorDatabase._donors
           (post (DonorDatabase.ensure_donor strptime row db))) = Some d /\
      DonorDatabase._payments
        (post (DonorDatabase.ensure_donor strptime row db))
      = DonorDatabase._payments db /\
      forall v,
        DonorDatabase.set_donors
          (PyDict.set (DonorDatabase.user_id row) v)
          (post (DonorDatabase.ensure_donor strptime row db))
        = DonorDatabase.set_donors
            (PyDict.set (DonorDatabase.user_id row) v) db
  | Raise e => res (DonorDatabase.ensure_donor strptime row db) = Raise e
  end.
Proof.
  unfold row_donor, DonorDatabase.ensure_donor, bind, get_self, call,
    modify, ret.
  cbn [res post warned fst snd]. unfold PyDict.contains.
  destruct (PyDict.get (DonorDatabase.user_id row)
              (DonorDatabase._donors db)) as [d0|] eqn:Hg;
    cbn [negb res post warned].
  - auto.
  - destruct (Donor.new _ _ _ _ _ _ _ _ _ _ _ _) as [d0|e];
      cbn [res post warned app]; [|auto].
    split; [reflexivity|]. split; [reflexivity|].
    cbn [DonorDatabase.set_donors DonorDatabase._donors
         DonorDatabase._payments].
    split; [apply get_set_same|]. split; [reflexivity|].
    intros v. unfold DonorDatabase.set_donors.
    cbn [DonorDatabase._payments DonorDatabase._donors
         DonorDatabase._top_donor DonorDatabase._total_contributions
         DonorDatabase._donors_by_contribution
         DonorDatabase._donors_by_level DonorDatabase._donor_level_stats].
    now rewrite set_set_same.
Qed.

Lemma add_payment_outcome (d : Donor.t) (tid uid : Z) (ty : string)
    (ad pd : date_arg) (pt rm : string) (a : Q) (g : Z) :
  Donor._id d = uid ->
  warned (Donor.add_payment strptime tid uid ty ad pd pt rm a g d)
  = snd (Payment.new strptime tid uid ty ad pd
           (first (Donor._name d)) (last (Donor._name d))
           (full (Donor._name d)) (Donor._email d) pt rm a g
           (street1 (Donor._address d)) (street2 (Donor._address d))
           (city (Donor._address d)) (state (Donor._address d))
           (postal (Donor._address d))) /\
  match fst (Payment.new strptime tid uid ty ad pd
               (first (Donor._name d)) (last (Donor._name d))
               (full (Donor._name d)) (Donor._email d) pt rm a g
               (street1 (Donor._address d)) (street2 (Donor._address d))
               (city (Donor._address d)) (state (Donor._address d))
               (postal (Donor._address d))) with
  | Raise e =>
      res (Donor.add_payment strptime tid uid ty ad pd pt rm a g d)
      = Raise e
  | Ok p =>
      match PyDict.get ty (Donor._contributions d) with
      | None =>
          res (Donor.add_payment strptime tid uid ty ad pd pt rm a g d)
          = Raise KeyError
      | Some cur =>
          res (Donor.add_payment strptime tid uid ty ad pd pt rm a g d)
          = Ok (Some p) /\
          post (Donor.add_payment strptime tid uid ty ad pd pt rm a g d)
          = Donor.set_contributions (PyDict.set ty (cur + a))
              (Donor.set_payments (PyDict.set tid p) d)
      end
  end.
Proof.
  intros Hid.
  unfold Donor.add_payment, bind, get_self, modify, ret, raise, warn, call.
  cbn [res post warned]. rewrite Hid, Z.eqb_refl.
  match goal with
  | |- context [Payment.new ?f ?a1 ?a2 ?a3 ?a4 ?a5 ?a6 ?a7 ?a8 ?a9 ?a10
                  ?a11 ?a12 ?a13 ?a14 ?a15 ?a16 ?a17 ?a18] =>
      pose proof (Payment_new_fields f a1 a2 a3 a4 a5 a6 a7 a8 a9 a10
                    a11 a12 a13 a14 a15 a16 a17 a18) as Hf;
      destruct (Payment.new f a1 a2 a3 a4 a5 a6 a7 a8 a9 a10
                  a11 a12 a13 a14 a15 a16 a17 a18) as [[p|e] w]
  end; cbn [fst snd res post warned]; [|auto].
  destruct (Hf p eq_refl) as (Htid & _ & Hty & Ham).
  change (Donor._contributions (Donor.set_payments (PyDict.set tid p) d))
    with (Donor._contributions d).
  rewrite Hty.
  destruct (PyDict.get ty (Donor._contributions d)) as [cur|] eqn:Hc;
    cbn [res post warned app]; rewrite ?app_nil_r; [|auto].
  rewrite Ham. auto.
Qed.

Lemma row_donor_id (row : DonorDatabase.Row) (db : DonorDatabase.t)
    (d0 : Donor.t) :
  Forall (fun kd => Donor._id (snd kd) = fst kd) (DonorDatabase._donors db) ->
  row_donor row db = Ok d0 ->
  Donor._id d0 = DonorDatabase.user_id row.
Proof.
  intros Hids. unfold row_donor.
  destruct (PyDict.get (DonorDatabase.user_id row)
              (DonorDatabase._donors db)) as [d|] eqn:Hg.
  - intros [= <-]. apply get_In in Hg. rewrite Forall_forall in Hids.
    exact (Hids _ Hg).
  - intros Hnew.
    exact (proj1 (Donor_new_fields _ _ _ _ _ _ _ _ _ _ _ _ d0 Hnew)).
Qed.

(** The outcome of the loop body on a registry whose donors are stored
    under their own identifiers. *)
Lemma ingest_row_outcome (row : DonorDatabase.Row) (db : DonorDatabase.t) :
  Forall (fun kd => Donor._id (snd kd) = fst kd) (DonorDatabase._donors db) ->
  match row_donor row db with
  | Raise e =>
      res (DonorDatabase.ingest_row strptime row db) = Raise e /\
      warned (DonorDatabase.ingest_row strptime row db) = []
  | Ok d0 =>
      match fst (row_payment row d0) with
      | Raise e =>
          res (DonorDatabase.ingest_row strptime row db) = Raise e /\
          warned (DonorDatabase.ingest_row strptime row db)
          = snd (row_payment row d0)
      | Ok p =>
          match PyDict.get (DonorDatabase.type row)
                  (Donor._contributions d0) with
          | None =>
              res (DonorDatabase.ingest_row strptime row db)
              = Raise KeyError /\
              warned (DonorDatabase.ingest_row strptime row db)
              = snd (row_payment row d0)
          | Some cur =>
              res (DonorDatabase.ingest_row strptime row db) = Ok tt /\
              post (DonorDatabase.ingest_row strptime row db)
              = DonorDatabase.set_payments
                  (PyDict.set (DonorDatabase.transaction_id row) p)
                  (DonorDatabase.set_donors
                     (PyDict.set (DonorDatabase.user_id row)
                        (Donor.set_contributions
                           (PyDict.set (DonorDatabase.type row)
                              (cur + DonorDatabase.amount row))
                           (Donor.set_payments
                              (PyDict.set (DonorDatabase.transaction_id row)
                                 p) d0)))
                     db) /\
              warned (DonorDatabase.ingest_row strptime row db)
              = snd (row_payment row d0) ++ repeated_warning p db
          end
      end
  end.
Proof.
  intros Hids.
  pose proof (row_donor_id row db) as Hid.
  destruct (ensure_donor_outcome row db) as [Hw0 Hens].
  unfold DonorDatabase.ingest_row.
  destruct (row_donor row db) as [d0|e].
  2:{ destruct (bind_raises _
                  (fun _ =>
                     bind (DonorDatabase.on_donor (DonorDatabase.user_id row)
                             (Donor.add_payment strptime
                                (DonorDatabase.transaction_id row)
                                (DonorDatabase.user_id row)
                                (DonorDatabase.type row)
                                (DonorDatabase.actual_date row)
                                (DonorDatabase.posted_date row)
                                (DonorDatabase.payment_type row)
                                (DonorDatabase.response_meta row)
                                (DonorDatabase.amount row)
                                (DonorDatabase.gl_code row)))
                          (fun payment =>
                             DonorDatabase.record_payment payment))
                  db e Hens) as (-> & _ & ->).
      auto. }
  specialize (Hid d0 Hids eq_refl).
  destruct Hens as (Hres0 & Hg1 & Hpay1 & Hsame).
  destruct (bind_outcome _
              (fun _ =>
                 bind (DonorDatabase.on_donor (DonorDatabase.user_id row)
                         (Donor.add_payment strptime
                            (DonorDatabase.transaction_id row)
                            (DonorDatabase.user_id row)
                            (DonorDatabase.type row)
                            (DonorDatabase.actual_date row)
                            (DonorDatabase.posted_date row)
                            (DonorDatabase.payment_type row)
                            (DonorDatabase.response_meta row)
                            (DonorDatabase.amount row)
                            (DonorDatabase.gl_code row)))
                      (fun payment =>
                         DonorDatabase.record_payment payment))
              db tt Hres0) as (-> & -> & ->).
  rewrite Hw0. cbn [app].
  set (db1 := post (DonorDatabase.ensure_donor strptime row db)) in *.
  destruct (on_donor_found _ (Donor.add_payment strptime
              (DonorDatabase.transaction_id row) (DonorDatabase.user_id row)
              (DonorDatabase.type row) (DonorDatabase.actual_date row)
              (DonorDatabase.posted_date row)
              (DonorDatabase.payment_type row)
              (DonorDatabase.response_meta row) (DonorDatabase.amount row)
              (DonorDatabase.gl_code row)) db1 d0 Hg1)
    as (Hr & Hp & Hw).
  destruct (add_payment_outcome d0 (DonorDatabase.transaction_id row)
              (DonorDatabase.user_id row) (DonorDatabase.type row)
              (DonorDatabase.actual_date row) (DonorDatabase.posted_date row)
              (DonorDatabase.payment_type row)
              (DonorDatabase.response_meta row) (DonorDatabase.amount row)
              (DonorDatabase.gl_code row) Hid) as [Hwadd Hadd].
  fold (row_payment row d0) in Hwadd, Hadd.
  rewrite Hwadd in Hw.
  pose proof (Payment_new_fields strptime (DonorDatabase.transaction_id row)
                (DonorDatabase.user_id row) (DonorDatabase.type row)
                (DonorDatabase.actual_date row) (DonorDatabase.posted_date row)
                (first (Donor._name d0)) (last (Donor._name d0))
                (full (Donor._name d0)) (Donor._email d0)
                (DonorDatabase.payment_type row)
                (DonorDatabase.response_meta row) (DonorDatabase.amount row)
                (DonorDatabase.gl_code row)
                (street1 (Donor._address d0)) (street2 (Donor._address d0))
                (city (Donor._address d0)) (state (Donor._address d0))
                (postal (Donor._address d0))) as Hf.
  fold (row_payment row d0) in Hf.
  destruct (fst (row_payment row d0)) as [p|e].
  2:{ rewrite <- Hr in Hadd.
      destruct (bind_raises _
                  (fun payment => DonorDatabase.record_payment payment)
                  db1 e Hadd) as (-> & _ & ->).
      auto. }
  destruct (Hf p eq_refl) as (Htid & _).
  destruct (PyDict.get (DonorDatabase.type row) (Donor._contributions d0))
    as [cur|].
  2:{ rewrite <- Hr in Hadd.
      destruct (bind_raises _
                  (fun payment => DonorDatabase.record_payment payment)
                  db1 KeyError Hadd) as (-> & _ & ->).
      auto. }
  destruct Hadd as [Hres Hpost]. rewrite <- Hr in Hres.
  destruct (bind_outcome _
              (fun payment => DonorDatabase.record_payment payment)
              db1 (Some p) Hres) as (-> & -> & ->).
  rewrite Hw, Hp, Hpost, Hsame.
  rewrite (proj1 (record_payment_post _ _)),
          (proj2 (record_payment_post _ _)), record_payment_warned.
  rewrite Htid. split; [reflexivity|]. split; [reflexivity|].
  unfold repeated_warning. rewrite Htid.
  cbn [DonorDatabase.set_donors DonorDatabase._payments].
  reflexivity.
Qed.
End IngestRow.

(** *** What the registry holds after a prefix of the rows *)

(** The rows of one contributor, and those of one contribution type among
    them. *)
Definition rows_of (uid : Z) (rows : list DonorDatabase.Row)
    : list DonorDatabase.Row :=
  filter (fun r => Z.eqb (DonorDatabase.user_id r) uid) rows.

Definition rows_of_type (uid : Z) (ty : string)
    (rows : list DonorDatabase.Row) : list DonorDatabase.Row :=
  filter (fun r => String.eqb (DonorDatabase.type r) ty) (rows_of uid rows).

Definition amounts (rows : list DonorDatabase.Row) : list Q :=
  map DonorDatabase.amount rows.

(** The keys [Donor.__init__] gives [_contributions]. *)
Definition contribution_types : list string :=
  ["Payment"; "Donation"; "Refund"]%string.

(** The ledger stored under [fst kd] reflects the rows of that contributor
    among [pre]. *)
Definition ledger_of (pre : list DonorDatabase.Row) (kd : Z * Donor.t)
    : Prop :=
  Donor._id (snd kd) = fst kd /\
  PyDict.keys (Donor._contributions (snd kd)) = contribution_types /\
  Forall (fun tv =>
            snd tv == sum_from 0 (amounts (rows_of_type (fst kd) (fst tv) pre)))
         (Donor._contributions (snd kd)) /\
  Donor.total_contributions (snd kd)
  == sum_from 0 (amounts (rows_of (fst kd) pre)) /\
  PyDict.keys (Donor._payments (snd kd))
  = first_occurrences (map DonorDatabase.transaction_id
                         (rows_of (fst kd) pre)).

Record ledgers (pre : list DonorDatabase.Row) (db : DonorDatabase.t)
    : Prop := mk_ledgers {
  ledgers_donors :
    PyDict.keys (DonorDatabase._donors db)
    = first_occurrences (map DonorDatabase.user_id pre);
  ledgers_payments :
    PyDict.keys (DonorDatabase._payments db)
    = first_occurrences (map DonorDatabase.transaction_id pre);
  ledgers_each : Forall (ledger_of pre) (DonorDatabase._donors db);
  ledgers_total :
    sum_from 0 (map entry_total (DonorDatabase._donors db))
    == sum_from 0 (amounts pre)
}.

Lemma rows_of_snoc (uid : Z) (pre : list DonorDatabase.Row)
    (r : DonorDatabase.Row) :
  rows_of uid (pre ++ [r])
  = rows_of uid pre
    ++ (if Z.eqb (DonorDatabase.user_id r) uid then [r] else []).
Proof.
  unfold rows_of. rewrite filter_app. cbn [filter].
  destruct (Z.eqb (DonorDatabase.user_id r) uid); reflexivity.
Qed.

Lemma rows_of_type_snoc (uid : Z) (ty : string)
    (pre : list DonorDatabase.Row) (r : DonorDatabase.Row) :
  rows_of_type uid ty (pre ++ [r])
  = rows_of_type uid ty pre
    ++ (if Z.eqb (DonorDatabase.user_id r) uid
           && String.eqb (DonorDatabase.type r) ty
        then [r] else []).
Proof.
  unfold rows_of_type. rewrite rows_of_snoc, filter_app.
  destruct (Z.eqb (DonorDatabase.user_id r) uid); cbn [filter andb];
    [|reflexivity].
  destruct (String.eqb (DonorDatabase.type r) ty); reflexivity.
Qed.

Lemma rows_of_absent (uid : Z) (pre : list DonorDatabase.Row) :
  ~ In uid (map DonorDatabase.user_id pre) -> rows_of uid pre = [].
Proof.
  induction pre as [|r pre IH]; cbn [map In rows_of filter]; [reflexivity|].
  intros Hn. destruct (Z.eqb (DonorDatabase.user_id r) uid) eqn:E.
  - apply Z.eqb_eq in E. tauto.
  - apply IH. tauto.
Qed.

Lemma sum_amounts_snoc (l : list DonorDatabase.Row) (r : DonorDatabase.Row) :
  sum_from 0 (amounts (l ++ [r]))
  == sum_from 0 (amounts l) + DonorDatabase.amount r.
Proof.
  unfold amounts. rewrite map_app, sum_from_app. cbn [map].
  rewrite sum_from_cons. change (sum_from 0 (@nil Q)) with 0. ring.
Qed.

Lemma NoDup_contribution_types : NoDup contribution_types.
Proof.
  unfold contribution_types.
  repeat constructor; cbn [In]; intuition discriminate.
Qed.

(** A row of another contributor does not change what a ledger has to
    reflect. *)
Lemma ledger_of_other (pre : list DonorDatabase.Row)
    (row : DonorDatabase.Row) (kd : Z * Donor.t) :
  fst kd <> DonorDatabase.user_id row ->
  ledger_of pre kd -> ledger_of (pre ++ [row]) kd.
Proof.
  intros Hne (Hid & Hk & Hty & Htot & Hp).
  assert (E : Z.eqb (DonorDatabase.user_id row) (fst kd) = false).
  { apply Z.eqb_neq. congruence. }
  unfold ledger_of. rewrite rows_of_snoc, E, app_nil_r.
  repeat (split; [assumption|]). split; [|split; assumption].
  eapply Forall_impl; [|exact Hty]. intros tv Hv. cbn beta in *.
  rewrite rows_of_type_snoc, E. cbn [andb]. now rewrite app_nil_r.
Qed.

(** The ledger a row's payment was added to reflects the row as well. *)
Lemma ledger_of_add (pre : list DonorDatabase.Row) (row : DonorDatabase.Row)
    (d0 : Donor.t) (p : Payment.t) (cur : Q) :
  ledger_of pre (DonorDatabase.user_id row, d0) ->
  PyDict.get (DonorDatabase.type row) (Donor._contributions d0) = Some cur ->
  ledger_of (pre ++ [row])
    (DonorDatabase.user_id row,
     Donor.set_contributions
       (PyDict.set (DonorDatabase.type row) (cur + DonorDatabase.amount row))
       (Donor.set_payments
          (PyDict.set (DonorDatabase.transaction_id row) p) d0)).
Proof.
  intros (Hid & Hk & Hty & Htot & Hp) Hcur. cbn [fst snd] in *.
  unfold ledger_of.
  cbn [fst snd Donor.set_contributions Donor.set_payments Donor._id
       Donor._contributions Donor._payments].
  rewrite rows_of_snoc, Z.eqb_refl.
  split; [exact Hid|]. split; [|split; [|split]].
  - rewrite keys_set_present; [exact Hk|]. exact (get_Some_key _ _ _ Hcur).
  - apply Forall_set_other
      with (P := fun tv =>
                   snd tv
                   == sum_from 0
                        (amounts (rows_of_type (DonorDatabase.user_id row)
                                    (fst tv) pre))).
    + rewrite Hk. exact NoDup_contribution_types.
    + exact Hty.
    + intros tv Hne Hv. rewrite rows_of_type_snoc, Z.eqb_refl. cbn [andb].
      assert (E : String.eqb (DonorDatabase.type row) (fst tv) = false).
      { apply String.eqb_neq. congruence. }
      rewrite E, app_nil_r. exact Hv.
    + cbn [fst snd]. rewrite rows_of_type_snoc, Z.eqb_refl, String.eqb_refl.
      cbn [andb]. rewrite sum_amounts_snoc.
      apply get_In in Hcur. rewrite Forall_forall in Hty.
      rewrite <- (Hty _ Hcur). reflexivity.
  - unfold Donor.total_contributions.
    cbn [Donor.set_contributions Donor.set_payments Donor._contributions].
    rewrite (sum_values_set _ _ _ _ Hcur), sum_amounts_snoc.
    unfold Donor.total_contributions in Htot. rewrite Htot. reflexivity.
  - rewrite map_app. cbn [map].
    apply keys_set_first_occurrences. exact Hp.
Qed.

Section Ledgers.
Variable strptime : string -> string -> option datetime.

(** The donor a row goes to has a ledger that reflects the rows before
    it: a stored one by the invariant, a new one because it is empty. *)
Lemma row_donor_ledger (pre : list DonorDatabase.Row)
    (row : DonorDatabase.Row) (db : DonorDatabase.t) (d0 : Donor.t) :
  ledgers pre db ->
  row_donor strptime row db = Ok d0 ->
  ledger_of pre (DonorDatabase.user_id row, d0) /\
  (PyDict.get (DonorDatabase.user_id row) (DonorDatabase._donors db)
     = Some d0
   \/ (PyDict.get (DonorDatabase.user_id row) (DonorDatabase._donors db)
         = None /\
       Donor.total_contributions d0 == 0)).
Proof.
  intros [Hk _ Heach _]. unfold row_donor.
  destruct (PyDict.get (DonorDatabase.user_id row)
              (DonorDatabase._donors db)) as [d|] eqn:Hg.
  - intros [= <-]. split; [|now left].
    apply get_In in Hg. rewrite Forall_forall in Heach.
    exact (Heach _ Hg).
  - intros Hnew.
    destruct (Donor_new_fields _ _ _ _ _ _ _ _ _ _ _ _ d0 Hnew)
      as (Hid & Hp & _ & Hc).
    assert (Hrows : rows_of (DonorDatabase.user_id row) pre = []).
    { apply rows_of_absent. apply get_None_not_key in Hg.
      rewrite Hk, first_occurrences_In in Hg. exact Hg. }
    assert (Htot : Donor.total_contributions d0 == 0).
    { unfold Donor.total_contributions. rewrite Hc. reflexivity. }
    split; [|right; split; [reflexivity|exact Htot]].
    unfold ledger_of, rows_of_type. cbn [fst snd].
    rewrite Hrows, Hp, Hc. cbn [filter amounts map].
    split; [exact Hid|]. split; [reflexivity|].
    split; [repeat constructor|]. split; [exact Htot|reflexivity].
Qed.

(** What a row that is processed without exception was turned into. *)
Lemma ingest_row_accepted (row : DonorDatabase.Row) (db : DonorDatabase.t) :
  Forall (fun kd => Donor._id (snd kd) = fst kd) (DonorDatabase._donors db) ->
  res (DonorDatabase.ingest_row strptime row db) = Ok tt ->
  exists d0 p cur,
    row_donor strptime row db = Ok d0 /\
    fst (row_payment strptime row d0) = Ok p /\
    PyDict.get (DonorDatabase.type row) (Donor._contributions d0)
      = Some cur /\
    post (DonorDatabase.ingest_row strptime row db)
    = DonorDatabase.set_payments
        (PyDict.set (DonorDatabase.transaction_id row) p)
        (DonorDatabase.set_donors
           (PyDict.set (DonorDatabase.user_id row)
              (Donor.set_contributions
                 (PyDict.set (DonorDatabase.type row)
                    (cur + DonorDatabase.amount row))
                 (Donor.set_payments
                    (PyDict.set (DonorDatabase.transaction_id row) p) d0)))
           db) /\
    warned (DonorDatabase.ingest_row strptime row db)
    = snd (row_payment strptime row d0) ++ repeated_warning p db.
Proof.
  intros Hids Hres.
  pose proof (ingest_row_outcome strptime row db Hids) as Hout.
  destruct (row_donor strptime row db) as [d0|e].
  2:{ destruct Hout as [Hr _]. rewrite Hr in Hres. discriminate. }
  destruct (fst (row_payment strptime row d0)) as [p|e] eqn:Hp.
  2:{ destruct Hout as [Hr _]. rewrite Hr in Hres. discriminate. }
  destruct (PyDict.get (DonorDatabase.type row) (Donor._contributions d0))
    as [cur|] eqn:Hcur.
  2:{ destruct Hout as [Hr _]. rewrite Hr in Hres. discriminate. }
  destruct Hout as (_ & Hpost & Hw).
  exists d0, p, cur. auto.
Qed.

Lemma ledgers_ids (pre : list DonorDatabase.Row) (db : DonorDatabase.t) :
  ledgers pre db ->
  Forall (fun kd => Donor._id (snd kd) = fst kd) (DonorDatabase._donors db).
Proof.
  intros [_ _ Heach _]. eapply Forall_impl; [|exact Heach].
  intros kd H. apply H.
Qed.

Lemma ingest_row_ledgers (pre : list DonorDatabase.Row)
    (row : DonorDatabase.Row) (db : DonorDatabase.t) :
  ledgers pre db ->
  res (DonorDatabase.ingest_row strptime row db) = Ok tt ->
  ledgers (pre ++ [row]) (post (DonorDatabase.ingest_row strptime row db)).
Proof.
  intros Hl Hres.
  destruct (ingest_row_accepted row db (ledgers_ids pre db Hl) Hres)
    as (d0 & p & cur & Hd0 & _ & Hcur & -> & _).
  destruct (row_donor_ledger pre row db d0 Hl Hd0) as [Hled Horigin].
  destruct Hl as [Hk Hp Heach Htot].
  constructor;
    cbn [DonorDatabase.set_payments DonorDatabase.set_donors
         DonorDatabase._payments DonorDatabase._donors].
  - rewrite map_app. cbn [map]. now apply keys_set_first_occurrences.
  - rewrite map_app. cbn [map]. now apply keys_set_first_occurrences.
  - apply Forall_set_other with (P := ledger_of pre).
    + rewrite Hk. apply first_occurrences_NoDup.
    + exact Heach.
    + intros kd Hne. now apply ledger_of_other.
    + now apply ledger_of_add.
  - unfold entry_total in *.
    rewrite (sum_set_entry Donor.total_contributions _ _ d0 _ Horigin).
    rewrite Htot, sum_amounts_snoc.
    unfold Donor.total_contributions at 1.
    cbn [Donor.set_contributions Donor.set_payments Donor._contributions].
    rewrite (sum_values_set _ _ _ _ Hcur).
    unfold Donor.total_contributions. ring.
Qed.

Lemma ledgers_empty : ledgers [] DonorDatabase.empty.
Proof. constructor; cbn; try reflexivity. constructor. Qed.

(** The object a successful construction returns reflects all the rows. *)
Lemma init_ledgers (rows : list DonorDatabase.Row) :
  res (DonorDatabase.init strptime rows) = Ok tt ->
  ledgers rows (post (DonorDatabase.init strptime rows)).
Proof.
  intros Hres. unfold DonorDatabase.init in *.
  exact (for_each_trace (DonorDatabase.ingest_row strptime)
           (fun pre db _ => ledgers pre db)
           (fun pre x s _ => ingest_row_ledgers pre x s)
           rows [] DonorDatabase.empty [] ledgers_empty Hres).
Qed.
End Ledgers.

(** *** When a row is accepted *)



Definition is_already_added (w : Warning) : bool :=
  match w with
  | AlreadyAdded _ _ _ _ _ => true
  | _ => false
  end.

Definition is_unable_to_add (w : Warning) : bool :=
  match w with
  | UnableToAdd _ _ _ => true
  | _ => false
  end.

Definition is_no_valid_date (w : Warning) : bool :=
  match w with
  | NoValidDate _ _ _ _ _ => true
  | _ => false
  end.

Section Acceptance.
Variable strptime : string -> string -> option datetime.



(** [Payment(...)] only ever warns about a missing nominal date. *)
Lemma Payment_new_warnings (tid uid : Z) (ty : string) (ad pd : date_arg)
    (fn ln full em pt rm : string) (a : Q) (g : Z) (s1 s2 ci st : string)
    (po : Z) :
  Forall (fun w => is_no_valid_date w = true)
    (snd (Payment.new strptime tid uid ty ad pd fn ln full em pt rm a g
            s1 s2 ci st po)).
Proof.
  unfold Payment.new.
  destruct (Payment.convert_date strptime ad); [|constructor].
  destruct (Payment.convert_date strptime pd); [|constructor].
  cbn [snd]. destruct (Payment.date_warning_guard _ _); repeat constructor.
Qed.



(** The warnings of one row, whatever its outcome. *)
Lemma ingest_row_warned (pre : list DonorDatabase.Row)
    (row : DonorDatabase.Row) (db : DonorDatabase.t) :
  ledgers pre db ->
  Forall (fun w => is_unable_to_add w = false)
    (warned (DonorDatabase.ingest_row strptime row db)).
Proof.
  intros Hl.
  pose proof (ingest_row_outcome strptime row db (ledgers_ids pre db Hl))
    as Hout.
  destruct (row_donor strptime row db) as [d0|e].
  2:{ destruct Hout as [_ ->]. constructor. }
  assert (Hpay : Forall (fun w => is_unable_to_add w = false)
                   (snd (row_payment strptime row d0))).
  { eapply Forall_impl; [|apply Payment_new_warnings].
    intros [] H; cbn in *; congruence. }
  destruct (fst (row_payment strptime row d0)) as [p|e].
  2:{ destruct Hout as [_ ->]. exact Hpay. }
  destruct (PyDict.get (DonorDatabase.type row) (Donor._contributions d0)).
  - destruct Hout as (_ & _ & ->). apply Forall_app. split; [exact Hpay|].
    unfold repeated_warning.
    destruct (PyDict.get _ _); repeat constructor.
  - destruct Hout as [_ ->]. exact Hpay.
Qed.

(** Every accepted row either adds a transaction identifier to
    [_payments] or is reported as already added. *)
Lemma ingest_row_counts (pre : list DonorDatabase.Row)
    (row : DonorDatabase.Row) (db : DonorDatabase.t) :
  ledgers pre db ->
  res (DonorDatabase.ingest_row strptime row db) = Ok tt ->
  (List.length (filter is_already_added
                  (warned (DonorDatabase.ingest_row strptime row db)))
   + PyDict.len (DonorDatabase._payments
                   (post (DonorDatabase.ingest_row strptime row db)))
   = S (PyDict.len (DonorDatabase._payments db)))%nat.
Proof.
  intros Hl Hres.
  destruct (ingest_row_accepted strptime row db (ledgers_ids pre db Hl) Hres)
    as (d0 & p & cur & _ & Hp & _ & -> & ->).
  assert (Htid : Payment.transaction_id p = DonorDatabase.transaction_id row).
  { unfold row_payment in Hp.
    exact (proj1 (Payment_new_fields _ _ _ _ _ _ _ _ _ _ _ _ _ _ _ _ _ _ _
                    p Hp)). }
  assert (Hnone : filter is_already_added (snd (row_payment strptime row d0))
                  = []).
  { pose proof (Payment_new_warnings (DonorDatabase.transaction_id row)
                  (DonorDatabase.user_id row) (DonorDatabase.type row)
                  (DonorDatabase.actual_date row)
                  (DonorDatabase.posted_date row)
                  (first (Donor._name d0)) (last (Donor._name d0))
                  (full (Donor._name d0)) (Donor._email d0)
                  (DonorDatabase.payment_type row)
                  (DonorDatabase.response_meta row) (DonorDatabase.amount row)
                  (DonorDatabase.gl_code row)
                  (street1 (Donor._address d0)) (street2 (Donor._address d0))
                  (city (Donor._address d0)) (state (Donor._address d0))
                  (postal (Donor._address d0))) as Hw.
    fold (row_payment strptime row d0) in Hw.
    induction Hw as [|w ws Hw0 _ IH]; [reflexivity|].
    cbn [filter]. destruct w; cbn in Hw0 |- *; try discriminate. exact IH. }
  rewrite filter_app, Hnone. cbn [app].
  cbn [DonorDatabase.set_payments DonorDatabase.set_donors
       DonorDatabase._payments].
  unfold repeated_warning. rewrite Htid.
  destruct (PyDict.get (DonorDatabase.transaction_id row)
              (DonorDatabase._payments db)) as [existing|] eqn:Hg.
  - cbn [filter is_already_added List.length].
    rewrite len_set_present by exact (get_Some_key _ _ _ Hg). lia.
  - cbn [filter List.length]. rewrite len_set_absent by exact Hg. lia.
Qed.
End Acceptance.

(** ** The constructed registry and the rows it was built from *)


(** The total of a constructed registry is the sum of the amounts of all
    the rows, repeated transaction identifiers and refunds included. *)
Theorem init_total_is_sum_of_rows
    (strptime : string -> string -> option datetime)
    (rows : list DonorDatabase.Row) :
  res (DonorDatabase.init strptime rows) = Ok tt ->
  exists v,
    res (DonorDatabase.total_contributions
           (post (DonorDatabase.init strptime rows))) = Ok v /\
    v == sum_from 0 (map DonorDatabase.amount rows).
Proof.
  intros Hres. eexists. split.
  - apply total_contributions_uncached.
    exact (ingested_total _ (init_ingested strptime rows Hres)).
  - exact (ledgers_total _ _ (init_ledgers strptime rows Hres)).
Qed.

Lemma init_total_is_sum_of_rows_witness :
  exists v,
    res (DonorDatabase.total_contributions
           (post (DonorDatabase.init example_strptime scenario_rows)))
    = Ok v /\
    v == sum_from 0 (map DonorDatabase.amount scenario_rows).
Proof.
  apply (init_total_is_sum_of_rows example_strptime scenario_rows).
  vm_compute. reflexivity.
Defined.

(** The donors of a constructed registry are keyed by the distinct
    [user_id]s of the rows, in the order of their first rows, and its
    payments by the distinct transaction identifiers, likewise. *)
Theorem init_keys_are_first_occurrences
    (strptime : string -> string -> option datetime)
    (rows : list DonorDatabase.Row) :
  res (DonorDatabase.init strptime rows) = Ok tt ->
  PyDict.keys (DonorDatabase._donors
                 (post (DonorDatabase.init strptime rows)))
  = first_occurrences (map DonorDatabase.user_id rows) /\
  PyDict.keys (DonorDatabase._payments
                 (post (DonorDatabase.init strptime rows)))
  = first_occurrences (map DonorDatabase.transaction_id rows).
Proof.
  intros Hres. destruct (init_ledgers strptime rows Hres) as [Hd Hp _ _].
  auto.
Qed.

Lemma init_keys_are_first_occurrences_witness :
  PyDict.keys (DonorDatabase._donors
                 (post (DonorDatabase.init example_strptime scenario_rows)))
  = first_occurrences (map DonorDatabase.user_id scenario_rows) /\
  PyDict.keys (DonorDatabase._payments
                 (post (DonorDatabase.init example_strptime scenario_rows)))
  = first_occurrences (map DonorDatabase.transaction_id scenario_rows).
Proof.
  apply (init_keys_are_first_occurrences example_strptime scenario_rows).
  vm_compute. reflexivity.
Defined.

(** Every ledger of a constructed registry reflects the rows of its
    contributor: its total is the sum of their amounts, the running total
    of each contribution type is the sum of the amounts of the rows of that
    type, and its payments are keyed by their distinct transaction
    identifiers in order of first occurrence. *)
Theorem init_ledger_reflects_rows
    (strptime : string -> string -> option datetime)
    (rows : list DonorDatabase.Row) :
  res (DonorDatabase.init strptime rows) = Ok tt ->
  forall uid d,
    In (uid, d) (DonorDatabase._donors
                   (post (DonorDatabase.init strptime rows))) ->
    Donor.total_contributions d
    == sum_from 0 (map DonorDatabase.amount (rows_of uid rows)) /\
    (forall ty, In ty contribution_types ->
       exists v,
         PyDict.get ty (Donor._contributions d) = Some v /\
         v == sum_from 0 (map DonorDatabase.amount
                            (rows_of_type uid ty rows))) /\
    PyDict.keys (Donor.payments d)
    = first_occurrences (map DonorDatabase.transaction_id
                           (rows_of uid rows)).
Proof.
  intros Hres uid d Hin.
  destruct (init_ledgers strptime rows Hres) as [_ _ Heach _].
  rewrite Forall_forall in Heach.
  destruct (Heach _ Hin) as (_ & Hk & Hty & Htot & Hp). cbn [fst snd] in *.
  split; [exact Htot|]. split; [|exact Hp].
  intros ty Hty_in. rewrite <- Hk in Hty_in.
  destruct (key_get_Some _ _ Hty_in) as [v Hv]. exists v.
  split; [exact Hv|]. apply get_In in Hv. rewrite Forall_forall in Hty.
  exact (Hty _ Hv).
Qed.

Lemma init_ledger_reflects_rows_witness :
  exists d,
    In (1%Z, d) (DonorDatabase._donors
                   (post (DonorDatabase.init example_strptime
                            scenario_rows))) /\
    (Donor.total_contributions d
     == sum_from 0 (map DonorDatabase.amount (rows_of 1 scenario_rows)) /\
     (forall ty, In ty contribution_types ->
        exists v,
          PyDict.get ty (Donor._contributions d) = Some v /\
          v == sum_from 0 (map DonorDatabase.amount
                             (rows_of_type 1 ty scenario_rows))) /\
     PyDict.keys (Donor.payments d)
     = first_occurrences (map DonorDatabase.transaction_id
                            (rows_of 1 scenario_rows))).
Proof.
  destruct (PyDict.get 1%Z
              (DonorDatabase._donors
                 (post (DonorDatabase.init example_strptime scenario_rows))))
    as [d|] eqn:Hg; [|vm_compute in Hg; discriminate].
  exists d. apply get_In in Hg. split; [exact Hg|].
  apply (init_ledger_reflects_rows example_strptime scenario_rows);
    [vm_compute; reflexivity|exact Hg].
Defined.

(** Whether construction returns or raises, it never emits the warning of
    [add_payment] about a mismatched identifier: the loop only ever adds a
    row to the donor stored under the row's own [user_id]. *)
Theorem init_never_warns_unable_to_add
    (strptime : string -> string -> option datetime)
    (rows : list DonorDatabase.Row) :
  Forall (fun w => is_unable_to_add w = false)
    (warned (DonorDatabase.init strptime rows)).
Proof.
  unfold DonorDatabase.init.
  apply (for_each_warned (DonorDatabase.ingest_row strptime)
           (fun db => exists pre, ledgers pre db)).
  - intros x s [pre Hl] Hres. exists (pre ++ [x]).
    now apply ingest_row_ledgers.
  - intros x s [pre Hl]. exact (ingest_row_warned strptime pre x s Hl).
  - exists []. exact ledgers_empty.
Qed.

(** In a construction that returns, every row either added a transaction
    identifier to [_payments] or was reported as already added: the number
    of those warnings and the number of stored payments add up to the
    number of rows. *)
Theorem init_repeated_ids_are_warned
    (strptime : string -> string -> option datetime)
    (rows : list DonorDatabase.Row) :
  res (DonorDatabase.init strptime rows) = Ok tt ->
  (List.length (filter is_already_added
                  (warned (DonorDatabase.init strptime rows)))
   + PyDict.len (DonorDatabase._payments
                   (post (DonorDatabase.init strptime rows)))
   = List.length rows)%nat.
Proof.
  intros Hres. unfold DonorDatabase.init in *.
  pose proof (for_each_trace (DonorDatabase.ingest_row strptime)
                (fun pre db w =>
                   ledgers pre db /\
                   (List.length (filter is_already_added w)
                    + PyDict.len (DonorDatabase._payments db)
                    = List.length pre)%nat)) as Htrace.
  cbv beta in Htrace.
  refine (proj2 (Htrace _ rows [] DonorDatabase.empty []
                   (conj ledgers_empty eq_refl) Hres)).
  intros pre x s w [Hl Hcount] Hx.
  split; [now apply ingest_row_ledgers|].
  pose proof (ingest_row_counts strptime pre x s Hl Hx) as Hstep.
  rewrite filter_app, !length_app. cbn [List.length]. lia.
Qed.

Lemma init_repeated_ids_are_warned_witness :
  (List.length (filter is_already_added
                  (warned (DonorDatabase.init example_strptime
                             scenario_rows)))
   + PyDict.len (DonorDatabase._payments
                   (post (DonorDatabase.init example_strptime
                            scenario_rows)))
   = List.length scenario_rows)%nat.
Proof.
  apply (init_repeated_ids_are_warned example_strptime scenario_rows).
  vm_compute. reflexivity.
Defined.

(** ** The groups of [get_donors_by_level] *)

(** The level of the total of the donor stored under [uid]. *)
Definition tier_in (store : list (Z * Donor.t)) (uid : Z)
    : option DonorLevel :=
  match PyDict.get uid store with
  | Some d => Donor.level_loop (Donor.total_contributions d) DonorLevel_members
  | None => None
  end.

(** The keys among [uids] whose donors have level [l], in the order of
    [uids]. *)
Definition members_of (store : list (Z * Donor.t)) (l : option DonorLevel)
    (uids : list Z) : list Z :=
  filter (fun uid => level_key_eqb (tier_in store uid) l) uids.

(** The entry of a level in the dict of groups: none when the level has no
    donor. *)
Definition group_of (store : list (Z * Donor.t)) (l : option DonorLevel)
    (uids : list Z) : option (list Z) :=
  match members_of store l uids with
  | [] => None
  | _ :: _ => Some (members_of store l uids)
  end.

Lemma add_to_group_get (store : list (Z * Donor.t)) (visited : list Z)
    (uid : Z) (groups : list (option DonorLevel * list Z)) :
  (forall l, PyDict.get l groups = group_of store l visited) ->
  forall l,
    PyDict.get l (add_to_group (tier_in store uid) uid groups)
    = group_of store l (visited ++ [uid]).
Proof.
  intros H l. unfold add_to_group, group_of, members_of.
  rewrite filter_app. cbn [filter].
  destruct (level_key_eqb (tier_in store uid) l) eqn:E.
  - apply (@keqb_eq _ _ EqKeyOk_level) in E. subst l.
    rewrite get_set_same, H. unfold group_of, members_of.
    destruct (filter _ visited); reflexivity.
  - rewrite get_set_other.
    + rewrite H, app_nil_r. reflexivity.
    + intros ->. change (keqb (tier_in store uid) (tier_in store uid) = false)
        in E.
      rewrite keqb_refl in E. discriminate.
Qed.

(** [get_donors_by_level] on a constructed database: the grouping
    invariant, the content of every group, and the value returned. *)
Lemma get_donors_by_level_content (db : DonorDatabase.t)
    (level : option DonorLevel) :
  ingested db ->
  grouping (DonorDatabase._donors db) (PyDict.keys (ranked_entries db))
    (post (DonorDatabase.get_donors_by_level level db)) /\
  (forall l,
     PyDict.get l (DonorDatabase.by_level_dict
                     (post (DonorDatabase.get_donors_by_level level db)))
     = group_of (DonorDatabase._donors db) l
         (PyDict.keys (ranked_entries db))) /\
  res (DonorDatabase.get_donors_by_level level db)
  = Ok match group_of (DonorDatabase._donors db) level
               (PyDict.keys (ranked_entries db)) with
       | Some uids => DonorDatabase.AtLevel uids
       | None =>
           DonorDatabase.ByLevel
             (DonorDatabase.by_level_dict
                (post (DonorDatabase.get_donors_by_level level db)))
       end.
Proof.
  intros [Hnd Hall Ht Htot Hrk Hlv Hst].
  unfold DonorDatabase.get_donors_by_level.
  rewrite bind_get_self, Hlv.
  set (uids := PyDict.keys (ranked_entries db)).
  set (db2 := DonorDatabase.set_donors_by_level (Some [])
                (DonorDatabase.set_donors_by_contribution (Some uids) db)).
  assert (Hinner :
    bind DonorDatabase.donors_by_contribution
      (fun uids =>
         bind (modify (DonorDatabase.set_donors_by_level (Some [])))
              (fun _ => for_each DonorDatabase.group_donor uids)) db
    = for_each DonorDatabase.group_donor uids db2).
  { rewrite (bind_pure _ _ db
               (DonorDatabase.set_donors_by_contribution (Some uids) db) uids).
    - now rewrite bind_modify.
    - rewrite donors_by_contribution_outcome, Hrk. reflexivity. }
  assert (Hstart : grouping (DonorDatabase._donors db) [] db2).
  { constructor; cbn; try reflexivity; try constructor; try assumption.
    eapply Forall_impl; [|exact Hall]. intros kv (_ & _ & Hnone).
    left. exact Hnone. }
  destruct (for_each_returns DonorDatabase.group_donor
              (fun visited s =>
                 grouping (DonorDatabase._donors db) visited s /\
                 forall l,
                   PyDict.get l (DonorDatabase.by_level_dict s)
                   = group_of (DonorDatabase._donors db) l visited)
              uids) with (s := db2)
    as [Hres [Hgrp Hgroups]].
  - intros visited uid s Hin [Hg Hq].
    assert (Hk : In uid (PyDict.keys (DonorDatabase._donors db))).
    { unfold uids, PyDict.keys in *. apply in_map_iff in Hin.
      destruct Hin as (kv & <- & Hkv). apply in_map.
      exact (Permutation_in kv (sorted_Permutation entry_total true _) Hkv). }
    destruct (group_donor_grouping _ _ _ _ Hg Hk) as [Hr Hg'].
    split; [exact Hr|]. split; [exact Hg'|].
    pose proof (grouping_store _ _ _ Hg) as Hst'.
    pose proof (grouping_caches _ _ _ Hg) as Hca.
    rewrite <- (forget_levels_keys _ _ Hst') in Hk.
    destruct (key_get_Some _ _ Hk) as [d Hd].
    rewrite (group_donor_outcome s uid d Hd).
    cbn [post DonorDatabase.set_donors_by_level DonorDatabase.by_level_dict
         DonorDatabase._donors_by_level].
    assert (Hlevel : level_of d = tier_in (DonorDatabase._donors db) uid).
    { assert (Hok : cache_ok d).
      { rewrite Forall_forall in Hca. exact (Hca _ (get_In _ _ _ Hd)). }
      rewrite (level_of_cache_ok d Hok).
      destruct (forget_levels_In _ _ _ _ Hst' (get_In _ _ _ Hd))
        as (d0 & Hin0 & Hf0).
      unfold tier_in. rewrite (In_get_NoDup uid d0 _ Hnd Hin0).
      now rewrite (proj1 (forget_level_total _ _ Hf0)). }
    rewrite Hlevel. apply add_to_group_get. exact Hq.
  - split; [exact Hstart|]. intros l. reflexivity.
  - rewrite <- Hinner in Hres, Hgrp, Hgroups.
    match goal with
    | |- context [bind ?m ?k db] =>
        destruct (bind_Ok m k db tt Hres) as [Hr Hp]
    end.
    rewrite Hr, Hp, bind_get_self. cbn [ret res post].
    split; [exact Hgrp|]. split; [exact Hgroups|].
    rewrite Hgroups. unfold group_of.
    destruct (members_of _ _ _); reflexivity.
Qed.

(** On a constructed registry, [get_donors_by_level] groups the keys of the
    ranked view by the level of their donors: the dict has an entry exactly
    for the levels that have a donor, and the entry lists the donors of the
    level in ranked order. With a level that has donors the call returns
    that list; with any other argument (a level without donors, or the
    default when every donor has a level) it returns the whole dict. *)
Theorem get_donors_by_level_groups
    (strptime : string -> string -> option datetime)
    (rows : list DonorDatabase.Row) (level : option DonorLevel) :
  res (DonorDatabase.init strptime rows) = Ok tt ->
  let db := post (DonorDatabase.init strptime rows) in
  let ranked := PyDict.keys (ranked_entries db) in
  exists groups,
    (forall l,
       PyDict.get l groups = group_of (DonorDatabase._donors db) l ranked) /\
    res (DonorDatabase.get_donors_by_level level db)
    = Ok match group_of (DonorDatabase._donors db) level ranked with
         | Some uids => DonorDatabase.AtLevel uids
         | None => DonorDatabase.ByLevel groups
         end.
Proof.
  intros Hres db ranked.
  pose proof (init_ingested strptime rows Hres) as Hing. fold db in Hing.
  destruct (get_donors_by_level_content db level Hing) as (_ & Hg & Hr).
  eexists. split; [exact Hg|exact Hr].
Qed.

Lemma get_donors_by_level_groups_witness :
  let db := post (DonorDatabase.init example_strptime scenario_rows) in
  let ranked := PyDict.keys (ranked_entries db) in
  exists groups,
    (forall l,
       PyDict.get l groups = group_of (DonorDatabase._donors db) l ranked) /\
    res (DonorDatabase.get_donors_by_level (Some DONORLEVEL_ZERO) db)
    = Ok match group_of (DonorDatabase._donors db) (Some DONORLEVEL_ZERO)
                 ranked with
         | Some uids => DonorDatabase.AtLevel uids
         | None => DonorDatabase.ByLevel groups
         end.
Proof.
  apply (get_donors_by_level_groups example_strptime scenario_rows
           (Some DONORLEVEL_ZERO)).
  vm_compute. reflexivity.
Defined.

(** ** The statistics of one level ([get_donor_level_stats]) *)

Lemma get_forget_levels (store : list (Z * Donor.t)) (uid : Z) :
  PyDict.get uid (forget_levels store)
  = option_map forget_level (PyDict.get uid store).
Proof.
  unfold forget_levels.
  induction store as [|[k d] store IH]; cbn [map PyDict.get fst snd];
    [reflexivity|].
  destruct (keqb uid k); [reflexivity|exact IH].
Qed.

(** The donors a list of keys refers to are the same, up to the cached
    levels, in two stores that differ by the cached levels only. *)
Lemma donors_at_forget (store store' : list (Z * Donor.t)) (uids : list Z) :
  forget_levels store' = forget_levels store ->
  map forget_level (DonorDatabase.donors_at store' uids)
  = map forget_level (DonorDatabase.donors_at store uids).
Proof.
  intros Hf. unfold DonorDatabase.donors_at.
  induction uids as [|uid uids IH]; [reflexivity|].
  cbn [flat_map]. rewrite !map_app, IH. f_equal.
  pose proof (get_forget_levels store' uid) as H'.
  pose proof (get_forget_levels store uid) as H.
  rewrite Hf, H in H'.
  destruct (PyDict.get uid store'), (PyDict.get uid store);
    cbn [option_map] in H'; try discriminate; [|reflexivity].
  cbn [map]. congruence.
Qed.

Lemma donors_at_forget_map {B : Type} (f : Donor.t -> B)
    (store store' : list (Z * Donor.t)) (uids : list Z) :
  (forall d, f (forget_level d) = f d) ->
  forget_levels store' = forget_levels store ->
  map f (DonorDatabase.donors_at store' uids)
  = map f (DonorDatabase.donors_at store uids).
Proof.
  intros Hfd Hf.
  assert (H : forall l, map f l = map f (map forget_level l)).
  { intros l. rewrite map_map. apply map_ext. intros d. now rewrite Hfd. }
  now rewrite (H (DonorDatabase.donors_at store' uids)),
              (donors_at_forget _ _ _ Hf), <- H.
Qed.

Lemma amounts_of_concat (donors : list Donor.t) :
  amounts_of donors
  = List.concat
      (map (fun donor =>
              map Payment.amount (PyDict.values (Donor.payments donor)))
           donors).
Proof. unfold amounts_of. apply flat_map_concat_map. Qed.

Lemma donors_at_length (store : list (Z * Donor.t)) (uids : list Z) :
  (forall uid, In uid uids -> In uid (PyDict.keys store)) ->
  List.length (DonorDatabase.donors_at store uids) = List.length uids.
Proof.
  unfold DonorDatabase.donors_at.
  induction uids as [|uid uids IH]; intros Hin; [reflexivity|].
  cbn [flat_map]. rewrite length_app, IH by (intros u Hu; apply Hin; now right).
  destruct (key_get_Some uid store (Hin uid (or_introl eq_refl))) as [d ->].
  reflexivity.
Qed.

(** The two counters of the inner loop agree: the number of payments is
    the number of amounts collected. *)
Lemma count_payments_length (donors : list Donor.t) (n : nat) :
  fold_left (fun n donor => (n + Donor.num_payments donor)%nat) donors n
  = (n + List.length (amounts_of donors))%nat.
Proof.
  revert n. induction donors as [|d donors IH]; intros n;
    cbn [fold_left amounts_of flat_map].
  - cbn. lia.
  - rewrite IH. fold (amounts_of donors).
    rewrite length_app, length_map.
    unfold Donor.num_payments, PyDict.len, PyDict.values, Donor.payments.
    rewrite length_map. lia.
Qed.

Lemma fold_Qmax_spec (l : list Q) (x : Q) :
  In (fold_left Qmax l x) (x :: l) /\
  Forall (fun a => a <= fold_left Qmax l x) (x :: l).
Proof.
  revert x. induction l as [|y l IH]; intros x; cbn [fold_left].
  - split; [now left|]. constructor; [apply Qle_refl|constructor].
  - destruct (IH (Qmax x y)) as [Hin Hall].
    assert (Hxy : x <= Qmax x y /\ y <= Qmax x y /\
                  (Qmax x y = x \/ Qmax x y = y)).
    { unfold Qmax. destruct (Qle_bool x y) eqn:E.
      - apply Qle_bool_iff in E. repeat split; auto. apply Qle_refl.
      - apply Qle_bool_false_iff in E. repeat split; auto;
          [apply Qle_refl|now apply Qlt_le_weak]. }
    destruct Hxy as (Hx & Hy & Hsel).
    pose proof (Forall_inv Hall) as Hm. cbn beta in Hm.
    split.
    + destruct Hin as [Heq|Hin]; [|now right; right].
      destruct Hsel as [Hs|Hs]; rewrite <- Heq, Hs; [now left|right; now left].
    + constructor; [eapply Qle_trans; eassumption|].
      constructor; [eapply Qle_trans; eassumption|].
      exact (Forall_inv_tail Hall).
Qed.

Lemma fold_Qmin_spec (l : list Q) (x : Q) :
  In (fold_left Qmin l x) (x :: l) /\
  Forall (fun a => fold_left Qmin l x <= a) (x :: l).
Proof.
  revert x. induction l as [|y l IH]; intros x; cbn [fold_left].
  - split; [now left|]. constructor; [apply Qle_refl|constructor].
  - destruct (IH (Qmin x y)) as [Hin Hall].
    assert (Hxy : Qmin x y <= x /\ Qmin x y <= y /\
                  (Qmin x y = x \/ Qmin x y = y)).
    { unfold Qmin. destruct (Qle_bool x y) eqn:E.
      - apply Qle_bool_iff in E. repeat split; auto. apply Qle_refl.
      - apply Qle_bool_false_iff in E. repeat split; auto;
          [now apply Qlt_le_weak|apply Qle_refl]. }
    destruct Hxy as (Hx & Hy & Hsel).
    pose proof (Forall_inv Hall) as Hm. cbn beta in Hm.
    split.
    + destruct Hin as [Heq|Hin]; [|now right; right].
      destruct Hsel as [Hs|Hs]; rewrite <- Heq, Hs; [now left|right; now left].
    + constructor; [eapply Qle_trans; eassumption|].
      constructor; [eapply Qle_trans; eassumption|].
      exact (Forall_inv_tail Hall).
Qed.

(** What the [DonorLevelStats] of a list of donors holds. *)
Lemma level_stats_fields (lvl : option DonorLevel) (donors : list Donor.t)
    (s : DonorLevelStats) :
  DonorDatabase.level_stats lvl donors = Ok s ->
  level_of_stats s = lvl /\
  n_donors s = List.length donors /\
  n_payments s = List.length (payments_of_stats s) /\
  payments_of_stats s = amounts_of donors /\
  total s = sum_from 0 (map Donor.total_contributions donors) /\
  In (max_amount s) (payments_of_stats s) /\
  In (min_amount s) (payments_of_stats s) /\
  Forall (fun a => min_amount s <= a /\ a <= max_amount s)
         (payments_of_stats s).
Proof.
  unfold DonorDatabase.level_stats. fold (amounts_of donors).
  rewrite count_payments_length, fold_left_sum.
  destruct (amounts_of donors) as [|x l] eqn:E; cbn [np_max np_min];
    [discriminate|].
  intros [= <-].
  cbn [level_of_stats n_donors n_payments payments_of_stats total
       max_amount min_amount].
  destruct (fold_Qmax_spec l x) as [Hmax_in Hmax].
  destruct (fold_Qmin_spec l x) as [Hmin_in Hmin].
  repeat (split; [auto; fail|]).
  rewrite Forall_forall in *. intros a Ha. split; auto.
Qed.

(** The entry of a level in the dict of statistics is the statistics of
    the entry of that level in the dict of groups. *)
Lemma stats_lookup (store : list (Z * Donor.t))
    (items : list (option DonorLevel * list Z))
    (stats : list (option DonorLevel * DonorLevelStats))
    (l : option DonorLevel) :
  Forall2 (fun g kv =>
             fst kv = fst g /\
             DonorDatabase.level_stats (fst g)
               (DonorDatabase.donors_at store (snd g)) = Ok (snd kv))
          items stats ->
  match PyDict.get l items with
  | Some uids =>
      exists s,
        PyDict.get l stats = Some s /\
        DonorDatabase.level_stats l (DonorDatabase.donors_at store uids)
        = Ok s
  | None => PyDict.get l stats = None
  end.
Proof.
  induction 1 as [|[lvl uids] [k s] items stats [Hk Hs] _ IH];
    cbn [PyDict.get]; [reflexivity|].
  cbn [fst snd] in Hk, Hs. subst k.
  destruct (keqb l lvl) eqn:E; [|exact IH].
  apply keqb_eq in E. subst lvl. exists s. auto.
Qed.

(** [get_donor_level_stats] on a constructed database in which every donor
    has a level: the dict of statistics is built from the dict of groups,
    entry by entry. *)
Lemma get_donor_level_stats_content (db : DonorDatabase.t)
    (level : option DonorLevel) :
  ingested db ->
  group_of (DonorDatabase._donors db) None (PyDict.keys (ranked_entries db))
    = None ->
  exists stats,
    res (DonorDatabase.get_donor_level_stats level db)
    = Ok match PyDict.get level stats with
         | Some s => DonorDatabase.StatsAtLevel s
         | None => DonorDatabase.StatsByLevel stats
         end /\
    Forall2 (fun g kv =>
               fst kv = fst g /\
               DonorDatabase.level_stats (fst g)
                 (DonorDatabase.donors_at
                    (DonorDatabase._donors
                       (post (DonorDatabase.get_donors_by_level None db)))
                    (snd g)) = Ok (snd kv))
            (DonorDatabase.by_level_dict
               (post (DonorDatabase.get_donors_by_level None db)))
            stats.
Proof.
  intros Hing Hnone.
  destruct (get_donors_by_level_content db None Hing) as (Hgrp & Hg & Hres).
  rewrite Hnone in Hres.
  pose proof (grouped_amounts_nonempty db _ Hing Hgrp) as Hamounts.
  destruct (stats_loop_returns _ _ [] (grouping_keys _ _ _ Hgrp) Hamounts)
    as (stats & Hloop & Hrel).
  cbn [app] in Hloop.
  exists stats. split; [|exact Hrel].
  unfold DonorDatabase.get_donor_level_stats.
  rewrite bind_get_self, (ingested_stats db Hing).
  match goal with
  | |- res (bind ?m ?k db) = _ =>
      assert (Hm : res (m db) = Ok stats)
  end.
  { rewrite (proj1 (bind_Ok _ _ _ _ Hres)).
    rewrite bind_get_self, Hloop.
    rewrite bind_modify. reflexivity. }
  rewrite (proj1 (bind_Ok _ _ _ _ Hm)). reflexivity.
Qed.

(** Some donor has no level exactly when some total is 250000 or more in
    absolute value. *)
Lemma group_of_None_iff (db : DonorDatabase.t) :
  NoDup (PyDict.keys (DonorDatabase._donors db)) ->
  group_of (DonorDatabase._donors db) None (PyDict.keys (ranked_entries db))
    = None
  <-> Forall (fun kv => Qabs (entry_total kv) < 250000)
             (DonorDatabase._donors db).
Proof.
  intros Hnd.
  assert (Hperm : Permutation (ranked_entries db) (DonorDatabase._donors db))
    by apply sorted_Permutation.
  assert (Htier : forall uid d,
            In (uid, d) (DonorDatabase._donors db) ->
            tier_in (DonorDatabase._donors db) uid
            = Donor.level_loop (Donor.total_contributions d)
                DonorLevel_members).
  { intros uid d Hin. unfold tier_in.
    now rewrite (In_get_NoDup uid d _ Hnd Hin). }
  unfold group_of. split.
  - intros Hnone. apply Forall_forall. intros [uid d] Hin.
    destruct (level_loop_cases (entry_total (uid, d)))
      as [(l & _ & Hr)|[Hl _]]; [exact (in_range_below_top _ _ Hr)|].
    exfalso.
    assert (Hm : In uid (members_of (DonorDatabase._donors db) None
                           (PyDict.keys (ranked_entries db)))).
    { unfold members_of. apply filter_In. split.
      - unfold PyDict.keys.
        apply (in_map fst _ (uid, d)).
        exact (Permutation_in _ (Permutation_sym Hperm) Hin).
      - rewrite (Htier uid d Hin). unfold entry_total in Hl. cbn [snd] in Hl.
        rewrite Hl. reflexivity. }
    destruct (members_of _ _ _); [contradiction|discriminate].
  - intros Hall.
    destruct (members_of (DonorDatabase._donors db) None
                (PyDict.keys (ranked_entries db))) as [|uid us] eqn:E;
      [reflexivity|].
    exfalso.
    assert (Hm : In uid (members_of (DonorDatabase._donors db) None
                           (PyDict.keys (ranked_entries db))))
      by (rewrite E; now left).
    unfold members_of in Hm. apply filter_In in Hm. destruct Hm as [Hin Ht].
    unfold PyDict.keys in Hin. apply in_map_iff in Hin.
    destruct Hin as ([k d] & Hk & Hin). cbn [fst] in Hk. subst k.
    apply (Permutation_in _ Hperm) in Hin.
    rewrite (Htier uid d Hin) in Ht.
    rewrite Forall_forall in Hall. specialize (Hall _ Hin).
    destruct (level_loop_cases (entry_total (uid, d)))
      as [(l & Hl & _)|[_ Hbig]]; [|lra].
    unfold entry_total in Hl. cbn [snd] in Hl. rewrite Hl in Ht.
    discriminate.
Qed.

(** On a constructed registry in which every total is below 250000 in
    absolute value, [get_donor_level_stats(level)] returns, for a level
    that has donors, the statistics of exactly those donors: their number,
    the amounts of their payments (as many as [n_payments] counts), the
    sum of their totals, and the smallest and the largest of the amounts.
    For a level without donors it returns the whole dict, which has no
    entry for that level. *)
Theorem get_donor_level_stats_at_level
    (strptime : string -> string -> option datetime)
    (rows : list DonorDatabase.Row) (l : DonorLevel) :
  res (DonorDatabase.init strptime rows) = Ok tt ->
  let db := post (DonorDatabase.init strptime rows) in
  let ranked := PyDict.keys (ranked_entries db) in
  Forall (fun kv => Qabs (entry_total kv) < 250000)
         (DonorDatabase._donors db) ->
  match group_of (DonorDatabase._donors db) (Some l) ranked with
  | Some uids =>
      exists s,
        res (DonorDatabase.get_donor_level_stats (Some l) db)
        = Ok (DonorDatabase.StatsAtLevel s) /\
        level_of_stats s = Some l /\
        n_donors s = List.length uids /\
        n_payments s = List.length (payments_of_stats s) /\
        payments_of_stats s
        = amounts_of (DonorDatabase.donors_at (DonorDatabase._donors db)
                        uids) /\
        total s
        == sum_from 0
             (map Donor.total_contributions
                (DonorDatabase.donors_at (DonorDatabase._donors db) uids)) /\
        In (max_amount s) (payments_of_stats s) /\
        In (min_amount s) (payments_of_stats s) /\
        Forall (fun a => min_amount s <= a /\ a <= max_amount s)
               (payments_of_stats s)
  | None =>
      exists stats,
        res (DonorDatabase.get_donor_level_stats (Some l) db)
        = Ok (DonorDatabase.StatsByLevel stats) /\
        PyDict.get (Some l) stats = None
  end.
Proof.
  intros Hres db ranked Hall.
  pose proof (init_ingested strptime rows Hres) as Hing. fold db in Hing.
  pose proof (ingested_keys db Hing) as Hnd.
  pose proof (proj2 (group_of_None_iff db Hnd) Hall) as Hnone.
  destruct (get_donor_level_stats_content db (Some l) Hing Hnone)
    as (stats & Hr & Hrel).
  destruct (get_donors_by_level_content db None Hing) as (Hgrp & Hg & _).
  pose proof (stats_lookup _ _ _ (Some l) Hrel) as Hlook.
  rewrite Hg in Hlook. fold ranked in Hlook.
  destruct (group_of (DonorDatabase._donors db) (Some l) ranked)
    as [uids|] eqn:Hgo.
  - destruct Hlook as (s & Hs & Hls). exists s. rewrite Hr, Hs.
    split; [reflexivity|].
    destruct (level_stats_fields _ _ _ Hls)
      as (Hlv & Hn & Hnp & Hpay & Htot & Hmax & Hmin & Hb).
    pose proof (grouping_store _ _ _ Hgrp) as Hst.
    assert (Hkeys : forall uid, In uid uids ->
                      In uid (PyDict.keys (DonorDatabase._donors db))).
    { intros uid Hin. unfold group_of in Hgo.
      destruct (members_of (DonorDatabase._donors db) (Some l) ranked)
        as [|u us] eqn:E; [discriminate|].
      injection Hgo as <-. rewrite <- E in Hin. unfold members_of in Hin.
      apply filter_In in Hin. destruct Hin as [Hin _].
      unfold ranked, PyDict.keys in *. apply in_map_iff in Hin.
      destruct Hin as (kv & <- & Hkv). apply in_map.
      exact (Permutation_in kv (sorted_Permutation entry_total true _) Hkv). }
    split; [exact Hlv|]. split.
    { rewrite Hn, <- (length_map forget_level),
        (donors_at_forget _ _ uids Hst), length_map.
      now apply donors_at_length. }
    split; [exact Hnp|]. split.
    { rewrite Hpay, !amounts_of_concat. f_equal.
      apply donors_at_forget_map; [reflexivity|exact Hst]. }
    split.
    { rewrite Htot.
      rewrite (donors_at_forget_map Donor.total_contributions _ _ uids
                 (fun d => eq_refl) Hst).
      reflexivity. }
    auto.
  - exists stats. rewrite Hr, Hlook. auto.
Qed.

Lemma get_donor_level_stats_at_level_witness :
  let db := post (DonorDatabase.init example_strptime scenario_rows) in
  let ranked := PyDict.keys (ranked_entries db) in
  match group_of (DonorDatabase._donors db) (Some DONORLEVEL_ONE) ranked with
  | Some uids =>
      exists s,
        res (DonorDatabase.get_donor_level_stats (Some DONORLEVEL_ONE) db)
        = Ok (DonorDatabase.StatsAtLevel s) /\
        level_of_stats s = Some DONORLEVEL_ONE /\
        n_donors s = List.length uids /\
        n_payments s = List.length (payments_of_stats s) /\
        payments_of_stats s
        = amounts_of (DonorDatabase.donors_at (DonorDatabase._donors db)
                        uids) /\
        total s
        == sum_from 0
             (map Donor.total_contributions
                (DonorDatabase.donors_at (DonorDatabase._donors db) uids)) /\
        In (max_amount s) (payments_of_stats s) /\
        In (min_amount s) (payments_of_stats s) /\
        Forall (fun a => min_amount s <= a /\ a <= max_amount s)
               (payments_of_stats s)
  | None =>
      exists stats,
        res (DonorDatabase.get_donor_level_stats (Some DONORLEVEL_ONE) db)
        = Ok (DonorDatabase.StatsByLevel stats) /\
        PyDict.get (Some DONORLEVEL_ONE) stats = None
  end.
Proof.
  apply (get_donor_level_stats_at_level example_strptime scenario_rows
           DONORLEVEL_ONE).
  - vm_compute. reflexivity.
  - vm_compute. repeat constructor.
Defined.

(** Not every total is below 250000 exactly when some total is not. *)
Lemma some_total_out_of_range (store : list (Z * Donor.t)) :
  ~ Forall (fun kv => Qabs (entry_total kv) < 250000) store
  <-> Exists (fun kv => 250000 <= Qabs (entry_total kv)) store.
Proof.
  split.
  - induction store as [|kv store IH]; intros Hn.
    + exfalso. apply Hn. constructor.
    + destruct (Qlt_le_dec (Qabs (entry_total kv)) 250000) as [Hlt|Hle].
      * apply Exists_cons_tl. apply IH. intros Hall. apply Hn.
        now constructor.
      * now apply Exists_cons_hd.
  - intros Hex Hall. rewrite Forall_forall in Hall.
    apply Exists_exists in Hex. destruct Hex as (x & Hx & Hxb).
    specialize (Hall x Hx). cbn beta in Hall. lra.
Qed.

(** On a constructed registry, [get_donor_level_stats] raises exactly when
    some donor's total is 250000 or more in absolute value, whatever the
    level asked for, and the exception is then [AttributeError]: the donor
    has no level, its group is stored under the key [None], and the
    default argument of [get_donors_by_level] selects that group instead of
    the dict. *)
Theorem get_donor_level_stats_raises_iff
    (strptime : string -> string -> option datetime)
    (rows : list DonorDatabase.Row) (level : option DonorLevel) :
  res (DonorDatabase.init strptime rows) = Ok tt ->
  let db := post (DonorDatabase.init strptime rows) in
  (forall e,
     res (DonorDatabase.get_donor_level_stats level db) = Raise e ->
     e = AttributeError) /\
  (res (DonorDatabase.get_donor_level_stats level db) = Raise AttributeError
   <-> Exists (fun kv => 250000 <= Qabs (entry_total kv))
              (DonorDatabase._donors db)).
Proof.
  intros Hres db.
  pose proof (init_ingested strptime rows Hres) as Hing. fold db in Hing.
  pose proof (ingested_keys db Hing) as Hnd.
  pose proof (group_of_None_iff db Hnd) as Hiff.
  destruct (get_donors_by_level_content db None Hing) as (_ & Hg & _).
  specialize (Hg None).
  pose proof (some_total_out_of_range (DonorDatabase._donors db)) as Hbig.
  destruct (get_donor_level_stats_ingested db level Hing)
    as [[Hin Hr]|(Hnot & stats & Hr & _)].
  - assert (Hex : Exists (fun kv => 250000 <= Qabs (entry_total kv))
                    (DonorDatabase._donors db)).
    { apply Hbig. intros Hall. apply Hiff in Hall.
      rewrite <- Hg in Hall. apply get_None_not_key in Hall. contradiction. }
    split.
    + intros e He. rewrite Hr in He. congruence.
    + split; [intros _; exact Hex|intros _; exact Hr].
  - split.
    + intros e He. rewrite Hr in He. discriminate.
    + split; [intros He; rewrite Hr in He; discriminate|].
      intros Hex. exfalso. apply Hbig in Hex. apply Hex. apply Hiff.
      rewrite <- Hg. now apply get_None_not_key.
Qed.

Lemma get_donor_level_stats_raises_iff_witness :
  let db := post (DonorDatabase.init example_strptime major_rows) in
  (forall e,
     res (DonorDatabase.get_donor_level_stats None db) = Raise e ->
     e = AttributeError) /\
  (res (DonorDatabase.get_donor_level_stats None db) = Raise AttributeError
   <-> Exists (fun kv => 250000 <= Qabs (entry_total kv))
              (DonorDatabase._donors db)).
Proof.
  apply (get_donor_level_stats_raises_iff example_strptime major_rows None).
  vm_compute. reflexivity.
Defined.

(** ** The cached total of the registry *)

(** A method call on a stored donor leaves the cached total of the
    registry as it is. *)
Lemma on_donor_keeps_total_cache {A : Type} (uid : Z) (m : M Donor.t A)
    (db : DonorDatabase.t) :
  DonorDatabase._total_contributions (post (DonorDatabase.on_donor uid m db))
  = DonorDatabase._total_contributions db.
Proof.
  unfold DonorDatabase.on_donor.
  destruct (PyDict.get uid (DonorDatabase._donors db)); reflexivity.
Qed.

(** Once [total_contributions] has been read, it keeps returning the same
    value whatever is done to a donor of the registry afterwards (a payment
    added through [donors[uid].add_payment], for one): the cached value is
    never invalidated. *)
Theorem total_contributions_not_invalidated (A : Type)
    (db : DonorDatabase.t) (uid : Z) (m : M Donor.t A) :
  let db1 := post (DonorDatabase.total_contributions db) in
  let db2 := post (DonorDatabase.on_donor uid m db1) in
  res (DonorDatabase.total_contributions db2)
  = res (DonorDatabase.total_contributions db).
Proof.
  intros db1 db2.
  assert (Hcached : exists v,
            res (DonorDatabase.total_contributions db) = Ok v /\
            DonorDatabase._total_contributions db1 = Some v).
  { subst db1. unfold DonorDatabase.total_contributions.
    rewrite bind_get_self.
    destruct (DonorDatabase._total_contributions db) as [v|] eqn:E.
    - exists v. cbn [ret res post]. auto.
    - rewrite bind_modify. eexists. cbn [ret res post].
      split; reflexivity. }
  destruct Hcached as (v & -> & Hc).
  unfold DonorDatabase.total_contributions. rewrite bind_get_self.
  subst db2. rewrite on_donor_keeps_total_cache, Hc. reflexivity.
Qed.

(** The stale value in the scenario: after a further payment of 1000 by
    contributor 2 the registry still reports 750, while the totals of its
    donors add up to 1750. *)
Example total_contributions_stale :
  let db := post (DonorDatabase.init example_strptime scenario_rows) in
  let db1 := post (DonorDatabase.total_contributions db) in
  let db2 :=
    post (DonorDatabase.on_donor 2
            (Donor.add_payment example_strptime 14 2 "Payment"
               (DateStr "2023-02-01") (DateStr "") "card" "" 1000 4000)
            db1) in
  res (DonorDatabase.total_contributions db2) = Ok 750 /\
  sum_from 0 (map entry_total (DonorDatabase._donors db2)) == 1750.
Proof. cbv zeta. split; vm_compute; reflexivity. Qed.

(** ** The date views ([earliest_payment], [latest_payment]) *)

(** Chronological order, as a proposition. *)
Definition earlier (a b : datetime) : Prop :=
  (year a < year b)%Z \/
  (year a = year b /\
   ((month a < month b)%Z \/ (month a = month b /\ (day a < day b)%Z))).

Lemma datetime_lt_iff (a b : datetime) :
  DateViews.datetime_lt a b = true <-> earlier a b.
Proof.
  unfold DateViews.datetime_lt, earlier.
  rewrite !orb_true_iff, !andb_true_iff, !orb_true_iff, !andb_true_iff,
    !Z.ltb_lt, !Z.eqb_eq.
  reflexivity.
Qed.

Lemma datetime_lt_false_iff (a b : datetime) :
  DateViews.datetime_lt a b = false <-> ~ earlier a b.
Proof.
  rewrite <- datetime_lt_iff.
  destruct (DateViews.datetime_lt a b); split; congruence.
Qed.

(** The date of an entry of [_payments]. *)
Definition date_of (e : Z * Payment.t) : option datetime :=
  Payment.posted_date (snd e).

(** [a] is dated, [b] is dated, and [b] is not earlier than [a]. *)
Definition not_later (a b : Z * Payment.t) : Prop :=
  DateViews.key_lt (date_of b) (date_of a) = Some false.

Lemma not_later_trans (a b c : Z * Payment.t) :
  not_later a b -> not_later b c -> not_later a c.
Proof.
  unfold not_later, DateViews.key_lt.
  destruct (date_of a) as [da|], (date_of b) as [db|], (date_of c) as [dc|];
    try discriminate.
  intros [= Hab] [= Hbc]. f_equal.
  apply datetime_lt_false_iff in Hab, Hbc. apply datetime_lt_false_iff.
  unfold earlier in *. lia.
Qed.

Lemma not_later_refl (a : Z * Payment.t) :
  date_of a <> None -> not_later a a.
Proof.
  unfold not_later, DateViews.key_lt.
  destruct (date_of a) as [da|]; [|congruence]. intros _. f_equal.
  apply datetime_lt_false_iff. unfold earlier. lia.
Qed.

(** Inserting a dated entry into a sorted list of dated entries. *)
Lemma insert_by_date_sorted (x : Z * Payment.t) (l : list (Z * Payment.t)) :
  date_of x <> None ->
  Forall (fun e => date_of e <> None) l ->
  StronglySorted not_later l ->
  exists s,
    DateViews.insert_by_date x l = Some s /\
    Permutation s (x :: l) /\
    StronglySorted not_later s.
Proof.
  intros Hx. induction l as [|y l IH]; intros Hall Hs;
    cbn [DateViews.insert_by_date].
  - exists [x]. split; [reflexivity|]. split; [reflexivity|].
    repeat constructor.
  - pose proof (Forall_inv Hall) as Hy.
    fold (date_of y). fold (date_of x).
    destruct (date_of x) as [dx|] eqn:Ex; [|congruence].
    destruct (date_of y) as [dy|] eqn:Ey; [|congruence].
    cbn [DateViews.key_lt].
    destruct (DateViews.datetime_lt dy dx) eqn:E.
    + destruct (IH (Forall_inv_tail Hall) (proj1 (StronglySorted_inv Hs)))
        as (s & -> & Hperm & Hsorted).
      exists (y :: s). cbn [option_map]. split; [reflexivity|]. split.
      * rewrite Hperm. apply perm_swap.
      * constructor; [exact Hsorted|].
        apply (Permutation_Forall (Permutation_sym Hperm)).
        constructor; [|exact (proj2 (StronglySorted_inv Hs))].
        unfold not_later. rewrite Ex, Ey. cbn [DateViews.key_lt]. f_equal.
        apply datetime_lt_false_iff. apply datetime_lt_iff in E.
        unfold earlier in *. lia.
    + exists (x :: y :: l). split; [reflexivity|]. split; [reflexivity|].
      constructor; [exact Hs|].
      assert (Hxy : not_later x y).
      { unfold not_later. rewrite Ex, Ey. cbn [DateViews.key_lt].
        now rewrite E. }
      constructor; [exact Hxy|].
      eapply Forall_impl; [|exact (proj2 (StronglySorted_inv Hs))].
      intros z Hz. exact (not_later_trans _ _ _ Hxy Hz).
Qed.

(** The sort of a list of dated entries returns them all, earliest
    first. *)
Lemma sorted_by_date_dated (l : list (Z * Payment.t)) :
  Forall (fun e => date_of e <> None) l ->
  exists s,
    DateViews.sorted_by_date l = Some s /\
    Permutation s l /\
    StronglySorted not_later s.
Proof.
  induction l as [|x l IH]; intros Hall; cbn [DateViews.sorted_by_date].
  - exists []. repeat constructor.
  - destruct (IH (Forall_inv_tail Hall)) as (s & -> & Hperm & Hs).
    destruct (insert_by_date_sorted x s (Forall_inv Hall)) as (s' & H & Hp & Hs').
    + exact (Permutation_Forall (Permutation_sym Hperm)
               (Forall_inv_tail Hall)).
    + exact Hs.
    + exists s'. split; [exact H|]. split; [|exact Hs'].
      rewrite Hp. now constructor.
Qed.

Lemma insert_by_date_Permutation (x : Z * Payment.t)
    (l s : list (Z * Payment.t)) :
  DateViews.insert_by_date x l = Some s -> Permutation s (x :: l).
Proof.
  revert s. induction l as [|y l IH]; intros s;
    cbn [DateViews.insert_by_date].
  - intros [= <-]. reflexivity.
  - destruct (DateViews.key_lt _ _) as [[|]|]; [| |discriminate].
    + destruct (DateViews.insert_by_date x l) as [s'|]; [|discriminate].
      cbn [option_map]. intros [= <-]. rewrite (IH s' eq_refl).
      apply perm_swap.
    + intros [= <-]. reflexivity.
Qed.

(** The first comparison of an insertion involves the new entry and the
    head of the list: both have to be dated. *)
Lemma insert_by_date_compares (x y : Z * Payment.t)
    (l s : list (Z * Payment.t)) :
  DateViews.insert_by_date x (y :: l) = Some s ->
  date_of x <> None /\ date_of y <> None.
Proof.
  cbn [DateViews.insert_by_date]. fold (date_of x). fold (date_of y).
  destruct (date_of y), (date_of x); cbn [DateViews.key_lt];
    try discriminate.
  intros _. split; discriminate.
Qed.

(** When the sort returns, it returns all the entries, and every entry of
    a list of two or more was compared and is dated. *)
Lemma sorted_by_date_returns (l s : list (Z * Payment.t)) :
  DateViews.sorted_by_date l = Some s ->
  Permutation s l /\
  ((2 <= List.length l)%nat -> Forall (fun e => date_of e <> None) l).
Proof.
  revert s. induction l as [|x l IH]; intros s;
    cbn [DateViews.sorted_by_date].
  - intros [= <-]. split; [reflexivity|]. cbn. lia.
  - destruct (DateViews.sorted_by_date l) as [s'|]; [|discriminate].
    destruct (IH s' eq_refl) as [Hperm Hdated]. intros Hins.
    pose proof (insert_by_date_Permutation x s' s Hins) as Hp.
    split; [rewrite Hp; now constructor|].
    intros Hlen. cbn [List.length] in Hlen.
    destruct s' as [|y s''].
    + apply Permutation_nil in Hperm. subst l. cbn in Hlen. lia.
    + destruct (insert_by_date_compares x y s'' s Hins) as [Hx Hy].
      constructor; [exact Hx|].
      destruct l as [|z [|z' l]].
      * cbn in Hlen. lia.
      * apply Permutation_sym, Permutation_length_1_inv in Hperm.
        injection Hperm as -> _.
        constructor; [exact Hy|constructor].
      * apply Hdated. cbn. lia.
Qed.

(** The sort raises exactly on a list of two or more entries one of which
    has no date. *)
Lemma sorted_by_date_raises_iff (l : list (Z * Payment.t)) :
  DateViews.sorted_by_date l = None
  <-> (2 <= List.length l)%nat /\ Exists (fun e => date_of e = None) l.
Proof.
  split.
  - intros Hnone. split.
    + destruct l as [|x [|y l]]; cbn in Hnone |- *; try discriminate. lia.
    + assert (Hdec : forall e : Z * Payment.t,
                {date_of e <> None} + {~ date_of e <> None}).
      { intros e. destruct (date_of e); [left|right]; congruence. }
      destruct (Forall_Exists_dec _ Hdec l) as [Hall|Hex].
      * destruct (sorted_by_date_dated l Hall) as (s & Hs & _). congruence.
      * eapply Exists_impl; [|exact Hex]. intros e He. cbn beta in He.
        destruct (date_of e); [exfalso; apply He; discriminate|reflexivity].
  - intros [Hlen Hex].
    destruct (DateViews.sorted_by_date l) as [s|] eqn:Hs; [|reflexivity].
    exfalso. destruct (sorted_by_date_returns l s Hs) as [_ Hdated].
    specialize (Hdated Hlen). rewrite Forall_forall in Hdated.
    apply Exists_exists in Hex. destruct Hex as (e & Hin & He).
    exact (Hdated e Hin He).
Qed.

Lemma StronglySorted_last {A : Type} (R : A -> A -> Prop) (l : list A)
    (z : A) :
  StronglySorted R (l ++ [z]) -> Forall (fun y => R y z) l.
Proof.
  induction l as [|a l IH]; cbn [app]; intros Hs; [constructor|].
  apply StronglySorted_inv in Hs. destruct Hs as [Hs Ha].
  constructor; [|exact (IH Hs)].
  rewrite Forall_forall in Ha. apply Ha. apply in_or_app. right. now left.
Qed.

(** What the two properties compute on a registry as [__init__] leaves
    it. *)
Lemma earliest_payment_outcome (db : DonorDatabase.t) :
  fst (DateViews.earliest_payment (DateViews.of_registry db))
  = match DateViews.sorted_by_date (DonorDatabase._payments db) with
    | None => DateViews.Raises DateViews.TypeError
    | Some [] => DateViews.Raises DateViews.IndexError
    | Some (e :: _) => DateViews.Returns (date_of e)
    end.
Proof.
  unfold DateViews.earliest_payment, DateViews.payments_by_date_list,
    DateViews._create_payments_by_date, DateViews.of_registry.
  cbn [DateViews._payments_by_date_list DateViews._payments].
  destruct (DateViews.sorted_by_date (DonorDatabase._payments db))
    as [[|e s]|]; reflexivity.
Qed.

Lemma latest_payment_outcome (db : DonorDatabase.t) :
  fst (DateViews.latest_payment (DateViews.of_registry db))
  = match DateViews.sorted_by_date (DonorDatabase._payments db) with
    | None => DateViews.Raises DateViews.TypeError
    | Some s =>
        match rev s with
        | [] => DateViews.Raises DateViews.IndexError
        | e :: _ => DateViews.Returns (date_of e)
        end
    end.
Proof.
  unfold DateViews.latest_payment, DateViews.payments_by_date_list,
    DateViews._create_payments_by_date, DateViews.of_registry.
  cbn [DateViews._payments_by_date_list DateViews._payments].
  destruct (DateViews.sorted_by_date (DonorDatabase._payments db))
    as [s|]; [|reflexivity].
  cbn [fst snd DateViews._payments_by_date_list].
  unfold PyDict.values. rewrite <- map_rev.
  destruct (rev s); reflexivity.
Qed.

(** After [earliest_payment], [latest_payment] reads the cached list. *)
Lemma latest_payment_cached (db : DonorDatabase.t) :
  DateViews.sorted_by_date (DonorDatabase._payments db) <> None ->
  fst (DateViews.latest_payment
         (snd (DateViews.earliest_payment (DateViews.of_registry db))))
  = fst (DateViews.latest_payment (DateViews.of_registry db)).
Proof.
  unfold DateViews.latest_payment, DateViews.earliest_payment,
    DateViews.payments_by_date_list, DateViews._create_payments_by_date,
    DateViews.of_registry.
  cbn [DateViews._payments_by_date_list DateViews._payments].
  destruct (DateViews.sorted_by_date (DonorDatabase._payments db))
    as [s|]; [|congruence].
  intros _. cbn [fst snd DateViews._payments_by_date_list].
  destruct (PyDict.values s) as [|p ps] eqn:E;
    cbn [fst snd DateViews._payments_by_date_list]; rewrite ?E; reflexivity.
Qed.

(** The extremes of a non-empty list of dated payments. *)
Lemma extremes_of_dated (db : DonorDatabase.t) :
  DonorDatabase._payments db <> [] ->
  Forall (fun e => date_of e <> None) (DonorDatabase._payments db) ->
  exists first last,
    fst (DateViews.earliest_payment (DateViews.of_registry db))
    = DateViews.Returns (Some first) /\
    fst (DateViews.latest_payment (DateViews.of_registry db))
    = DateViews.Returns (Some last) /\
    fst (DateViews.latest_payment
           (snd (DateViews.earliest_payment (DateViews.of_registry db))))
    = DateViews.Returns (Some last) /\
    (exists e, In e (DonorDatabase._payments db) /\ date_of e = Some first) /\
    (exists e, In e (DonorDatabase._payments db) /\ date_of e = Some last) /\
    forall e d,
      In e (DonorDatabase._payments db) -> date_of e = Some d ->
      ~ earlier d first /\ ~ earlier last d.
Proof.
  intros Hne Hall.
  destruct (sorted_by_date_dated _ Hall) as (s & Hs & Hperm & Hsorted).
  assert (Hcached := latest_payment_cached db).
  rewrite earliest_payment_outcome, latest_payment_outcome in *.
  rewrite Hs in *. specialize (Hcached ltac:(discriminate)).
  assert (Hdated : Forall (fun e => date_of e <> None) s)
    by exact (Permutation_Forall (Permutation_sym Hperm) Hall).
  destruct s as [|e0 s'].
  { apply Permutation_nil in Hperm. contradiction. }
  destruct (exists_last (l := e0 :: s') ltac:(discriminate))
    as (pre & z & Hsplit).
  rewrite Hsplit in Hcached |- *. rewrite rev_app_distr in *. cbn [rev app] in *.
  assert (He0 : In e0 (DonorDatabase._payments db)).
  { apply (Permutation_in _ Hperm). now left. }
  assert (Hz : In z (DonorDatabase._payments db)).
  { apply (Permutation_in _ Hperm). rewrite Hsplit. apply in_or_app.
    right. now left. }
  rewrite Forall_forall in Hall.
  destruct (date_of e0) as [first|] eqn:E0; [|exfalso; exact (Hall _ He0 E0)].
  destruct (date_of z) as [last|] eqn:Ez; [|exfalso; exact (Hall _ Hz Ez)].
  exists first, last.
  split; [destruct pre; injection Hsplit as <- _; now rewrite ?E0|].
  split; [reflexivity|]. split; [exact Hcached|].
  split; [exists e0; auto|]. split; [exists z; auto|].
  intros e d Hin Hd.
  assert (Hin' : In e (e0 :: s'))
    by exact (Permutation_in _ (Permutation_sym Hperm) Hin).
  split.
  - assert (H0 : not_later e0 e).
    { destruct Hin' as [<-|Hin'].
      - apply not_later_refl. congruence.
      - pose proof (proj2 (StronglySorted_inv Hsorted)) as Hf.
        rewrite Forall_forall in Hf. exact (Hf _ Hin'). }
    unfold not_later in H0. rewrite E0, Hd in H0.
    cbn [DateViews.key_lt] in H0. injection H0 as H0.
    now apply datetime_lt_false_iff.
  - assert (H1 : not_later e z).
    { rewrite Hsplit in Hin', Hsorted. apply in_app_or in Hin'.
      destruct Hin' as [Hin'|[<-|[]]].
      - pose proof (StronglySorted_last _ _ _ Hsorted) as Hf.
        rewrite Forall_forall in Hf. exact (Hf _ Hin').
      - apply not_later_refl. congruence. }
    unfold not_later in H1. rewrite Ez, Hd in H1.
    cbn [DateViews.key_lt] in H1. injection H1 as H1.
    now apply datetime_lt_false_iff.
Qed.

(** [earliest_payment] and [latest_payment] on a registry as [__init__]
    leaves it raise [IndexError] exactly when the registry holds no
    payment, and [TypeError] exactly when it holds two or more payments one
    of which has no posted date; [latest_payment] raises whenever
    [earliest_payment] does, and the same exception. A registry with a
    single payment returns that payment's posted date, [None] included. *)
Theorem date_views_raise_iff (db : DonorDatabase.t) :
  let self := DateViews.of_registry db in
  let payments := DonorDatabase._payments db in
  (fst (DateViews.earliest_payment self)
   = DateViews.Raises DateViews.IndexError <-> payments = []) /\
  (fst (DateViews.earliest_payment self)
   = DateViews.Raises DateViews.TypeError
   <-> (2 <= List.length payments)%nat /\
       Exists (fun e => Payment.posted_date (snd e) = None) payments) /\
  (forall e,
     fst (DateViews.latest_payment self) = DateViews.Raises e
     <-> fst (DateViews.earliest_payment self) = DateViews.Raises e) /\
  (forall e,
     payments = [e] ->
     fst (DateViews.earliest_payment self)
     = DateViews.Returns (Payment.posted_date (snd e)) /\
     fst (DateViews.latest_payment self)
     = DateViews.Returns (Payment.posted_date (snd e))).
Proof.
  intros self payments. subst self payments.
  rewrite earliest_payment_outcome, latest_payment_outcome.
  pose proof (sorted_by_date_raises_iff (DonorDatabase._payments db)) as Hiff.
  unfold date_of in Hiff.
  destruct (DateViews.sorted_by_date (DonorDatabase._payments db))
    as [s|] eqn:Hs.
  - destruct (sorted_by_date_returns _ s Hs) as [Hperm _].
    assert (Hrev : forall l : list (Z * Payment.t), rev l = [] -> l = []).
    { intros l H. apply (f_equal (@rev _)) in H.
      now rewrite rev_involutive in H. }
    split; [|split; [|split]].
    + destruct s as [|e s].
      * apply Permutation_nil in Hperm. tauto.
      * split; [discriminate|]. intros H. rewrite H in Hperm.
        apply Permutation_sym, Permutation_nil in Hperm. discriminate.
    + split.
      * destruct s; discriminate.
      * intros H. apply Hiff in H. discriminate.
    + intros e. destruct s as [|e0 s].
      * reflexivity.
      * destruct (rev (e0 :: s)) eqn:E.
        -- apply Hrev in E. discriminate.
        -- split; discriminate.
    + intros e He. rewrite He in Hs. cbn in Hs. injection Hs as <-.
      split; reflexivity.
  - split; [|split; [|split]].
    + split; [discriminate|]. intros H. rewrite H in Hs. discriminate.
    + split; [intros _; now apply Hiff|reflexivity].
    + intros e. reflexivity.
    + intros e He. rewrite He in Hs. discriminate.
Qed.

(** On a registry as [__init__] leaves it that holds at least one payment,
    all payments having a posted date, [earliest_payment] and
    [latest_payment] return the posted dates of stored payments such that
    no stored payment is earlier than the first or later than the second;
    [latest_payment] returns the same date when it is read after
    [earliest_payment], from the cached list. *)
Theorem date_views_extremes (db : DonorDatabase.t) :
  DonorDatabase._payments db <> [] ->
  Forall (fun e => Payment.posted_date (snd e) <> None)
         (DonorDatabase._payments db) ->
  exists first last,
    fst (DateViews.earliest_payment (DateViews.of_registry db))
    = DateViews.Returns (Some first) /\
    fst (DateViews.latest_payment (DateViews.of_registry db))
    = DateViews.Returns (Some last) /\
    fst (DateViews.latest_payment
           (snd (DateViews.earliest_payment (DateViews.of_registry db))))
    = DateViews.Returns (Some last) /\
    (exists e, In e (DonorDatabase._payments db) /\
               Payment.posted_date (snd e) = Some first) /\
    (exists e, In e (DonorDatabase._payments db) /\
               Payment.posted_date (snd e) = Some last) /\
    forall e d,
      In e (DonorDatabase._payments db) ->
      Payment.posted_date (snd e) = Some d ->
      ~ earlier d first /\ ~ earlier last d.
Proof. exact (extremes_of_dated db). Qed.

Lemma date_views_extremes_witness :
  exists first last,
    fst (DateViews.earliest_payment
           (DateViews.of_registry
              (post (DonorDatabase.init example_strptime scenario_rows))))
    = DateViews.Returns (Some first) /\
    fst (DateViews.latest_payment
           (DateViews.of_registry
              (post (DonorDatabase.init example_strptime scenario_rows))))
    = DateViews.Returns (Some last) /\
    fst (DateViews.latest_payment
           (snd (DateViews.earliest_payment
                   (DateViews.of_registry
                      (post (DonorDatabase.init example_strptime
                               scenario_rows))))))
    = DateViews.Returns (Some last) /\
    (exists e,
       In e (DonorDatabase._payments
               (post (DonorDatabase.init example_strptime scenario_rows))) /\
       Payment.posted_date (snd e) = Some first) /\
    (exists e,
       In e (DonorDatabase._payments
               (post (DonorDatabase.init example_strptime scenario_rows))) /\
       Payment.posted_date (snd e) = Some last) /\
    forall e d,
      In e (DonorDatabase._payments
              (post (DonorDatabase.init example_strptime scenario_rows))) ->
      Payment.posted_date (snd e) = Some d ->
      ~ earlier d first /\ ~ earlier last d.
Proof.
  apply (date_views_extremes
           (post (DonorDatabase.init example_strptime scenario_rows))).
  - vm_compute. discriminate.
  - vm_compute. repeat constructor; discriminate.
Defined.

(** *** The dates of the payments of a constructed registry *)

(** Whether a date argument converts to a date. *)
Definition has_date (strptime : string -> string -> option datetime)
    (d : date_arg) : bool :=
  match Payment.convert_date strptime d with
  | Ok (Some _) => true
  | _ => false
  end.

Definition row_dated (strptime : string -> string -> option datetime)
    (row : DonorDatabase.Row) : Prop :=
  has_date strptime (DonorDatabase.actual_date row)
  || has_date strptime (DonorDatabase.posted_date row) = true.

(** A payment constructed from at least one date has both dates. *)
Lemma Payment_new_dated (strptime : string -> string -> option datetime)
    (tid uid : Z) (ty : string) (ad pd : date_arg)
    (fn ln full em pt rm : string) (a : Q) (g : Z) (s1 s2 ci st : string)
    (po : Z) (p : Payment.t) :
  fst (Payment.new strptime tid uid ty ad pd fn ln full em pt rm a g
         s1 s2 ci st po) = Ok p ->
  has_date strptime ad || has_date strptime pd = true ->
  Payment.posted_date p <> None /\ Payment.actual_date p <> None.
Proof.
  unfold Payment.new, has_date.
  destruct (Payment.convert_date strptime ad) as [[da|]|];
    destruct (Payment.convert_date strptime pd) as [[dp|]|];
    cbn [fst orb truthy_date]; try discriminate;
    intros [= <-] _; cbn [Payment.posted_date Payment.actual_date];
    split; discriminate.
Qed.

Section DatedRows.
Variable strptime : string -> string -> option datetime.

(** The registry after the rows [pre], all dated: every stored payment has
    a posted date, and there is one as soon as there was a row. *)
Definition dated_registry (pre : list DonorDatabase.Row)
    (db : DonorDatabase.t) : Prop :=
  ledgers pre db /\
  (Forall (row_dated strptime) pre ->
   Forall (fun e => date_of e <> None) (DonorDatabase._payments db)) /\
  (pre <> [] -> DonorDatabase._payments db <> []).

Lemma ingest_row_dated (pre : list DonorDatabase.Row)
    (row : DonorDatabase.Row) (db : DonorDatabase.t) :
  dated_registry pre db ->
  res (DonorDatabase.ingest_row strptime row db) = Ok tt ->
  dated_registry (pre ++ [row])
    (post (DonorDatabase.ingest_row strptime row db)).
Proof.
  intros (Hl & Hdated & _) Hres.
  split; [now apply ingest_row_ledgers|].
  destruct (ingest_row_accepted strptime row db (ledgers_ids pre db Hl) Hres)
    as (d0 & p & cur & _ & Hp & _ & -> & _).
  cbn [DonorDatabase.set_payments DonorDatabase.set_donors
       DonorDatabase._payments].
  split.
  - intros Hall. apply Forall_app in Hall. destruct Hall as [Hpre Hrow].
    apply Forall_set; [exact (Hdated Hpre)|].
    unfold date_of. cbn [snd]. unfold row_payment in Hp.
    exact (proj1 (Payment_new_dated _ _ _ _ _ _ _ _ _ _ _ _ _ _ _ _ _ _ _
                    p Hp (Forall_inv Hrow))).
  - intros _ Hempty.
    pose proof (len_set_pos (DonorDatabase.transaction_id row) p
                  (DonorDatabase._payments db)) as Hlen.
    rewrite Hempty in Hlen. cbn in Hlen. lia.
Qed.

Lemma init_dated (rows : list DonorDatabase.Row) :
  res (DonorDatabase.init strptime rows) = Ok tt ->
  dated_registry rows (post (DonorDatabase.init strptime rows)).
Proof.
  intros Hres. unfold DonorDatabase.init in *.
  refine (for_each_trace (DonorDatabase.ingest_row strptime)
            (fun pre db _ => dated_registry pre db)
            (fun pre x s _ => ingest_row_dated pre x s)
            rows [] DonorDatabase.empty [] _ Hres).
  split; [exact ledgers_empty|]. split.
  - intros _. constructor.
  - intros H. now contradiction H.
Qed.
End DatedRows.

(** On a registry constructed from at least one row, every row carrying a
    nominal or a posted date that converts, every stored payment has both
    dates, and [earliest_payment] and [latest_payment] return dates, the
    second not earlier than the first. *)
Theorem init_date_views (strptime : string -> string -> option datetime)
    (rows : list DonorDatabase.Row) :
  res (DonorDatabase.init strptime rows) = Ok tt ->
  rows <> [] ->
  Forall (row_dated strptime) rows ->
  let db := post (DonorDatabase.init strptime rows) in
  Forall (fun e => Payment.posted_date (snd e) <> None)
         (DonorDatabase._payments db) /\
  exists first last,
    fst (DateViews.earliest_payment (DateViews.of_registry db))
    = DateViews.Returns (Some first) /\
    fst (DateViews.latest_payment (DateViews.of_registry db))
    = DateViews.Returns (Some last) /\
    ~ earlier last first.
Proof.
  intros Hres Hne Hall db.
  destruct (init_dated strptime rows Hres) as (_ & Hdated & Hsome).
  fold db in Hdated, Hsome.
  split; [exact (Hdated Hall)|].
  destruct (extremes_of_dated db (Hsome Hne) (Hdated Hall))
    as (first & last & He & Hl & _ & (e & Hin & Hd) & _ & Hb).
  exists first, last. split; [exact He|]. split; [exact Hl|].
  exact (proj2 (Hb e first Hin Hd)).
Qed.

Lemma init_date_views_witness :
  let db := post (DonorDatabase.init example_strptime scenario_rows) in
  Forall (fun e => Payment.posted_date (snd e) <> None)
         (DonorDatabase._payments db) /\
  exists first last,
    fst (DateViews.earliest_payment (DateViews.of_registry db))
    = DateViews.Returns (Some first) /\
    fst (DateViews.latest_payment (DateViews.of_registry db))
    = DateViews.Returns (Some last) /\
    ~ earlier last first.
Proof.
  apply (init_date_views example_strptime scenario_rows).
  - vm_compute. reflexivity.
  - discriminate.
  - vm_compute. repeat constructor.
Defined.
